(** * income-clarity: the Dropbox helper scripts

    A shallow embedding of the three scripts under
    [income-clarity-app/scripts]:

    - [dropbox-refresh-token.py]  (module [DropboxRefreshToken]),
    - [dropbox-oauth-setup.py]    (module [DropboxOAuthSetup]),
    - [dropbox-api.py]            (module [DropboxApi]),

    over a small model of the Python primitives they use (module [Py]) and of
    the process environment they act on (module [Sys]): the file system, the
    remote HTTP endpoints, the terminal and the browser connection.

    Text is modelled as [string], one [ascii] per code point below 256; a file
    is the sequence of its characters as stored, its encoding being taken to
    represent every character written.  Reading a file in text mode goes
    through Python's universal newlines: a carriage return, alone or
    followed by a line feed, is read as a line feed.  The scripts are taken
    to run on a POSIX system (the application's [server.py] needs a
    pseudo-terminal), so that writing in text mode stores the text as it
    is. *)

From Stdlib Require Import ZArith Ascii String List Bool Lia.
From stdpp Require Import base option list strings gmap pretty.

Local Open Scope Z_scope.

(* ===================================================================== *)
(** ** Python string primitives *)
(* ===================================================================== *)

Module Py.

Definition LF : ascii := "010"%char.
Definition CR : ascii := "013"%char.

(** [c.isspace()] for a single character: TAB..CR, FS..US, space, NEL and
    the no-break space. *)
Definition isspace (c : ascii) : bool :=
  let n := N_of_ascii c in
  ((9 <=? n) && (n <=? 13) || (28 <=? n) && (n <=? 32)
   || (n =? 133) || (n =? 160))%N.

Fixpoint lstrip (s : string) : string :=
  match s with
  | EmptyString => EmptyString
  | String c r => if isspace c then lstrip r else s
  end.

Fixpoint rstrip (s : string) : string :=
  match s with
  | EmptyString => EmptyString
  | String c r =>
      match rstrip r with
      | EmptyString => if isspace c then EmptyString else String c EmptyString
      | r' => String c r'
      end
  end.

(** [s.strip()] *)
Definition strip (s : string) : string := rstrip (lstrip s).

(** [s.startswith(p)] *)
Fixpoint startswith (s p : string) {struct p} : bool :=
  match p, s with
  | EmptyString, _ => true
  | String _ _, EmptyString => false
  | String a p', String b s' => Ascii.eqb a b && startswith s' p'
  end.

(** [c in s] for a one-character needle. *)
Fixpoint contains (c : ascii) (s : string) : bool :=
  match s with
  | EmptyString => false
  | String b r => Ascii.eqb b c || contains c r
  end.

(** [needle in s] for two texts. *)
Fixpoint in_str (needle s : string) : bool :=
  startswith s needle
  || match s with
     | EmptyString => false
     | String _ r => in_str needle r
     end.

(** [s.split(sep, 1)]: one element when [sep] does not occur, two otherwise
    (the text before and after the first occurrence). *)
Fixpoint split1 (sep : ascii) (s : string) : list string :=
  match s with
  | EmptyString => [EmptyString]
  | String c r =>
      if Ascii.eqb c sep then [EmptyString; r]
      else match split1 sep r with
           | h :: t => String c h :: t
           | [] => [s]
           end
  end.

(** What the text layer makes of the bytes of a file opened for reading with
    the default [newline=None]: CR LF and a lone CR both become LF. *)
Fixpoint universal_newlines (s : string) : string :=
  match s with
  | EmptyString => EmptyString
  | String c r =>
      if Ascii.eqb c CR then
        match r with
        | String d r' =>
            if Ascii.eqb d LF then String LF (universal_newlines r')
            else String LF (universal_newlines r)
        | EmptyString => String LF EmptyString
        end
      else String c (universal_newlines r)
  end.

(** Iterating over the text of a file opened in text mode, that is over
    [universal_newlines] of its bytes: the lines, each keeping its line feed;
    the last one has none when the text does not end with one. *)
Fixpoint iter_lines (s : string) : list string :=
  match s with
  | EmptyString => []
  | String c r =>
      if Ascii.eqb c LF then String c EmptyString :: iter_lines r
      else match iter_lines r with
           | [] => [String c EmptyString]
           | l :: ls => String c l :: ls
           end
  end.

(** [f.writelines(lines)] writes the concatenation. *)
Definition join_lines (lines : list string) : string :=
  fold_right String.append EmptyString lines.

(** [s[:n]] *)
Fixpoint slice_to (n : nat) (s : string) : string :=
  match n, s with
  | S n', String c r => String c (slice_to n' r)
  | _, _ => EmptyString
  end.

(** Truth value of an [Optional[str]]: [None] and the empty string are
    false. *)
Definition truthy (o : option string) : bool :=
  match o with
  | Some (String _ _) => true
  | _ => false
  end.

(** [str(x)] inside an f-string, for an [Optional[str]]. *)
Definition format_opt (o : option string) : string :=
  match o with
  | Some s => s
  | None => "None"
  end.

(** ["=" * n] *)
Fixpoint repeat_char (c : ascii) (n : nat) : string :=
  match n with
  | O => EmptyString
  | S n' => String c (repeat_char c n')
  end.

End Py.

(* ===================================================================== *)
(** ** The process environment *)
(* ===================================================================== *)

Module Sys.

(** The exceptions the scripts can meet, with the text [str(e)] shows. *)
Inductive Exn :=
| ValueError (msg : string)
| KeyError (key : string)
| IndexError (msg : string)
| TypeError (msg : string)
| FileNotFoundError (path : string)
| JSONDecodeError (msg : string)
| ConnectionError (msg : string).

Definition exn_str (e : Exn) : string :=
  match e with
  | ValueError m | IndexError m | TypeError m | JSONDecodeError m
  | ConnectionError m => m
  | KeyError k => "'" +:+ k +:+ "'"
  | FileNotFoundError p =>
      "[Errno 2] No such file or directory: '" +:+ p +:+ "'"
  end.

(** How a computation ends: with a value, with a raised exception, or by
    ending the process ([sys.exit], [os._exit]). *)
Inductive Outcome (A : Type) :=
| Ret (a : A)
| Raise (e : Exn)
| Exit (code : Z).
Arguments Ret {A} a.
Arguments Raise {A} e.
Arguments Exit {A} code.

(** The flat dictionaries handed to [json=] and [json.dumps]. *)
Inductive JScalar :=
| JStr (s : string)
| JInt (n : Z)
| JBool (b : bool).

Inductive HeaderVal :=
| Plain (s : string)
| JsonDumps (j : list (string * JScalar)).

Inductive Payload :=
| NoPayload
| FormData (fields : list (string * option string))
| JsonPayload (j : list (string * JScalar))
| RawBytes (bytes : string).

(** One [requests.post] call. *)
Record Request := {
  url : string;
  headers : list (string * HeaderVal);
  payload : Payload
}.

(** A file entry of a folder listing. *)
Record Entry := { tag : string; name : string; size : Z }.

(** A member of a decoded JSON object, as far as the scripts look at it: they
    format it ([str(v)], in an f-string), slice it ([v[:20]]) and append a
    text to the slice.  A text takes all three.  A list is formatted and
    sliced - [shown_head] is [str(v[:20])] - but takes no text appended.  Any
    other value, a number, [True], [False], [None] or an object, is formatted
    only: [unsliced] is the exception [v[:20]] raises. *)
Inductive JsonValue :=
| JText (s : string)
| JList (shown shown_head : string)
| JOther (shown : string) (unsliced : Exn).

(** A decoded JSON object: its members, and the value of its ['entries']
    member when that is a list of entries. *)
Record JsonObject := {
  members : gmap string JsonValue;
  entries : option (list Entry)
}.

(** What [response.json()] returns: an object; a list, of which [texts] are
    the elements that are texts; a text; or a number, [True], [False] or
    [None], of the Python type named. *)
Inductive Json :=
| Object (o : JsonObject)
| Array (texts : list string)
| Text (s : string)
| Atom (type_name : string).

(** What the scripts read of a [requests.Response]; [json] is [None] when
    [response.json()] raises. *)
Record Response := {
  status_code : Z;
  text : string;
  content : string;
  json : option Json
}.

Inductive NetReply :=
| Reply (r : Response)
| NetDown (msg : string).

(** What the setup script does to the browser: the page it opens, and what
    the callback handler answers - an error page ([send_error]), a status
    line with its headers ([send_response], [send_header], [end_headers]),
    and the success page written after them ([wfile.write]). *)
Inductive BrowserReply :=
| OpenUrl (u : string)
| SendError (code : Z) (message : string)
| SendResponse (code : Z)
| WritePage (access_preview refresh_preview : string).

(** The world a script runs in.  [remote] is the behaviour of the HTTP
    endpoints: the answer to a request given the requests sent before it. *)
Record World := {
  fs : gmap string string;
  net : list Request;
  stdout : list string;
  browser : list BrowserReply;
  remote : list Request -> Request -> NetReply
}.

(** The four ways a script changes its world. *)
Definition log_stdout (line : string) (w : World) : World :=
  {| fs := fs w; net := net w; stdout := stdout w ++ [line];
     browser := browser w; remote := remote w |}.

Definition log_net (req : Request) (w : World) : World :=
  {| fs := fs w; net := net w ++ [req]; stdout := stdout w;
     browser := browser w; remote := remote w |}.

Definition log_browser (b : BrowserReply) (w : World) : World :=
  {| fs := fs w; net := net w; stdout := stdout w;
     browser := browser w ++ [b]; remote := remote w |}.

Definition set_file (p s : string) (w : World) : World :=
  {| fs := <[p := s]> (fs w); net := net w; stdout := stdout w;
     browser := browser w; remote := remote w |}.

Definition M (A : Type) : Type := World -> Outcome A * World.

Definition ret {A} (a : A) : M A := fun w => (Ret a, w).

Definition bind {A B} (m : M A) (k : A -> M B) : M B :=
  fun w =>
    match m w with
    | (Ret a, w') => k a w'
    | (Raise e, w') => (Raise e, w')
    | (Exit c, w') => (Exit c, w')
    end.

Definition raise {A} (e : Exn) : M A := fun w => (Raise e, w).

(** [sys.exit(code)] and [os._exit(code)] *)
Definition exit {A} (code : Z) : M A := fun w => (Exit code, w).

(** [try: m  except Exception as e: h e] *)
Definition try_except {A} (m : M A) (h : Exn -> M A) : M A :=
  fun w =>
    match m w with
    | (Raise e, w') => h e w'
    | r => r
    end.

Definition print (line : string) : M unit :=
  fun w => (Ret tt, log_stdout line w).

(** [requests.post]: the request goes out, then the endpoint answers. *)
Definition post (req : Request) : M Response :=
  fun w =>
    match remote w (net w) req with
    | Reply r => (Ret r, log_net req w)
    | NetDown msg => (Raise (ConnectionError msg), log_net req w)
    end.

(** [response.json()] *)
Definition response_json (r : Response) : M Json :=
  match json r with
  | Some j => ret j
  | None => raise (JSONDecodeError "Expecting value")
  end.

(** [key in d] on a decoded object *)
Definition has_key (o : JsonObject) (key : string) : bool :=
  match members o !! key with
  | Some _ => true
  | None => false
  end.

(** [key in j] on whatever was decoded: a key of an object, an element of a
    list, a part of a text; a number, [True], [False] and [None] have no
    [in]. *)
Definition key_in (key : string) (j : Json) : M bool :=
  match j with
  | Object o => ret (has_key o key)
  | Array texts => ret (existsb (String.eqb key) texts)
  | Text s => ret (Py.in_str key s)
  | Atom t =>
      raise (TypeError ("argument of type '" +:+ t +:+ "' is not iterable"))
  end.

(** [j[key]] on whatever was decoded, for a key that is a text. *)
Definition getitem (j : Json) (key : string) : M JsonValue :=
  match j with
  | Object o =>
      match members o !! key with
      | Some v => ret v
      | None => raise (KeyError key)
      end
  | Array _ =>
      raise (TypeError "list indices must be integers or slices, not str")
  | Text _ => raise (TypeError "string indices must be integers, not 'str'")
  | Atom t => raise (TypeError ("'" +:+ t +:+ "' object is not subscriptable"))
  end.

(** [str(v)], as an f-string formats a member. *)
Definition py_str (v : JsonValue) : string :=
  match v with
  | JText s => s
  | JList shown _ => shown
  | JOther shown _ => shown
  end.

(** [f"{v[:20]}"] *)
Definition head20 (v : JsonValue) : M string :=
  match v with
  | JText s => ret (Py.slice_to 20 s)
  | JList _ shown_head => ret shown_head
  | JOther _ e => raise e
  end.

(** The double quote, for the messages that hold one. *)
Definition dq : string := String "034"%char EmptyString.

(** [v[:20] + '...'] *)
Definition preview (v : JsonValue) : M string :=
  match v with
  | JText s => ret (Py.slice_to 20 s +:+ "...")
  | JList _ _ =>
      raise (TypeError ("can only concatenate list (not " +:+ dq +:+ "str"
                        +:+ dq +:+ ") to list"))
  | JOther _ e => raise e
  end.

(** [path.exists()] *)
Definition path_exists (p : string) : M bool :=
  fun w => (Ret (match fs w !! p with Some _ => true | None => false end), w).

(** [open(p)] in text mode, for reading: the text the text layer presents
    for the bytes of the file. *)
Definition read_text (p : string) : M string :=
  fun w =>
    match fs w !! p with
    | Some s => (Ret (Py.universal_newlines s), w)
    | None => (Raise (FileNotFoundError p), w)
    end.

(** [open(p, 'rb')] and [f.read()]: the bytes. *)
Definition read_bytes (p : string) : M string :=
  fun w =>
    match fs w !! p with
    | Some s => (Ret s, w)
    | None => (Raise (FileNotFoundError p), w)
    end.

(** [open(p, 'w')]: the file is created, or emptied. *)
Definition open_w (p : string) : M unit :=
  fun w => (Ret tt, set_file p "" w).

(** [f.write(s)] and [f.writelines] on the file opened at [p]: the text goes
    after what the block has written so far, and is in the file when the
    [with] block is left, be it by an exception. *)
Definition f_write (p s : string) : M unit :=
  fun w =>
    (Ret tt,
     set_file p (match fs w !! p with Some old => old | None => "" end +:+ s)
       w).

(** [open(p, 'wb')] with its one [f.write(s)]. *)
Definition write_bytes (p s : string) : M unit :=
  fun w => (Ret tt, set_file p s w).

(** [webbrowser.open], [send_error], [send_response] with its headers, and
    [wfile.write]. *)
Definition send (b : BrowserReply) : M unit :=
  fun w => (Ret tt, log_browser b w).

End Sys.

Export Sys.

Notation "'let!' x ':=' m 'in' k" := (bind m (fun x => k))
  (at level 10, x name, m at level 200, k at level 200, only parsing).
Notation "m ';>' k" := (bind m (fun _ => k))
  (at level 100, k at level 200, right associativity, only parsing).

(** The credentials file, [Path(__file__).parent.parent / '.env.dropbox']. *)
Definition env_path : string := ".env.dropbox".

(* ===================================================================== *)
(** ** dropbox-refresh-token.py *)
(* ===================================================================== *)

Module DropboxRefreshToken.

Import Py.

(** The body of the loop of [load_env]: blank lines, comments and lines
    without ['='] are skipped. *)
Definition load_env_line (env_vars : gmap string string) (line : string)
  : gmap string string :=
  let line := strip line in
  if negb (String.eqb line "") && negb (startswith line "#") then
    if contains "=" line then
      match split1 "=" line with
      | [key; value] => <[key := value]> env_vars
      | _ => env_vars
      end
    else env_vars
  else env_vars.

Definition load_env : M (gmap string string) :=
  let! present := path_exists env_path in
  if (present : bool) then
    let! f := read_text env_path in
    ret (fold_left load_env_line (iter_lines f) ∅)
  else ret ∅.

Definition token_url : string := "https://api.dropboxapi.com/oauth2/token".
Definition list_folder_url : string :=
  "https://api.dropboxapi.com/2/files/list_folder".

Definition refresh_request (refresh_token : string)
    (app_key app_secret : option string) : Request :=
  {| url := token_url;
     headers := [];
     payload := FormData [("grant_type", Some "refresh_token");
                          ("refresh_token", Some refresh_token);
                          ("client_id", app_key);
                          ("client_secret", app_secret)] |}.

(** The loop that rebuilds the lines of the credentials file. *)
Definition rewrite_line (new_access_token line : string) : string :=
  if startswith line "DROPBOX_ACCESS_TOKEN=" then
    "DROPBOX_ACCESS_TOKEN=" +:+ new_access_token +:+ String LF ""
  else line.

Definition msg_no_refresh_token : string :=
  "❌ No refresh token found. Run dropbox-oauth-setup.py first.".
Definition msg_refreshed : string := "✅ Access token refreshed successfully!".
Definition msg_no_access_token : string := "❌ No access token found".
Definition msg_token_working : string := "✅ Current token is working".
Definition msg_token_expired : string := "⚠️ Token expired, refreshing...".

Definition refresh_access_token : M bool :=
  let! env := load_env in
  let refresh_token := env !! "DROPBOX_REFRESH_TOKEN" in
  let app_key := env !! "DROPBOX_APP_KEY" in
  let app_secret := env !! "DROPBOX_APP_SECRET" in
  if negb (truthy refresh_token) then
    print msg_no_refresh_token ;>
    ret false
  else
    let! response :=
      post (refresh_request (format_opt refresh_token) app_key app_secret) in
    if status_code response =? 200 then
      let! tokens := response_json response in
      let! new_access_token := getitem tokens "access_token" in
      let! f := read_text env_path in
      let lines :=
        map (rewrite_line (py_str new_access_token)) (iter_lines f) in
      open_w env_path ;>
      f_write env_path (join_lines lines) ;>
      print msg_refreshed ;>
      let! head := head20 new_access_token in
      print ("New token: " +:+ head +:+ "...") ;>
      ret true
    else
      print ("❌ Failed to refresh token: " +:+ text response) ;>
      ret false.

Definition probe_request (access_token : string) : Request :=
  {| url := list_folder_url;
     headers := [("Authorization", Plain ("Bearer " +:+ access_token));
                 ("Content-Type", Plain "application/json")];
     payload := JsonPayload [("path", JStr ""); ("limit", JInt 1)] |}.

Definition test_token : M bool :=
  let! env := load_env in
  let access_token := env !! "DROPBOX_ACCESS_TOKEN" in
  if negb (truthy access_token) then
    print msg_no_access_token ;>
    ret false
  else
    let! response := post (probe_request (format_opt access_token)) in
    if status_code response =? 200 then
      print msg_token_working ;>
      ret true
    else if status_code response =? 401 then
      print msg_token_expired ;>
      ret false
    else
      print ("❌ API error: " +:+ text response) ;>
      ret false.

Definition main : M unit :=
  print "🔄 Dropbox Token Manager" ;>
  print (repeat_char "=" 50) ;>
  let! working := test_token in
  if negb working then
    let! refreshed := refresh_access_token in
    if (refreshed : bool) then
      test_token ;>
      ret tt
    else ret tt
  else ret tt.

End DropboxRefreshToken.

(* ===================================================================== *)
(** ** dropbox-oauth-setup.py *)
(* ===================================================================== *)

Module DropboxOAuthSetup.

Import Py.

Definition APP_KEY : string := "atbm6yt8kq7n02y".
Definition APP_SECRET : string := "0eckclu7ov3jilv".
Definition REDIRECT_URI : string := "http://localhost:8080/oauth_callback".
Definition PORT : Z := 8080.

Definition token_url : string := "https://api.dropboxapi.com/oauth2/token".

Definition exchange_request (code : string) : Request :=
  {| url := token_url;
     headers := [];
     payload := FormData [("code", Some code);
                          ("grant_type", Some "authorization_code");
                          ("client_id", Some APP_KEY);
                          ("client_secret", Some APP_SECRET);
                          ("redirect_uri", Some REDIRECT_URI)] |}.

(** The test of the loop that reads the existing content. *)
Definition keep_line (line : string) : bool :=
  negb (startswith line "DROPBOX_ACCESS_TOKEN=")
  && negb (startswith line "DROPBOX_REFRESH_TOKEN=").

(** What the [with open(env_path, 'w')] block has written when it is left
    with no exception, for the tokens as they are formatted. *)
Definition updated_content (existing_lines : list string)
    (access_token : string) (refresh_token : option string) : string :=
  join_lines existing_lines
  +:+ String LF "DROPBOX_ACCESS_TOKEN=" +:+ access_token +:+ String LF ""
  +:+ match refresh_token with
      | Some r => "DROPBOX_REFRESH_TOKEN=" +:+ r +:+ String LF ""
      | None => ""
      end.

Definition msg_no_code : string := "No authorization code received".
Definition msg_no_access_token : string := "Failed to get access token".

Definition auth_url : string :=
  "https://www.dropbox.com/oauth2/authorize?"
  +:+ "client_id=" +:+ APP_KEY +:+ "&"
  +:+ "response_type=code&"
  +:+ "redirect_uri=" +:+ REDIRECT_URI +:+ "&"
  +:+ "token_access_type=offline&"
  +:+ "scope=files.metadata.read files.content.read files.content.write".

Section Handler.

(** The two [urllib.parse] functions of the handler: [urlparse(p).query] and
    [parse_qs]. *)
Variable urlparse_query : string -> string.
Variable parse_qs : string -> gmap string (list string).

(** [OAuthHandler.do_GET], for a request whose path is [path]. *)
Definition do_GET (path : string) : M unit :=
  if startswith path "/oauth_callback" then
    let query_components := parse_qs (urlparse_query path) in
    let! code :=
      match query_components !! "code" with
      | None => ret None
      | Some [] => raise (IndexError "list index out of range")
      | Some (c :: _) => ret (Some c)
      end in
    if truthy code then
      let! response := post (exchange_request (format_opt code)) in
      let! tokens := response_json response in
      let! granted := key_in "access_token" tokens in
      if (granted : bool) then
        let! present := path_exists env_path in
        let! existing_lines :=
          if (present : bool) then
            let! f := read_text env_path in
            ret (List.filter keep_line (iter_lines f))
          else ret [] in
        open_w env_path ;>
        f_write env_path (join_lines existing_lines) ;>
        let! access_token := getitem tokens "access_token" in
        f_write env_path
          (String LF "DROPBOX_ACCESS_TOKEN=" +:+ py_str access_token
           +:+ String LF "") ;>
        let! renewable := key_in "refresh_token" tokens in
        (if (renewable : bool) then
           let! refresh_token := getitem tokens "refresh_token" in
           f_write env_path
             ("DROPBOX_REFRESH_TOKEN=" +:+ py_str refresh_token
              +:+ String LF "")
         else ret tt) ;>
        send (SendResponse 200) ;>
        let! access_token := getitem tokens "access_token" in
        let! access_preview := preview access_token in
        let! renewable := key_in "refresh_token" tokens in
        let! refresh_preview :=
          if (renewable : bool) then
            let! refresh_token := getitem tokens "refresh_token" in
            preview refresh_token
          else ret "Not provided" in
        send (WritePage access_preview refresh_preview) ;>
        print (String LF "✅ OAuth Setup Complete!") ;>
        let! access_token := getitem tokens "access_token" in
        let! access_head := head20 access_token in
        print ("Access Token: " +:+ access_head +:+ "...") ;>
        let! renewable := key_in "refresh_token" tokens in
        (if (renewable : bool) then
           let! refresh_token := getitem tokens "refresh_token" in
           let! refresh_head := head20 refresh_token in
           print ("Refresh Token: " +:+ refresh_head +:+ "...") ;>
           print (String LF "🔄 With the refresh token, you won't need to manually update tokens anymore!")
         else
           print (String LF "⚠️ No refresh token received. You may need to request 'offline' access.")) ;>
        exit 0
      else send (SendError 400 msg_no_access_token)
    else send (SendError 400 msg_no_code)
  else ret tt.

(** [httpd.serve_forever()] over the requests that arrive, in order.  An
    exception of the handler is reported by the server and the loop goes
    on; the loop itself never returns, so [Ret tt] stands for a server that
    has handled every request so far and is still listening. *)
Fixpoint serve_forever (incoming : list string) : M unit :=
  match incoming with
  | [] => ret tt
  | path :: rest =>
      try_except (do_GET path) (fun _ => ret tt) ;>
      serve_forever rest
  end.

Definition main (incoming : list string) : M unit :=
  print "🔐 Dropbox OAuth 2.0 Setup" ;>
  print (repeat_char "=" 50) ;>
  print (String LF "📌 Opening browser to authorize Dropbox access...") ;>
  print (String LF "If browser doesn't open, visit this URL:") ;>
  print (String LF auth_url +:+ String LF "") ;>
  send (OpenUrl auth_url) ;>
  print ("🌐 Starting local server on port " +:+ pretty PORT +:+ "...") ;>
  print "Waiting for authorization callback..." ;>
  serve_forever incoming.

End Handler.

End DropboxOAuthSetup.

(* ===================================================================== *)
(** ** dropbox-api.py *)
(* ===================================================================== *)

Module DropboxApi.

Import Py.

(** A [for] loop whose body may raise. *)
Fixpoint for_each {A S} (body : S -> A -> M S) (l : list A) (s : S) : M S :=
  match l with
  | [] => ret s
  | x :: rest => let! s' := body s x in for_each body rest s'
  end.

(** What [key, value = ...] raises on a list of one element. *)
Definition unpack_error : Exn :=
  ValueError "not enough values to unpack (expected 2, got 1)".

(** The body of the loop of [load_env]: the unpacking of a line without
    ['='] raises. *)
Definition load_env_line (env_vars : gmap string string) (line : string)
  : M (gmap string string) :=
  let line := strip line in
  if negb (String.eqb line "") && negb (startswith line "#") then
    match split1 "=" line with
    | [key; value] => ret (<[key := value]> env_vars)
    | _ => raise unpack_error
    end
  else ret env_vars.

Definition load_env : M (gmap string string) :=
  let! present := path_exists env_path in
  if (present : bool) then
    let! f := read_text env_path in
    for_each load_env_line (iter_lines f) ∅
  else ret ∅.

Definition bearer (access_token : option string) : HeaderVal :=
  Plain ("Bearer " +:+ format_opt access_token).

Definition list_request (access_token : option string) : Request :=
  {| url := "https://api.dropboxapi.com/2/files/list_folder";
     headers := [("Authorization", bearer access_token);
                 ("Content-Type", Plain "application/json")];
     payload := JsonPayload
                  [("path", JStr "/DropboxImage");
                   ("recursive", JBool false);
                   ("include_media_info", JBool false);
                   ("include_deleted", JBool false);
                   ("include_has_explicit_shared_members", JBool false);
                   ("include_mounted_folders", JBool true)] |}.

(** [result['entries']], read as a list of entries. *)
Definition get_entries (result : Json) : M (list Entry) :=
  match result with
  | Object o =>
      match entries o with
      | Some es => ret es
      | None => raise (KeyError "entries")
      end
  | Array _ =>
      raise (TypeError "list indices must be integers or slices, not str")
  | Text _ => raise (TypeError "string indices must be integers, not 'str'")
  | Atom t => raise (TypeError ("'" +:+ t +:+ "' object is not subscriptable"))
  end.

Definition list_files : M (list Entry) :=
  let! env := load_env in
  let access_token := env !! "DROPBOX_ACCESS_TOKEN" in
  if negb (truthy access_token) then
    print "❌ No access token found" ;>
    ret []
  else
    try_except
      (let! response := post (list_request access_token) in
       if status_code response =? 200 then
         let! result := response_json response in
         let! listed := get_entries result in
         let files := List.filter (fun entry => String.eqb (tag entry) "file")
                        listed in
         print ("📁 Found " +:+ pretty (length files)
                +:+ " files in Dropbox:") ;>
         for_each (fun _ file =>
                     print ("  📄 " +:+ name file +:+ " ("
                            +:+ pretty (size file) +:+ " bytes)"))
                  files tt ;>
         ret files
       else
         print ("❌ API Error: " +:+ pretty (status_code response)
                +:+ " - " +:+ text response) ;>
         ret [])
      (fun e =>
         print ("❌ Error listing files: " +:+ exn_str e) ;>
         ret []).

Definition download_request (access_token : option string)
    (file_path : string) : Request :=
  {| url := "https://content.dropboxapi.com/2/files/download";
     headers := [("Authorization", bearer access_token);
                 ("Dropbox-API-Arg", JsonDumps [("path", JStr file_path)])];
     payload := NoPayload |}.

Definition download_file (file_path local_path : string) : M bool :=
  let! env := load_env in
  let access_token := env !! "DROPBOX_ACCESS_TOKEN" in
  try_except
    (let! response := post (download_request access_token file_path) in
     if status_code response =? 200 then
       write_bytes local_path (content response) ;>
       print ("  ✅ Downloaded: " +:+ file_path +:+ " → " +:+ local_path) ;>
       ret true
     else
       print ("  ❌ Download failed: " +:+ pretty (status_code response)
              +:+ " - " +:+ text response) ;>
       ret false)
    (fun e =>
       print ("  ❌ Download error: " +:+ exn_str e) ;>
       ret false).

Definition delete_request (access_token : option string)
    (file_path : string) : Request :=
  {| url := "https://api.dropboxapi.com/2/files/delete_v2";
     headers := [("Authorization", bearer access_token);
                 ("Content-Type", Plain "application/json")];
     payload := JsonPayload [("path", JStr file_path)] |}.

Definition delete_file (file_path : string) : M bool :=
  let! env := load_env in
  let access_token := env !! "DROPBOX_ACCESS_TOKEN" in
  try_except
    (let! response := post (delete_request access_token file_path) in
     if status_code response =? 200 then
       print ("  🗑️  Deleted from Dropbox: " +:+ file_path) ;>
       ret true
     else
       print ("  ❌ Delete failed: " +:+ pretty (status_code response)
              +:+ " - " +:+ text response) ;>
       ret false)
    (fun e =>
       print ("  ❌ Delete error: " +:+ exn_str e) ;>
       ret false).

Definition upload_request (access_token : option string)
    (remote_path data : string) : Request :=
  {| url := "https://content.dropboxapi.com/2/files/upload";
     headers := [("Authorization", bearer access_token);
                 ("Dropbox-API-Arg",
                  JsonDumps [("path", JStr remote_path);
                             ("mode", JStr "overwrite");
                             ("autorename", JBool false)]);
                 ("Content-Type", Plain "application/octet-stream")];
     payload := RawBytes data |}.

Definition upload_file (local_path remote_path : string) : M bool :=
  let! env := load_env in
  let access_token := env !! "DROPBOX_ACCESS_TOKEN" in
  try_except
    (let! data := read_bytes local_path in
     let! response := post (upload_request access_token remote_path data) in
     if status_code response =? 200 then
       print ("  ✅ Uploaded: " +:+ local_path +:+ " → " +:+ remote_path) ;>
       ret true
     else
       print ("  ❌ Upload failed: " +:+ pretty (status_code response)
              +:+ " - " +:+ text response) ;>
       ret false)
    (fun e =>
       print ("  ❌ Upload error: " +:+ exn_str e) ;>
       ret false).

Definition usage : string :=
  "Usage: python3 dropbox-api.py [list|download|delete|upload] [args...]".
Definition usage_download : string :=
  "Usage: python3 dropbox-api.py download <remote_path> <local_path>".
Definition usage_delete : string :=
  "Usage: python3 dropbox-api.py delete <remote_path>".
Definition usage_upload : string :=
  "Usage: python3 dropbox-api.py upload <local_path> <remote_path>".
Definition available_commands : string :=
  "Available commands: list, download, delete, upload".

(** [sys.argv[i]], read only after the length has been checked. *)
Definition arg (argv : list string) (i : nat) : string := nth i argv "".

(** [main], for the argument vector [sys.argv]. *)
Definition main (argv : list string) : M unit :=
  (if (length argv <? 2)%nat then print usage ;> exit 1 else ret tt) ;>
  let command := arg argv 1 in
  if String.eqb command "list" then
    list_files ;> ret tt
  else if String.eqb command "download" then
    (if (length argv <? 4)%nat then print usage_download ;> exit 1
     else ret tt) ;>
    let remote_path := arg argv 2 in
    let local_path := arg argv 3 in
    download_file remote_path local_path ;> ret tt
  else if String.eqb command "delete" then
    (if (length argv <? 3)%nat then print usage_delete ;> exit 1
     else ret tt) ;>
    let remote_path := arg argv 2 in
    delete_file remote_path ;> ret tt
  else if String.eqb command "upload" then
    (if (length argv <? 4)%nat then print usage_upload ;> exit 1
     else ret tt) ;>
    let local_path := arg argv 2 in
    let remote_path := arg argv 3 in
    upload_file local_path remote_path ;> ret tt
  else
    print ("Unknown command: " +:+ command) ;>
    print available_commands ;>
    exit 1.

End DropboxApi.

(* ===================================================================== *)
(** ** The credential store as its readers see it *)
(* ===================================================================== *)

Module Store.

Import Py.

Definition access_prefix : string := "DROPBOX_ACCESS_TOKEN=".
Definition refresh_prefix : string := "DROPBOX_REFRESH_TOKEN=".

(** The key and value both [load_env] functions take from a line that has
    text, is no comment and contains ['=']. *)
Definition line_entry (line : string) : option (string * string) :=
  let line := strip line in
  if negb (String.eqb line "") && negb (startswith line "#")
     && contains "=" line then
    match split1 "=" line with
    | [key; value] => Some (key, value)
    | _ => None
    end
  else None.

Definition line_key (line : string) : option string :=
  fst <$> line_entry line.

(** The lines Python reads from a file with the bytes [content]. *)
Definition text_lines (content : string) : list string :=
  iter_lines (universal_newlines content).

(** The keys of a credentials file, one per line that carries an entry. *)
Definition keys_of (content : string) : list string :=
  omap line_key (text_lines content).

(** The store invariant: at most one line per key. *)
Definition one_line_per_key (content : string) : Prop :=
  NoDup (keys_of content).

(** A line [dropbox-api.py] can read: blank, a comment, or with ['=']. *)
Definition parsable (line : string) : bool :=
  let line := strip line in
  String.eqb line "" || startswith line "#" || contains "=" line.

(** The lines of the credentials file of a world; none when it is absent. *)
Definition store_lines (w : World) : list string :=
  match fs w !! env_path with
  | Some f => text_lines f
  | None => []
  end.

(** The mapping the refresh utility's [load_env] builds from them. *)
Definition stored_env (w : World) : gmap string string :=
  fold_left DropboxRefreshToken.load_env_line (store_lines w) ∅.

(** A text that is empty or ends with a line feed. *)
Fixpoint closed (s : string) : bool :=
  match s with
  | EmptyString => true
  | String c EmptyString => Ascii.eqb c LF
  | String _ r => closed r
  end.

(** One line: not empty, and no line feed before its last character. *)
Fixpoint single_line (s : string) : bool :=
  match s with
  | EmptyString => false
  | String c EmptyString => true
  | String c r => negb (Ascii.eqb c LF) && single_line r
  end.

(** The shape of what line iteration yields: single lines, each closed
    except possibly the last. *)
Fixpoint wf_lines (ls : list string) : bool :=
  match ls with
  | [] => true
  | [l] => single_line l
  | l :: rest => single_line l && closed l && wf_lines rest
  end.

(** What line iteration reads, after a line feed, where the well-formed lines
    [ls] were written: an unterminated last line is completed, otherwise a
    blank line appears. *)
Fixpoint close_last (ls : list string) : list string :=
  match ls with
  | [] => [String LF ""]
  | [l] => if closed l then [l; String LF ""] else [l +:+ String LF ""]
  | l :: rest => l :: close_last rest
  end.


(** A line whose key is one of the two token keys starts with that key: no
    white space before it. *)
Definition flush_line (l : string) : bool :=
  match line_key l with
  | Some k =>
      if String.eqb k "DROPBOX_ACCESS_TOKEN" then startswith l access_prefix
      else if String.eqb k "DROPBOX_REFRESH_TOKEN"
           then startswith l refresh_prefix
           else true
  | None => true
  end.

Definition token_lines_flush (content : string) : bool :=
  forallb flush_line (text_lines content).

(** A text with no line break in it: neither line feed nor carriage
    return. *)
Definition plain (t : string) : bool :=
  negb (contains LF t) && negb (contains CR t).

(** A member that is absent, or is a text with no line break in it. *)
Definition plain_member (v : option JsonValue) : bool :=
  match v with
  | None => true
  | Some (JText t) => plain t
  | Some _ => false
  end.

(** The member of a decoded body under a key: none when the body is no
    object, or an object without it. *)
Definition member (j : Json) (key : string) : option JsonValue :=
  match j with
  | Object o => members o !! key
  | _ => None
  end.

(** The entries of a decoded listing: none when the body is no object, or
    an object without a list of entries. *)
Definition listed_entries (j : Json) : option (list Entry) :=
  match j with
  | Object o => entries o
  | _ => None
  end.

(** What [j[key]] raises when there is no such member. *)
Definition getitem_error (j : Json) (key : string) : Exn :=
  match j with
  | Object _ => KeyError key
  | Array _ => TypeError "list indices must be integers or slices, not str"
  | Text _ => TypeError "string indices must be integers, not 'str'"
  | Atom t => TypeError ("'" +:+ t +:+ "' object is not subscriptable")
  end.

(** An answer the callback handler can finish with: an object whose
    [access_token] is a text and whose [refresh_token], if it has one, is a
    text too. *)
Definition complete (j : Json) : bool :=
  match j with
  | Object o =>
      match members o !! "access_token", members o !! "refresh_token" with
      | Some (JText _), None => true
      | Some (JText _), Some (JText _) => true
      | _, _ => false
      end
  | _ => false
  end.

(** An answer without access token, as the handler tests it: an object with
    no such member, a list with no such element, a text in which the word
    does not occur. *)
Definition lacks_access_token (j : Json) : bool :=
  match j with
  | Object o => negb (has_key o "access_token")
  | Array texts => negb (existsb (String.eqb "access_token") texts)
  | Text s => negb (in_str "access_token" s)
  | Atom _ => false
  end.

(** The text of a member that is a text. *)
Definition member_text (v : option JsonValue) : option string :=
  match v with
  | Some (JText t) => Some t
  | _ => None
  end.

(** The line [test_token] prints for a response. *)
Definition probe_report (r : Response) : string :=
  if status_code r =? 200 then DropboxRefreshToken.msg_token_working
  else if status_code r =? 401 then DropboxRefreshToken.msg_token_expired
  else "❌ API error: " +:+ text r.



(** The world after the two lines [main] of the refresh utility prints
    first. *)
Definition banner (w : World) : World :=
  log_stdout (repeat_char "=" 50) (log_stdout "🔄 Dropbox Token Manager" w).

End Store.

(* ===================================================================== *)
(** ** Concrete worlds *)
(* ===================================================================== *)

Module Scenario.

Definition NL : string := String Py.LF "".

(** A fresh process: nothing sent, nothing printed yet. *)
Definition world (files : gmap string string)
    (endpoints : list Request -> Request -> NetReply) : World :=
  {| fs := files; net := []; stdout := []; browser := [];
     remote := endpoints |}.

(** A file system that holds the credentials file only. *)
Definition store (content : string) : gmap string string :=
  {[ env_path := content ]}.

(** A response whose body decodes to an object with the given members. *)
Definition object (tokens : list (string * string)) : JsonObject :=
  {| members := JText <$> list_to_map tokens; entries := None |}.

Definition reply (status : Z) (body : string)
    (tokens : list (string * string)) : Response :=
  {| status_code := status; text := body; content := body;
     json := Some (Object (object tokens)) |}.

(** Endpoints that answer the token endpoint with one response and every
    other call with another. *)
Definition endpoints (token_reply other_reply : Response)
  : list Request -> Request -> NetReply :=
  fun _ q =>
    if String.eqb (url q) "https://api.dropboxapi.com/oauth2/token"
    then Reply token_reply
    else Reply other_reply.

(** The token endpoint grants the access token [NEW]; the probed endpoint
    answers with the given status. *)
Definition granting (probe_status : Z) : list Request -> Request -> NetReply :=
  endpoints (reply 200 "" [("access_token", "NEW")])
            (reply probe_status "oops" []).

(** A token endpoint whose access token spans two lines. *)
Definition two_line_token : string := "NEW" +:+ NL +:+ "DROPBOX_REFRESH_TOKEN=X".

Definition granting_two_lines : list Request -> Request -> NetReply :=
  endpoints (reply 200 "" [("access_token", two_line_token)])
            (reply 401 "oops" []).

(** A store with both tokens, the access token gone stale. *)
Definition stale_store : string :=
  "DROPBOX_ACCESS_TOKEN=OLD" +:+ NL +:+ "DROPBOX_REFRESH_TOKEN=R" +:+ NL.

Definition stale (probe_status : Z) : World :=
  world (store stale_store) (granting probe_status).

Definition stale_two_lines : World :=
  world (store stale_store) granting_two_lines.





(** An access token with a carriage return in it. *)
Definition cr_token : string :=
  "NEW" +:+ String Py.CR "DROPBOX_REFRESH_TOKEN=X".

Definition stale_cr : World :=
  world (store stale_store)
        (endpoints (reply 200 "" [("access_token", cr_token)])
                   (reply 401 "oops" [])).






(** A store with a refresh token and no access-token line. *)
Definition refresh_only_store : string := "DROPBOX_REFRESH_TOKEN=R" +:+ NL.

Definition refresh_only : World :=
  world (store refresh_only_store) (granting 200).

(** A store whose access-token line is indented. *)
Definition indented_store : string := "  DROPBOX_ACCESS_TOKEN=OLD" +:+ NL.

Definition indented : World :=
  world (store indented_store) (granting 200).

(** No credentials file at all. *)
Definition unconfigured : World := world ∅ (granting 200).

(** A stand-in for [urlparse(p).query]: the whole path. *)
Definition whole_path (path : string) : string := path.

(** Stand-ins for [parse_qs]: a query that carries the code [AUTHCODE], and
    one that carries no code. *)
Definition with_code (query : string) : gmap string (list string) :=
  {[ "code" := ["AUTHCODE"] ]}.


End Scenario.

(* ===================================================================== *)
(** ** What a reader finds in the store *)
(* ===================================================================== *)

Module Reading.

Import Py Store.

(** The value the readers end with for [key]: that of the last line that
    carries the key. *)
Fixpoint last_value (key : string) (lines : list string) : option string :=
  match lines with
  | [] => None
  | l :: rest =>
      match last_value key rest with
      | Some v => Some v
      | None =>
          match line_entry l with
          | Some (k, v) => if String.eqb k key then Some v else None
          | None => None
          end
      end
  end.

End Reading.

(** What the [list] command prints for the files it found. *)
Module Listing.

Definition is_file (entry : Entry) : bool := String.eqb (tag entry) "file".

Definition file_line (file : Entry) : string :=
  "  📄 " +:+ name file +:+ " (" +:+ pretty (size file) +:+ " bytes)".

Definition listing (files : list Entry) : list string :=
  ("📁 Found " +:+ pretty (length files) +:+ " files in Dropbox:")
  :: map file_line files.

(** The world after a sequence of [print] calls. *)
Definition log_lines (lines : list string) (w : World) : World :=
  fold_left (fun w line => log_stdout line w) lines w.

End Listing.

(** More stores, endpoints and folders to run the scripts on. *)
Module Cases.

Import Scenario.

(** A store that gives one key twice. *)
Definition twice_store : string :=
  "DROPBOX_APP_KEY=one" +:+ NL +:+ "DROPBOX_APP_KEY=two" +:+ NL.

Definition twice : World := world (store twice_store) (granting 200).

(** The token endpoint grants an access token and a refresh token. *)
Definition both_tokens : list (string * string) :=
  [("access_token", "NEW"); ("refresh_token", "R2")].

Definition granting_both : list Request -> Request -> NetReply :=
  endpoints (reply 200 "" both_tokens) (reply 200 "" []).

Definition first_grant : World := world (store stale_store) granting_both.


(** A folder with two files and a folder in it, and the answer that lists
    it. *)
Definition folder : list Entry :=
  [ {| tag := "file"; name := "a.png"; size := 10 |};
    {| tag := "folder"; name := "old"; size := 0 |};
    {| tag := "file"; name := "b.png"; size := 20 |} ].

Definition listed : Response :=
  {| status_code := 200; text := ""; content := "PNG";
     json := Some (Object {| members := ∅; entries := Some folder |}) |}.

Definition tokened_store : string := "DROPBOX_ACCESS_TOKEN=TOK" +:+ NL.

(** A store with an access token, and endpoints that answer every request
    with the listing. *)
Definition serving : World :=
  world (store tokened_store) (fun _ _ => Reply listed).

End Cases.

(* ===================================================================== *)
(** ** Facts about text and lines *)
(* ===================================================================== *)

#[local] Arguments String.append !s1 s2 / : simpl nomatch.

Section TextFacts.

Import Py Store.

Implicit Types s t p : string.
Implicit Types ls : list string.

Lemma append_empty_r s : s +:+ "" = s.
Proof. induction s as [|c s IH]; simpl; [reflexivity | now rewrite IH]. Qed.

Lemma append_assoc s t p : (s +:+ t) +:+ p = s +:+ (t +:+ p).
Proof. induction s as [|c s IH]; simpl; [reflexivity | now rewrite IH]. Qed.

Lemma join_lines_app ls1 ls2 :
  join_lines (ls1 ++ ls2) = join_lines ls1 +:+ join_lines ls2.
Proof.
  induction ls1 as [|l ls1 IH]; simpl; [reflexivity|].
  now rewrite IH, append_assoc.
Qed.

(** Reading a file line by line loses nothing. *)
Lemma join_iter_lines s : join_lines (iter_lines s) = s.
Proof.
  induction s as [|c s IH]; simpl; [reflexivity|].
  destruct (Ascii.eqb c LF).
  - simpl. now rewrite IH.
  - destruct (iter_lines s) as [|l ls]; simpl in *; now rewrite <- IH.
Qed.

Lemma startswith_app s p : startswith (p +:+ s) p = true.
Proof.
  induction p as [|a p IH]; simpl; [reflexivity|].
  now rewrite Ascii.eqb_refl, IH.
Qed.

Lemma startswith_inv s p :
  startswith s p = true -> exists rest, s = p +:+ rest.
Proof.
  revert s. induction p as [|a p IH]; intros s H; simpl in *.
  - now exists s.
  - destruct s as [|b s]; [discriminate|].
    apply andb_prop in H as [Hab Hs].
    apply Ascii.eqb_eq in Hab as ->.
    destruct (IH _ Hs) as [rest ->]. now exists rest.
Qed.

(** Appending to a line does not change what it starts with. *)
Lemma startswith_extend s t p :
  startswith s p = true -> startswith (s +:+ t) p = true.
Proof.
  intros H. destruct (startswith_inv _ _ H) as [rest ->].
  rewrite append_assoc. apply startswith_app.
Qed.

Lemma iter_lines_cons_eq c s :
  iter_lines (String c s) =
  if Ascii.eqb c LF then String c "" :: iter_lines s
  else match iter_lines s with
       | [] => [String c ""]
       | l :: ls => String c l :: ls
       end.
Proof. reflexivity. Qed.

Lemma iter_lines_nonempty c s : iter_lines (String c s) <> [].
Proof.
  rewrite iter_lines_cons_eq. destruct (Ascii.eqb c LF); [discriminate|].
  destruct (iter_lines s); discriminate.
Qed.

Lemma iter_lines_no_empty_line s : ~ In "" (iter_lines s).
Proof.
  induction s as [|c s IH]; [intros []|].
  rewrite iter_lines_cons_eq. destruct (Ascii.eqb c LF).
  - intros [H|H]; [discriminate | contradiction].
  - destruct (iter_lines s) as [|l ls].
    + intros [H|[]]; discriminate.
    + intros [H|H]; [discriminate|]. apply IH. now right.
Qed.

Lemma wf_lines_cons l ls :
  wf_lines (l :: ls) =
  single_line l && (match ls with [] => true | _ => closed l end)
  && wf_lines ls.
Proof.
  destruct ls as [|l' ls]; simpl.
  - now rewrite !andb_true_r.
  - reflexivity.
Qed.

Lemma single_line_cons c s :
  single_line (String c s) =
  match s with
  | "" => true
  | _ => negb (Ascii.eqb c LF) && single_line s
  end.
Proof. now destruct s. Qed.

Lemma closed_cons c s :
  closed (String c s) =
  match s with "" => Ascii.eqb c LF | _ => closed s end.
Proof. now destruct s. Qed.

(** Line iteration yields well-formed lines. *)
Lemma wf_iter_lines s : wf_lines (iter_lines s) = true.
Proof.
  induction s as [|c s IH]; [reflexivity|].
  rewrite iter_lines_cons_eq. destruct (Ascii.eqb c LF) eqn:Hc.
  - rewrite wf_lines_cons, IH. simpl. rewrite Hc. now destruct (iter_lines s).
  - pose proof (iter_lines_no_empty_line s) as Hne.
    destruct (iter_lines s) as [|l ls]; [reflexivity|].
    rewrite wf_lines_cons in IH |- *.
    rewrite single_line_cons, closed_cons, Hc.
    destruct l as [|d l']; [exfalso; apply Hne; now left|].
    exact IH.
Qed.

Lemma iter_lines_single l : single_line l = true -> iter_lines l = [l].
Proof.
  induction l as [|c l IH]; [discriminate|].
  rewrite single_line_cons, iter_lines_cons_eq. destruct l as [|d l'].
  - intros _. now destruct (Ascii.eqb c LF).
  - intros H. apply andb_prop in H as [Hc Hl]. apply negb_true_iff in Hc.
    now rewrite Hc, (IH Hl).
Qed.

Lemma iter_lines_app s t :
  closed s = true -> iter_lines (s +:+ t) = iter_lines s ++ iter_lines t.
Proof.
  induction s as [|c s IH]; intros H; [reflexivity|].
  rewrite closed_cons in H. simpl String.append.
  rewrite !iter_lines_cons_eq. destruct s as [|d s'].
  - simpl. now rewrite H.
  - rewrite (IH H). destruct (Ascii.eqb c LF); [reflexivity|].
    destruct (iter_lines (String d s')) as [|l0 ls] eqn:E;
      [now apply iter_lines_nonempty in E | reflexivity].
Qed.

(** An unterminated last line takes the text up to the next line feed. *)
Lemma iter_lines_open l t :
  single_line l = true -> closed l = false ->
  iter_lines (l +:+ String LF t) = (l +:+ String LF "") :: iter_lines t.
Proof.
  induction l as [|c l IH]; [discriminate|].
  rewrite single_line_cons, closed_cons. simpl String.append.
  rewrite iter_lines_cons_eq. destruct l as [|d l'].
  - intros _ Hc. rewrite Hc. reflexivity.
  - intros H Hcl. apply andb_prop in H as [Hc Hl]. apply negb_true_iff in Hc.
    now rewrite Hc, (IH Hl Hcl).
Qed.

Lemma closed_app s t : closed t = true -> t <> "" -> closed (s +:+ t) = true.
Proof.
  intros Ht Hne. induction s as [|c s IH]; [exact Ht|].
  simpl String.append. rewrite closed_cons.
  destruct (s +:+ t) eqn:E; [|exact IH].
  destruct s; [simpl in E; congruence | discriminate].
Qed.

Lemma contains_app c s t : contains c (s +:+ t) = contains c s || contains c t.
Proof.
  induction s as [|b s IH]; [reflexivity|].
  simpl. now rewrite IH, orb_assoc.
Qed.

(** A text without line feed, followed by one, is a single closed line. *)
Lemma single_line_terminated s :
  contains LF s = false -> single_line (s +:+ String LF "") = true.
Proof.
  induction s as [|c s IH]; [reflexivity|].
  intros H. simpl in H. apply orb_false_iff in H as [Hc Hs].
  simpl String.append. rewrite single_line_cons, Hc, (IH Hs).
  now destruct (s +:+ String LF "").
Qed.

Lemma closed_terminated s : closed (s +:+ String LF "") = true.
Proof. apply closed_app; [reflexivity | discriminate]. Qed.

Lemma wf_lines_tail l ls : wf_lines (l :: ls) = true -> wf_lines ls = true.
Proof. rewrite wf_lines_cons. intros H. now apply andb_prop in H as [_ ?]. Qed.

Lemma wf_lines_head l ls : wf_lines (l :: ls) = true -> single_line l = true.
Proof.
  rewrite wf_lines_cons. intros H.
  apply andb_prop in H as [H _]. now apply andb_prop in H as [? _].
Qed.

Lemma wf_lines_head_closed l l' ls :
  wf_lines (l :: l' :: ls) = true -> closed l = true.
Proof.
  rewrite wf_lines_cons. intros H.
  apply andb_prop in H as [H _]. now apply andb_prop in H as [_ ?].
Qed.

(** Writing well-formed lines and reading them back is the identity. *)
Lemma iter_join_lines ls :
  wf_lines ls = true -> iter_lines (join_lines ls) = ls.
Proof.
  induction ls as [|l ls IH]; [reflexivity|].
  intros H. pose proof (wf_lines_head _ _ H) as Hl.
  destruct ls as [|l' ls].
  - simpl. rewrite append_empty_r. now apply iter_lines_single.
  - change (join_lines (l :: l' :: ls)) with (l +:+ join_lines (l' :: ls)).
    rewrite iter_lines_app by exact (wf_lines_head_closed _ _ _ H).
    rewrite (IH (wf_lines_tail _ _ H)), (iter_lines_single _ Hl). reflexivity.
Qed.

(** Dropping lines keeps the rest well-formed. *)
Lemma wf_lines_filter (f : string -> bool) ls :
  wf_lines ls = true -> wf_lines (List.filter f ls) = true.
Proof.
  induction ls as [|l ls IH]; [reflexivity|].
  intros H. specialize (IH (wf_lines_tail _ _ H)). simpl.
  destruct (f l); [|exact IH].
  rewrite wf_lines_cons, IH, (wf_lines_head _ _ H), andb_true_r. simpl.
  destruct (List.filter f ls) as [|k ks] eqn:E; [reflexivity|].
  destruct ls as [|l' ls']; [discriminate|].
  exact (wf_lines_head_closed _ _ _ H).
Qed.

(** *** Carriage returns and the text layer *)

Lemma universal_newlines_plain s :
  contains CR s = false -> universal_newlines s = s.
Proof.
  induction s as [|c s IH]; [reflexivity|].
  intros H. simpl in H. apply orb_false_iff in H as [Hc Hs].
  simpl. now rewrite Hc, (IH Hs).
Qed.

Lemma universal_newlines_cons c s :
  universal_newlines (String c s) =
  if Ascii.eqb c CR then
    match s with
    | String d r =>
        if Ascii.eqb d LF then String LF (universal_newlines r)
        else String LF (universal_newlines s)
    | "" => String LF ""
    end
  else String c (universal_newlines s).
Proof. reflexivity. Qed.

(** What the text layer presents holds no carriage return. *)
Lemma universal_newlines_no_cr s : contains CR (universal_newlines s) = false.
Proof.
  assert (H : forall n s, (String.length s <= n)%nat ->
                contains CR (universal_newlines s) = false).
  { clear s. induction n as [|n IH]; intros s Hn.
    - destruct s; [reflexivity | simpl in Hn; lia].
    - destruct s as [|c s]; [reflexivity|].
      simpl in Hn. rewrite universal_newlines_cons.
      destruct (Ascii.eqb c CR) eqn:Hc.
      + destruct s as [|d r]; [reflexivity|].
        simpl in Hn. destruct (Ascii.eqb d LF).
        * cbn [contains]. rewrite IH by lia. reflexivity.
        * cbn [contains]. rewrite IH by (simpl; lia). reflexivity.
      + cbn [contains]. rewrite Hc, IH by lia. reflexivity. }
  now apply (H (String.length s)).
Qed.

Lemma text_lines_plain s : contains CR s = false -> text_lines s = iter_lines s.
Proof. intros H. unfold text_lines. now rewrite universal_newlines_plain. Qed.

Lemma contains_join_lines c ls :
  contains c (join_lines ls) = existsb (contains c) ls.
Proof.
  induction ls as [|l ls IH]; [reflexivity|].
  simpl. now rewrite contains_app, IH.
Qed.

(** The lines of a text hold a character only if the text does. *)
Lemma contains_iter_lines c s :
  existsb (contains c) (iter_lines s) = contains c s.
Proof. now rewrite <- contains_join_lines, join_iter_lines. Qed.

Lemma text_lines_no_cr s : existsb (contains CR) (text_lines s) = false.
Proof.
  unfold text_lines. rewrite contains_iter_lines.
  apply universal_newlines_no_cr.
Qed.

Lemma wf_text_lines s : wf_lines (text_lines s) = true.
Proof. apply wf_iter_lines. Qed.

Lemma plain_lf t : plain t = true -> contains LF t = false.
Proof.
  unfold plain. intros H. apply andb_prop in H as [H _].
  now apply negb_true_iff in H.
Qed.

Lemma plain_cr t : plain t = true -> contains CR t = false.
Proof.
  unfold plain. intros H. apply andb_prop in H as [_ H].
  now apply negb_true_iff in H.
Qed.

Lemma existsb_filter {A} (p f : A -> bool) (l : list A) :
  existsb p l = false -> existsb p (List.filter f l) = false.
Proof.
  induction l as [|x l IH]; [reflexivity|].
  simpl. intros H. apply orb_false_iff in H as [Hx Hl].
  destruct (f x); simpl; [now rewrite Hx, IH | now apply IH].
Qed.

End TextFacts.

(* ===================================================================== *)
(** ** How the operations of the refresh utility run *)
(* ===================================================================== *)

(** Unfolding of the monad's operations, leaving the script's data alone. *)
Ltac run :=
  cbv beta iota zeta
    delta [bind ret raise exit print post response_json read_text read_bytes
           write_bytes open_w path_exists send try_except has_key negb].

Section RefreshRuns.

Import Py Store DropboxRefreshToken.

Lemma load_env_run w : load_env w = (Ret (stored_env w), w).
Proof.
  unfold load_env, stored_env, store_lines, text_lines, bind, path_exists,
    read_text, ret.
  destruct (fs w !! env_path) as [f|] eqn:E; cbv beta; rewrite ?E; reflexivity.
Qed.

(** A write after what the block has written so far. *)
Lemma f_write_set p s1 s2 w :
  f_write p s2 (set_file p s1 w) = (Ret tt, set_file p (s1 +:+ s2) w).
Proof.
  unfold f_write, set_file. cbn [fs net stdout browser remote].
  now rewrite lookup_insert_eq, insert_insert_eq.
Qed.

(** Opening the file and writing it in one go. *)
Lemma open_write p s w :
  (open_w p ;> f_write p s) w = (Ret tt, set_file p s w).
Proof. unfold bind, open_w. apply (f_write_set p "" s w). Qed.

Lemma getitem_run j key w :
  getitem j key w =
  match member j key with
  | Some v => (Ret v, w)
  | None => (Raise (getitem_error j key), w)
  end.
Proof.
  destruct j as [o| | |]; try reflexivity.
  unfold getitem, member. now destruct (members o !! key).
Qed.

Lemma load_env_stored w env : load_env w = (Ret env, w) -> env = stored_env w.
Proof. rewrite load_env_run. congruence. Qed.

Lemma truthy_format o : truthy o = true -> o = Some (format_opt o).
Proof. destruct o as [[|c s]|]; simpl; congruence. Qed.

Lemma truthy_some s : s <> "" -> truthy (Some s) = true.
Proof. destruct s; simpl; congruence. Qed.

Lemma test_token_run w :
  test_token w =
  let access_token := stored_env w !! "DROPBOX_ACCESS_TOKEN" in
  if truthy access_token then
    let q := probe_request (format_opt access_token) in
    match remote w (net w) q with
    | Reply r => (Ret (status_code r =? 200),
                  log_stdout (probe_report r) (log_net q w))
    | NetDown msg => (Raise (ConnectionError msg), log_net q w)
    end
  else (Ret false, log_stdout msg_no_access_token w).
Proof.
  unfold test_token, bind at 1. rewrite load_env_run. run.
  destruct (truthy (stored_env w !! "DROPBOX_ACCESS_TOKEN")); [|reflexivity].
  unfold probe_report. run.
  destruct (remote w (net w) _) as [r|msg]; [|reflexivity].
  destruct (status_code r =? 200); [reflexivity|].
  destruct (status_code r =? 401); reflexivity.
Qed.

Lemma refresh_access_token_run w :
  refresh_access_token w =
  let env := stored_env w in
  let refresh_token := env !! "DROPBOX_REFRESH_TOKEN" in
  if truthy refresh_token then
    let q := refresh_request (format_opt refresh_token)
               (env !! "DROPBOX_APP_KEY") (env !! "DROPBOX_APP_SECRET") in
    let w1 := log_net q w in
    match remote w (net w) q with
    | NetDown msg => (Raise (ConnectionError msg), w1)
    | Reply r =>
        if status_code r =? 200 then
          match json r with
          | None => (Raise (JSONDecodeError "Expecting value"), w1)
          | Some tokens =>
              match member tokens "access_token" with
              | None => (Raise (getitem_error tokens "access_token"), w1)
              | Some new_access_token =>
                  match fs w !! env_path with
                  | None => (Raise (FileNotFoundError env_path), w1)
                  | Some f =>
                      let w2 :=
                        log_stdout msg_refreshed
                          (set_file env_path
                             (join_lines
                                (map (rewrite_line (py_str new_access_token))
                                   (text_lines f))) w1) in
                      match new_access_token with
                      | JText t =>
                          (Ret true,
                           log_stdout ("New token: " +:+ slice_to 20 t
                                       +:+ "...") w2)
                      | JList _ shown_head =>
                          (Ret true,
                           log_stdout ("New token: " +:+ shown_head
                                       +:+ "...") w2)
                      | JOther _ e => (Raise e, w2)
                      end
                  end
              end
          end
        else (Ret false,
              log_stdout ("❌ Failed to refresh token: " +:+ text r) w1)
    end
  else (Ret false, log_stdout msg_no_refresh_token w).
Proof.
  unfold refresh_access_token, bind at 1. rewrite load_env_run. cbv zeta.
  destruct (truthy (stored_env w !! "DROPBOX_REFRESH_TOKEN")); [|reflexivity].
  cbv beta iota delta [negb]. unfold bind at 1, post.
  destruct (remote w (net w) _) as [r|msg]; [|reflexivity].
  destruct (status_code r =? 200); [|reflexivity].
  unfold bind at 1, response_json.
  destruct (json r) as [tokens|]; [|reflexivity].
  unfold ret at 1. unfold bind at 1. rewrite getitem_run.
  destruct (member tokens "access_token") as [v|]; [|reflexivity].
  unfold bind at 1, read_text. change (fs (log_net _ w)) with (fs w).
  destruct (fs w !! env_path) as [f|]; [|reflexivity].
  match goal with
  | |- bind (open_w ?p) (fun _ => bind (f_write ?p ?s) ?k) ?w0 = _ =>
      change (bind (open_w p) (fun _ => bind (f_write p s) k) w0)
        with (match (open_w p ;> f_write p s) w0 with
              | (Ret a, w') => k a w'
              | (Raise e, w') => (Raise e, w')
              | (Exit x, w') => (Exit x, w')
              end)
  end.
  rewrite open_write. unfold text_lines.
  destruct v as [t|shown shown_head|shown e]; reflexivity.
Qed.

End RefreshRuns.

(* ===================================================================== *)
(** ** The token refresh utility *)
(* ===================================================================== *)

Section RefreshUtility.

Import Py Store DropboxRefreshToken.

Lemma api_error_not_working t : "❌ API error: " +:+ t <> msg_token_working.
Proof. unfold msg_token_working. simpl. discriminate. Qed.

Lemma api_error_not_expired t : "❌ API error: " +:+ t <> msg_token_expired.
Proof. unfold msg_token_expired. simpl. discriminate. Qed.

Lemma working_not_expired : msg_token_working <> msg_token_expired.
Proof. discriminate. Qed.

(** C4 (amended).  With an access token stored and the probe call answered,
    [test_token] returns a truth value decided by the status of the answer
    alone: [True] exactly on 200, [False] on 401 as on every other status.
    Expired and error differ in the line printed only: the "working" line
    exactly on 200, the "expired" line exactly on 401, and the "API error"
    line exactly on every other status; the three lines differ, so exactly
    one of them is printed. *)
Theorem test_token_by_status :
  forall (w : World) (env : gmap string string) (access_token : string)
         (r : Response),
    load_env w = (Ret env, w) ->
    env !! "DROPBOX_ACCESS_TOKEN" = Some access_token ->
    access_token <> "" ->
    remote w (net w) (probe_request access_token) = Reply r ->
    exists line,
      test_token w =
        (Ret (status_code r =? 200),
         log_stdout line (log_net (probe_request access_token) w))
      /\ (line = msg_token_working <-> status_code r = 200)
      /\ (line = msg_token_expired <-> status_code r = 401)
      /\ (line = "❌ API error: " +:+ text r
          <-> status_code r <> 200 /\ status_code r <> 401).
Proof.
  intros w env access_token r Henv Hat Hne Hr.
  apply load_env_stored in Henv. subst env.
  exists (probe_report r). split.
  - rewrite test_token_run. cbv zeta. rewrite Hat, (truthy_some _ Hne).
    simpl format_opt. now rewrite Hr.
  - unfold probe_report.
    destruct (Z.eqb_spec (status_code r) 200) as [E200|N200];
      [|destruct (Z.eqb_spec (status_code r) 401) as [E401|N401]].
    + rewrite E200. split; [|split]; split; intros H.
      * reflexivity.
      * reflexivity.
      * now apply working_not_expired in H.
      * discriminate H.
      * symmetry in H. now apply api_error_not_working in H.
      * now destruct H as [H _].
    + rewrite E401. split; [|split]; split; intros H.
      * symmetry in H. now apply working_not_expired in H.
      * discriminate H.
      * reflexivity.
      * reflexivity.
      * symmetry in H. now apply api_error_not_expired in H.
      * now destruct H as [_ H].
    + split; [|split]; split; intros H.
      * now apply api_error_not_working in H.
      * contradiction.
      * now apply api_error_not_expired in H.
      * contradiction.
      * now split.
      * reflexivity.
Qed.

(** C10.  Without the credential they need, both operations stop before
    anything else happens: [test_token] with no stored access token and
    [refresh_access_token] with no stored refresh token return [False],
    having printed one line; no request has been sent and the file system is
    as it was. *)
Theorem missing_credential_fails_early :
  forall (w : World) (env : gmap string string),
    load_env w = (Ret env, w) ->
    (env !! "DROPBOX_ACCESS_TOKEN" = None ->
     test_token w = (Ret false, log_stdout msg_no_access_token w)
     /\ net (snd (test_token w)) = net w
     /\ fs (snd (test_token w)) = fs w)
    /\
    (env !! "DROPBOX_REFRESH_TOKEN" = None ->
     refresh_access_token w = (Ret false, log_stdout msg_no_refresh_token w)
     /\ net (snd (refresh_access_token w)) = net w
     /\ fs (snd (refresh_access_token w)) = fs w).
Proof.
  intros w env Henv. apply load_env_stored in Henv. subst env. split.
  - intros H. rewrite test_token_run. cbv zeta. rewrite H. now simpl.
  - intros H. rewrite refresh_access_token_run. cbv zeta. rewrite H. now simpl.
Qed.

End RefreshUtility.

(* ===================================================================== *)
(** ** Rewriting the access-token line *)
(* ===================================================================== *)

Section RewriteFacts.

Import Py Store DropboxRefreshToken.

Implicit Types tok l : string.
Implicit Types ls : list string.

Lemma rewrite_line_other tok l :
  startswith l access_prefix = false -> rewrite_line tok l = l.
Proof. unfold rewrite_line, access_prefix. now intros ->. Qed.

Lemma rewrite_line_access tok l :
  startswith l access_prefix = true ->
  rewrite_line tok l = access_prefix +:+ tok +:+ String LF "".
Proof. unfold rewrite_line, access_prefix. now intros ->. Qed.


Lemma rewrite_line_closed tok l :
  closed l = true -> closed (rewrite_line tok l) = true.
Proof.
  intros H. destruct (startswith l access_prefix) eqn:E.
  - rewrite (rewrite_line_access _ _ E), <- append_assoc. apply closed_terminated.
  - now rewrite (rewrite_line_other _ _ E).
Qed.

Lemma rewrite_line_single tok l :
  contains LF tok = false -> single_line l = true ->
  single_line (rewrite_line tok l) = true.
Proof.
  intros Htok H. destruct (startswith l access_prefix) eqn:E.
  - rewrite (rewrite_line_access _ _ E), <- append_assoc.
    apply single_line_terminated. rewrite contains_app, Htok. reflexivity.
  - now rewrite (rewrite_line_other _ _ E).
Qed.


Lemma wf_lines_rewrite tok ls :
  contains LF tok = false -> wf_lines ls = true ->
  wf_lines (map (rewrite_line tok) ls) = true.
Proof.
  intros Htok. induction ls as [|l ls IH]; [reflexivity|].
  intros H. simpl map. rewrite wf_lines_cons.
  rewrite (rewrite_line_single _ _ Htok (wf_lines_head _ _ H)).
  rewrite (IH (wf_lines_tail _ _ H)), andb_true_r. simpl.
  destruct ls as [|l' ls']; [reflexivity|].
  apply rewrite_line_closed. exact (wf_lines_head_closed _ _ _ H).
Qed.

(** With a token free of line feeds, reading the rewritten file back yields
    the rewritten lines. *)
Lemma iter_lines_rewritten tok ls :
  contains LF tok = false -> wf_lines ls = true ->
  iter_lines (join_lines (map (rewrite_line tok) ls))
  = map (rewrite_line tok) ls.
Proof. intros Htok H. apply iter_join_lines. now apply wf_lines_rewrite. Qed.


(** With a token that has no line break in it, the rewritten lines of a
    text hold no carriage return: Python reads them back as they are. *)
Lemma rewritten_no_cr tok ls :
  contains CR tok = false ->
  existsb (contains CR) ls = false ->
  contains CR (join_lines (map (rewrite_line tok) ls)) = false.
Proof.
  intros Htok Hls. rewrite contains_join_lines.
  induction ls as [|l ls IH]; [reflexivity|].
  simpl in Hls. apply orb_false_iff in Hls as [Hl Hls].
  simpl. rewrite (IH Hls), orb_false_r.
  destruct (startswith l access_prefix) eqn:E.
  - rewrite (rewrite_line_access _ _ E), !contains_app, Htok. reflexivity.
  - now rewrite (rewrite_line_other _ _ E).
Qed.

Lemma text_lines_rewritten tok content :
  plain tok = true ->
  text_lines (join_lines (map (rewrite_line tok) (text_lines content)))
  = map (rewrite_line tok) (text_lines content).
Proof.
  intros Htok. rewrite text_lines_plain.
  - apply iter_lines_rewritten; [now apply plain_lf | apply wf_text_lines].
  - apply rewritten_no_cr; [now apply plain_cr | apply text_lines_no_cr].
Qed.

End RewriteFacts.

Section RefreshRewrite.

Import Py Store DropboxRefreshToken.


(** What a successful refresh leaves behind. *)
Lemma refresh_access_token_success w env refresh_token f r tokens tok :
  load_env w = (Ret env, w) ->
  env !! "DROPBOX_REFRESH_TOKEN" = Some refresh_token ->
  refresh_token <> "" ->
  fs w !! env_path = Some f ->
  remote w (net w)
    (refresh_request refresh_token (env !! "DROPBOX_APP_KEY")
       (env !! "DROPBOX_APP_SECRET")) = Reply r ->
  status_code r = 200 ->
  json r = Some (Object tokens) ->
  members tokens !! "access_token" = Some (JText tok) ->
  exists w',
    refresh_access_token w = (Ret true, w')
    /\ fs w' = <[env_path := join_lines (map (rewrite_line tok)
                                           (text_lines f))]> (fs w)
    /\ net w' = net w ++ [refresh_request refresh_token
                            (env !! "DROPBOX_APP_KEY")
                            (env !! "DROPBOX_APP_SECRET")]
    /\ stdout w' = stdout w ++ [msg_refreshed;
                                "New token: " +:+ slice_to 20 tok +:+ "..."].
Proof.
  intros Henv Hrt Hne Hf Hr H200 Hjson Htok.
  apply load_env_stored in Henv. subst env.
  rewrite refresh_access_token_run. cbv zeta.
  rewrite Hrt, (truthy_some _ Hne). simpl format_opt.
  rewrite Hr, H200, Hjson. simpl Z.eqb. cbv iota.
  unfold member. rewrite Htok, Hf.
  eexists. split; [reflexivity|]. simpl.
  rewrite <- List.app_assoc. now simpl.
Qed.


End RefreshRewrite.

Section Orchestration.

Import Py Store DropboxRefreshToken.

(** [main] as the composition of its three steps. *)
Lemma main_run w :
  main w =
  match test_token (banner w) with
  | (Ret true, w1) => (Ret tt, w1)
  | (Ret false, w1) =>
      match refresh_access_token w1 with
      | (Ret true, w2) =>
          match test_token w2 with
          | (Ret _, w3) => (Ret tt, w3)
          | (Raise e, w3) => (Raise e, w3)
          | (Exit c, w3) => (Exit c, w3)
          end
      | (Ret false, w2) => (Ret tt, w2)
      | (Raise e, w2) => (Raise e, w2)
      | (Exit c, w2) => (Exit c, w2)
      end
  | (Raise e, w1) => (Raise e, w1)
  | (Exit c, w1) => (Exit c, w1)
  end.
Proof.
  unfold main, banner. run.
  destruct (test_token _) as [[[|]|e|c] w1]; try reflexivity.
  destruct (refresh_access_token w1) as [[[|]|e|c] w2]; reflexivity.
Qed.

(** One run of [test_token]: at most one request, a probe; one line printed
    when it returns. *)
Lemma test_token_effect w :
  exists o w',
    test_token w = (o, w')
    /\ (net w' = net w \/ exists a, net w' = net w ++ [probe_request a])
    /\ (exists tail, stdout w' = stdout w ++ tail
                     /\ (length tail <= 1)%nat
                     /\ forall b, o = Ret b -> length tail = 1%nat).
Proof.
  rewrite test_token_run. cbv zeta.
  destruct (truthy _).
  - destruct (remote w (net w) _) as [r|msg]; eexists _, _;
      (split; [reflexivity|]); (split; [right; now eexists|]).
    + exists [probe_report r]. simpl. split; [reflexivity|]. split; [lia|easy].
    + exists []. simpl. rewrite app_nil_r.
      split; [reflexivity|]. split; [lia|easy].
  - eexists _, _. split; [reflexivity|]. split; [now left|].
    exists [msg_no_access_token]. simpl. split; [reflexivity|].
    split; [lia|easy].
Qed.

Lemma stored_file w key v :
  stored_env w !! key = Some v -> exists f, fs w !! env_path = Some f.
Proof.
  unfold stored_env, store_lines.
  destruct (fs w !! env_path) as [f|]; [now exists f|].
  simpl. now rewrite lookup_empty.
Qed.

(** One run of [refresh_access_token] with a refresh token stored: exactly
    one request, to the token endpoint. *)
Lemma refresh_access_token_effect w :
  truthy (stored_env w !! "DROPBOX_REFRESH_TOKEN") = true ->
  exists o w',
    refresh_access_token w = (o, w')
    /\ net w' = net w ++ [refresh_request
                            (format_opt (stored_env w !! "DROPBOX_REFRESH_TOKEN"))
                            (stored_env w !! "DROPBOX_APP_KEY")
                            (stored_env w !! "DROPBOX_APP_SECRET")].
Proof.
  intros Hrt. rewrite refresh_access_token_run. cbv zeta. rewrite Hrt.
  destruct (remote w (net w) _) as [r|msg]; [|now eexists _, _].
  destruct (status_code r =? 200); [|now eexists _, _].
  destruct (json r) as [tokens|]; [|now eexists _, _].
  destruct (member tokens "access_token") as [v|]; [|now eexists _, _].
  destruct (fs w !! env_path); [|now eexists _, _].
  destruct v; now eexists _, _.
Qed.

(** C5 (amended).  With an access token stored and the first probe answered:
    on status 200 [main] sends nothing more; on every other status, 401 or
    not, it goes on to [refresh_access_token] - which, with a refresh token
    stored, sends the refresh request, followed by at most one more probe,
    and without one only prints its complaint; and after a refresh that
    succeeded [test_token] runs once more, printing one line when it
    returns.  Never more than three requests. *)
Theorem main_refreshes_unless_healthy :
  forall (w : World) (env : gmap string string) (access_token : string)
         (r : Response) (o : Outcome unit) (w' : World),
    load_env w = (Ret env, w) ->
    env !! "DROPBOX_ACCESS_TOKEN" = Some access_token ->
    access_token <> "" ->
    remote w (net w) (probe_request access_token) = Reply r ->
    main w = (o, w') ->
    let probe := probe_request access_token in
    let refresh :=
      refresh_request (format_opt (env !! "DROPBOX_REFRESH_TOKEN"))
        (env !! "DROPBOX_APP_KEY") (env !! "DROPBOX_APP_SECRET") in
    (status_code r = 200 -> o = Ret tt /\ net w' = net w ++ [probe])
    /\ (status_code r <> 200 ->
        truthy (env !! "DROPBOX_REFRESH_TOKEN") = false ->
        o = Ret tt /\ net w' = net w ++ [probe]
        /\ stdout w' = stdout (banner w)
                       ++ [probe_report r; msg_no_refresh_token])
    /\ (status_code r <> 200 ->
        truthy (env !! "DROPBOX_REFRESH_TOKEN") = true ->
        exists rest,
          net w' = net w ++ probe :: refresh :: rest
          /\ (rest = [] \/ exists a, rest = [probe_request a]))
    /\ (forall (r2 : Response) (tokens : JsonObject) (new_token : string),
          status_code r <> 200 ->
          truthy (env !! "DROPBOX_REFRESH_TOKEN") = true ->
          remote w (net w ++ [probe]) refresh = Reply r2 ->
          status_code r2 = 200 ->
          json r2 = Some (Object tokens) ->
          members tokens !! "access_token" = Some (JText new_token) ->
          exists tail,
            stdout w' = stdout (banner w)
                        ++ [probe_report r; msg_refreshed;
                            "New token: " +:+ slice_to 20 new_token +:+ "..."]
                        ++ tail
            /\ (length tail <= 1)%nat
            /\ (o = Ret tt -> length tail = 1%nat)).
Proof.
  intros w env access_token r o w' Henv Hat Hne Hr Hmain probe refresh.
  apply load_env_stored in Henv. subst env.
  rewrite main_run, test_token_run in Hmain. cbv zeta in Hmain.
  change (stored_env (banner w)) with (stored_env w) in Hmain.
  change (remote (banner w)) with (remote w) in Hmain.
  change (net (banner w)) with (net w) in Hmain.
  rewrite Hat, (truthy_some _ Hne) in Hmain. simpl format_opt in Hmain.
  rewrite Hr in Hmain. fold probe in Hmain.
  set (w1 := log_stdout (probe_report r) (log_net probe (banner w))) in Hmain.
  assert (Hnet1 : net w1 = net w ++ [probe]) by reflexivity.
  assert (Hout1 : stdout w1 = stdout (banner w) ++ [probe_report r])
    by reflexivity.
  assert (Henv1 : stored_env w1 = stored_env w) by reflexivity.
  destruct (Z.eqb_spec (status_code r) 200) as [E|N].
  { injection Hmain as <- <-. repeat split; try easy; intros; contradiction. }
  split; [intros; contradiction|].
  split; [|split].
  - intros _ Hrt. rewrite refresh_access_token_run in Hmain.
    cbv zeta in Hmain. rewrite Henv1, Hrt in Hmain.
    injection Hmain as <- <-. repeat split; simpl.
    rewrite <- List.app_assoc. reflexivity.
  - intros _ Hrt.
    destruct (refresh_access_token_effect w1) as (o2 & w2 & Hrun & Hnet2);
      [now rewrite Henv1|].
    rewrite Henv1, Hnet1 in Hnet2. fold refresh in Hnet2.
    rewrite Hrun in Hmain.
    assert (Hbase : net w2 = net w ++ [probe; refresh])
      by (rewrite Hnet2, <- List.app_assoc; reflexivity).
    destruct o2 as [[|]|e|c];
      try (injection Hmain as <- <-; exists []; split; [exact Hbase | now left]).
    destruct (test_token_effect w2) as (o3 & w3 & Hrun3 & Hnet3 & _).
    rewrite Hrun3 in Hmain.
    assert (Hw : w' = w3) by (destruct o3; now injection Hmain).
    subst w3. destruct Hnet3 as [Hnet3|[a Hnet3]].
    + exists []. split; [now rewrite Hnet3 | now left].
    + exists [probe_request a]. split; [|right; now exists a].
      rewrite Hnet3, Hbase, <- List.app_assoc. reflexivity.
  - intros r2 tokens new_token _ Hrt Hr2 H200 Hjson Hnew.
    destruct (stored_file w "DROPBOX_REFRESH_TOKEN"
                (format_opt (stored_env w !! "DROPBOX_REFRESH_TOKEN")))
      as [f Hf]; [now apply truthy_format|].
    destruct (refresh_access_token_success w1 (stored_env w)
                (format_opt (stored_env w !! "DROPBOX_REFRESH_TOKEN"))
                f r2 tokens new_token)
      as (w2 & Hrun & _ & _ & Hout2); try easy.
    + rewrite load_env_run. now rewrite Henv1.
    + now apply truthy_format.
    + destruct (stored_env w !! "DROPBOX_REFRESH_TOKEN") as [[|]|];
        simpl in *; congruence.
    + rewrite Hrun in Hmain. rewrite Hout1 in Hout2.
      destruct (test_token_effect w2) as (o3 & w3 & Hrun3 & _ & tail & Ht & Hlen & Hone).
      rewrite Hrun3 in Hmain.
      assert (Hw : w' = w3) by (destruct o3; now injection Hmain).
      subst w3. exists tail. split; [|split; [exact Hlen|]].
      * rewrite Ht, Hout2, <- !List.app_assoc. reflexivity.
      * intros ->. destruct o3 as [b|e|c]; [now apply (Hone b)| |];
          discriminate Hmain.
Qed.

End Orchestration.

(* ===================================================================== *)
(** ** Stripping and keys *)
(* ===================================================================== *)

Section KeyFacts.

Import Py Store.

Implicit Types s t l : string.

Lemma rstrip_cons c s :
  isspace c = false -> rstrip (String c s) = String c (rstrip s).
Proof. intros H. simpl. rewrite H. now destruct (rstrip s). Qed.

Lemma rstrip_lf s : rstrip (s +:+ String LF "") = rstrip s.
Proof.
  induction s as [|c s IH]; [reflexivity|].
  simpl String.append. simpl rstrip. now rewrite IH.
Qed.

Lemma strip_lf s : strip (s +:+ String LF "") = strip s.
Proof.
  unfold strip. induction s as [|c s IH]; [reflexivity|].
  simpl String.append. simpl lstrip. destruct (isspace c); [exact IH|].
  apply (rstrip_lf (String c s)).
Qed.

Lemma line_key_lf l : line_key (l +:+ String LF "") = line_key l.
Proof. unfold line_key, line_entry. now rewrite strip_lf. Qed.

Lemma strip_access s : strip (access_prefix +:+ s) = access_prefix +:+ rstrip s.
Proof.
  unfold strip, access_prefix. simpl String.append. simpl lstrip.
  now rewrite !rstrip_cons by reflexivity.
Qed.

Lemma strip_refresh s :
  strip (refresh_prefix +:+ s) = refresh_prefix +:+ rstrip s.
Proof.
  unfold strip, refresh_prefix. simpl String.append. simpl lstrip.
  now rewrite !rstrip_cons by reflexivity.
Qed.

(** A line that starts with [DROPBOX_ACCESS_TOKEN=] has that key. *)
Lemma line_key_access l :
  startswith l access_prefix = true ->
  line_key l = Some "DROPBOX_ACCESS_TOKEN".
Proof.
  intros H. destruct (startswith_inv _ _ H) as [rest ->].
  unfold line_key, line_entry. rewrite strip_access. reflexivity.
Qed.

Lemma line_key_refresh l :
  startswith l refresh_prefix = true ->
  line_key l = Some "DROPBOX_REFRESH_TOKEN".
Proof.
  intros H. destruct (startswith_inv _ _ H) as [rest ->].
  unfold line_key, line_entry. rewrite strip_refresh. reflexivity.
Qed.

End KeyFacts.

(* ===================================================================== *)
(** ** The authorization flow runner *)
(* ===================================================================== *)

Section LinesAfterAppend.

Import Py Store.

Implicit Types s t l p : string.
Implicit Types ls : list string.

Lemma iter_lines_lf t : iter_lines (String LF t) = String LF "" :: iter_lines t.
Proof. reflexivity. Qed.

(** Reading back well-formed lines followed by a line feed and more text. *)
Lemma iter_lines_join_lf ls t :
  wf_lines ls = true ->
  iter_lines (join_lines ls +:+ String LF t) = close_last ls ++ iter_lines t.
Proof.
  induction ls as [|l ls IH]; [reflexivity|].
  intros H. pose proof (wf_lines_head _ _ H) as Hl.
  destruct ls as [|l' ls'].
  - simpl join_lines. rewrite append_empty_r. simpl close_last.
    destruct (closed l) eqn:Hc.
    + rewrite (iter_lines_app _ _ Hc), (iter_lines_single _ Hl). reflexivity.
    + now rewrite (iter_lines_open _ _ Hl Hc).
  - change (join_lines (l :: l' :: ls')) with (l +:+ join_lines (l' :: ls')).
    rewrite append_assoc.
    rewrite iter_lines_app by exact (wf_lines_head_closed _ _ _ H).
    rewrite (IH (wf_lines_tail _ _ H)), (iter_lines_single _ Hl). reflexivity.
Qed.

Lemma startswith_lf l t p :
  contains LF p = false ->
  startswith (l +:+ String LF t) p = startswith l p.
Proof.
  revert l. induction p as [|a p IH]; intros l Hp; [reflexivity|].
  simpl in Hp. apply orb_false_iff in Hp as [Ha Hp].
  destruct l as [|b l].
  - simpl. now rewrite Ha.
  - simpl. now rewrite (IH _ Hp).
Qed.

Lemma Forall_close_last (P : string -> Prop) ls :
  P (String LF "") ->
  (forall l, P l -> P (l +:+ String LF "")) ->
  Forall P ls -> Forall P (close_last ls).
Proof.
  intros Hlf Happ. induction 1 as [|l ls Hl Hls IH]; [now repeat constructor|].
  destruct ls as [|l' ls'].
  - simpl. destruct (closed l); repeat constructor; auto.
  - change (close_last (l :: l' :: ls')) with (l :: close_last (l' :: ls')).
    now constructor.
Qed.

(** Closing the last line adds no key and changes none. *)
Lemma keys_close_last ls : omap line_key (close_last ls) = omap line_key ls.
Proof.
  induction ls as [|l ls IH]; [reflexivity|].
  destruct ls as [|l' ls'].
  - simpl close_last. destruct (closed l).
    + simpl. now destruct (line_key l).
    + simpl. now rewrite line_key_lf.
  - change (close_last (l :: l' :: ls')) with (l :: close_last (l' :: ls')).
    change (omap line_key (l :: close_last (l' :: ls')))
      with (match line_key l with
            | Some k => k :: omap line_key (close_last (l' :: ls'))
            | None => omap line_key (close_last (l' :: ls'))
            end).
    now rewrite IH.
Qed.

End LinesAfterAppend.

Section CallbackRuns.

Import Py Store DropboxOAuthSetup.

Variable urlparse_query : string -> string.
Variable parse_qs : string -> gmap string (list string).

Abbreviation handle := (do_GET urlparse_query parse_qs).
Abbreviation serve := (serve_forever urlparse_query parse_qs).
Abbreviation code_of path := (parse_qs (urlparse_query path) !! "code").

(** Unfolding of the handler's steps, and the file system after its
    writes. *)
Ltac run_handler :=
  cbv beta iota zeta
    delta [bind ret raise exit print post response_json read_text open_w
           f_write path_exists send has_key negb getitem key_in head20
           preview].

Ltac settle :=
  cbn [fs net stdout browser remote set_file log_net log_stdout log_browser];
  rewrite ?lookup_insert_eq, ?insert_insert_eq.

Lemma do_GET_elsewhere path w :
  startswith path "/oauth_callback" = false -> handle path w = (Ret tt, w).
Proof. intros H. unfold do_GET. now rewrite H. Qed.

Lemma do_GET_no_code path w :
  startswith path "/oauth_callback" = true ->
  code_of path = None ->
  handle path w = (Ret tt, log_browser (SendError 400 msg_no_code) w).
Proof. intros Hp Hc. unfold do_GET. rewrite Hp, Hc. reflexivity. Qed.

(** The exchange is not answered, or with something that is no JSON, or with
    a number, [True], [False] or [None]: the handler raises, and has done
    nothing but send its request. *)
Lemma do_GET_undecoded path w code rest :
  startswith path "/oauth_callback" = true ->
  code_of path = Some (code :: rest) ->
  code <> "" ->
  let q := exchange_request code in
  match remote w (net w) q with
  | NetDown msg => handle path w = (Raise (ConnectionError msg), log_net q w)
  | Reply r =>
      match json r with
      | None =>
          handle path w
          = (Raise (JSONDecodeError "Expecting value"), log_net q w)
      | Some (Atom t) => exists e, handle path w = (Raise e, log_net q w)
      | Some _ => True
      end
  end.
Proof.
  intros Hp Hc Hne q. unfold do_GET. rewrite Hp, Hc. run_handler.
  rewrite (truthy_some _ Hne). simpl format_opt. fold q.
  destruct (remote w (net w) q) as [r|msg]; [|reflexivity].
  destruct (json r) as [[o|texts|s|t]|]; try exact I; [|reflexivity].
  now eexists.
Qed.

(** The exchange is answered without access token: status 400. *)
Lemma do_GET_lacking path w code rest r j :
  startswith path "/oauth_callback" = true ->
  code_of path = Some (code :: rest) ->
  code <> "" ->
  remote w (net w) (exchange_request code) = Reply r ->
  json r = Some j ->
  lacks_access_token j = true ->
  handle path w
  = (Ret tt, log_browser (SendError 400 msg_no_access_token)
               (log_net (exchange_request code) w)).
Proof.
  intros Hp Hc Hne Hr Hj Hl. unfold do_GET. rewrite Hp, Hc. run_handler.
  rewrite (truthy_some _ Hne). simpl format_opt. rewrite Hr, Hj.
  destruct j as [o|texts|s|t]; unfold lacks_access_token in Hl;
    try discriminate Hl; apply negb_true_iff in Hl; cbv beta iota.
  - unfold has_key in Hl.
    destruct (members o !! "access_token"); [discriminate | reflexivity].
  - now rewrite Hl.
  - now rewrite Hl.
Qed.

Lemma updated_written kept a rt :
  ("" +:+ join_lines kept)
  +:+ String LF "DROPBOX_ACCESS_TOKEN=" +:+ a +:+ String LF ""
  = updated_content kept a None
  /\ (("" +:+ join_lines kept)
      +:+ String LF "DROPBOX_ACCESS_TOKEN=" +:+ a +:+ String LF "")
     +:+ "DROPBOX_REFRESH_TOKEN=" +:+ rt +:+ String LF ""
     = updated_content kept a (Some rt).
Proof.
  unfold updated_content. split.
  - change ("" +:+ join_lines kept) with (join_lines kept).
    now rewrite append_empty_r.
  - change ("" +:+ join_lines kept) with (join_lines kept).
    now rewrite !append_assoc.
Qed.

(** The exchange is answered with an access token and, maybe, a refresh
    token, both texts: the file is written, the success page sent, and the
    process ended. *)
Lemma do_GET_granted path w code rest r tokens a rt :
  startswith path "/oauth_callback" = true ->
  code_of path = Some (code :: rest) ->
  code <> "" ->
  remote w (net w) (exchange_request code) = Reply r ->
  json r = Some (Object tokens) ->
  members tokens !! "access_token" = Some (JText a) ->
  members tokens !! "refresh_token" = JText <$> rt ->
  exists w',
    handle path w = (Exit 0, w')
    /\ fs w' = <[env_path :=
                   updated_content (List.filter keep_line (store_lines w)) a
                     rt]> (fs w)
    /\ net w' = net w ++ [exchange_request code]
    /\ browser w'
       = browser w
         ++ [SendResponse 200;
             WritePage (slice_to 20 a +:+ "...")
               (match rt with
                | Some t => slice_to 20 t +:+ "..."
                | None => "Not provided"
                end)].
Proof.
  intros Hp Hc Hne Hr Hj Ha Hrt.
  unfold do_GET. rewrite Hp, Hc. run_handler.
  rewrite (truthy_some _ Hne). simpl format_opt. rewrite Hr, Hj.
  cbv beta iota. rewrite Ha, Hrt. cbv beta iota.
  change (fs (log_net (exchange_request code) w)) with (fs w).
  unfold store_lines, text_lines.
  destruct (fs w !! env_path) as [f|] eqn:Hf; destruct rt as [t|];
    cbv beta iota; change (fs (log_net (exchange_request code) w)) with (fs w);
    rewrite ?Hf; cbn [fmap option_fmap option_map]; cbv beta iota;
    (eexists; split; [reflexivity|]); settle; unfold py_str;
    rewrite <- ?List.app_assoc;
    (split; [|split; reflexivity]); f_equal;
    first [exact (proj1 (updated_written _ _ ""))
           | exact (proj2 (updated_written _ _ _))].
Qed.

(** The exchange is answered with something that holds an access token and
    that the handler cannot finish with - an object whose token is no text,
    a list or a text with the word in it: the file is written, as far as the
    handler gets, and the handler raises.  The browser has got the status
    line at most. *)
Lemma do_GET_unfinished path w code rest r j :
  startswith path "/oauth_callback" = true ->
  code_of path = Some (code :: rest) ->
  code <> "" ->
  remote w (net w) (exchange_request code) = Reply r ->
  json r = Some j ->
  lacks_access_token j = false ->
  complete j = false ->
  (forall t, j <> Atom t) ->
  exists e w' out,
    handle path w = (Raise e, w')
    /\ fs w' = <[env_path := out]> (fs w)
    /\ net w' = net w ++ [exchange_request code]
    /\ stdout w' = stdout w
    /\ (browser w' = browser w
        \/ browser w' = browser w ++ [SendResponse 200])
    /\ (forall o v, j = Object o ->
                    members o !! "access_token" = Some v ->
                    out = updated_content
                            (List.filter keep_line (store_lines w))
                            (py_str v)
                            (py_str <$> members o !! "refresh_token")
                    /\ browser w' = browser w ++ [SendResponse 200])
    /\ ((forall o, j <> Object o) ->
        out = join_lines (List.filter keep_line (store_lines w))
        /\ browser w' = browser w).
Proof.
  intros Hp Hc Hne Hr Hj Hl Hcomplete Hatom.
  unfold do_GET. rewrite Hp, Hc. run_handler.
  rewrite (truthy_some _ Hne). simpl format_opt. rewrite Hr, Hj.
  destruct j as [o|texts|s|t]; [| | |now elim (Hatom t)];
    unfold lacks_access_token in Hl; apply negb_false_iff in Hl;
    cbv beta iota.
  - unfold has_key in Hl. unfold complete in Hcomplete.
    destruct (members o !! "access_token") as [v|] eqn:Ha;
      [|discriminate Hl].
    cbv beta iota.
    change (fs (log_net (exchange_request code) w)) with (fs w).
    unfold store_lines, text_lines.
    destruct (fs w !! env_path) as [f|] eqn:Hf;
      destruct (members o !! "refresh_token") as [rt|] eqn:Hrt;
      destruct v as [a|sa sh|sa ea]; try destruct rt as [t|st sth|st et];
      try discriminate Hcomplete;
      cbv beta iota;
      change (fs (log_net (exchange_request code) w)) with (fs w);
      rewrite ?Hf; cbv beta iota;
      (eexists _, _, _; split; [reflexivity|]); settle;
      (split; [reflexivity|]); (split; [reflexivity|]);
      (split; [reflexivity|]); (split; [now right|]);
      (split; [|intros Hno; now elim (Hno o)]);
      intros o' v' Ho Hv; injection Ho as <-; rewrite Ha in Hv;
      injection Hv as <-; (split; [|reflexivity]);
      rewrite ?Hrt; cbn [fmap option_fmap option_map];
      first [exact (proj1 (updated_written _ _ ""))
           | exact (proj2 (updated_written _ _ _))].
  - rewrite Hl. cbv beta iota.
    change (fs (log_net (exchange_request code) w)) with (fs w).
    unfold store_lines, text_lines.
    destruct (fs w !! env_path) as [f|] eqn:Hf; cbv beta iota;
      change (fs (log_net (exchange_request code) w)) with (fs w);
      rewrite ?Hf; cbv beta iota;
      (eexists _, _, _; split; [reflexivity|]); settle;
      (split; [reflexivity|]); (split; [reflexivity|]);
      (split; [reflexivity|]); (split; [now left|]);
      (split; [intros o' v' Ho; discriminate Ho|]); intros _;
      (split; reflexivity).
  - rewrite Hl. cbv beta iota.
    change (fs (log_net (exchange_request code) w)) with (fs w).
    unfold store_lines, text_lines.
    destruct (fs w !! env_path) as [f|] eqn:Hf; cbv beta iota;
      change (fs (log_net (exchange_request code) w)) with (fs w);
      rewrite ?Hf; cbv beta iota;
      (eexists _, _, _; split; [reflexivity|]); settle;
      (split; [reflexivity|]); (split; [reflexivity|]);
      (split; [reflexivity|]); (split; [now left|]);
      (split; [intros o' v' Ho; discriminate Ho|]); intros _;
      (split; reflexivity).
Qed.

Lemma complete_members j :
  complete j = true ->
  exists tokens a rt,
    j = Object tokens
    /\ members tokens !! "access_token" = Some (JText a)
    /\ members tokens !! "refresh_token" = JText <$> rt.
Proof.
  destruct j as [o|texts|s|t]; try discriminate. unfold complete.
  destruct (members o !! "access_token") as [[a| |]|] eqn:Ha; try discriminate.
  destruct (members o !! "refresh_token") as [[t| |]|] eqn:Hrt;
    try discriminate; intros _.
  - now exists o, a, (Some t).
  - now exists o, a, None.
Qed.

Lemma complete_not_lacking j :
  complete j = true -> lacks_access_token j = false.
Proof.
  intros H. destruct (complete_members _ H) as (o & a & rt & -> & Ha & _).
  unfold lacks_access_token, has_key. now rewrite Ha.
Qed.



(** The server loop over one request. *)
Lemma serve_forever_one path w :
  serve [path] w =
  match handle path w with
  | (Exit c, w1) => (Exit c, w1)
  | (_, w1) => (Ret tt, w1)
  end.
Proof.
  simpl. unfold bind, try_except.
  now destruct (handle path w) as [[[]|e|c] w1].
Qed.



Lemma updated_content_eq existing a rt :
  updated_content existing a rt
  = join_lines existing
    +:+ String LF ((access_prefix +:+ a +:+ String LF "")
                   +:+ match rt with
                       | Some r => refresh_prefix +:+ r +:+ String LF ""
                       | None => ""
                       end).
Proof.
  unfold updated_content, access_prefix, refresh_prefix. f_equal.
  simpl. now rewrite append_assoc.
Qed.

Lemma access_line_single a :
  contains LF a = false ->
  single_line (access_prefix +:+ a +:+ String LF "") = true.
Proof.
  intros Ha. rewrite <- append_assoc. apply single_line_terminated.
  now rewrite contains_app, Ha.
Qed.

Lemma refresh_line_single r :
  contains LF r = false ->
  single_line (refresh_prefix +:+ r +:+ String LF "") = true.
Proof.
  intros Hr. rewrite <- append_assoc. apply single_line_terminated.
  now rewrite contains_app, Hr.
Qed.

(** The lines of the file the handler writes, split at line feeds. *)
Lemma iter_lines_updated kept a rt :
  wf_lines kept = true ->
  contains LF a = false ->
  (forall t, rt = Some t -> contains LF t = false) ->
  iter_lines (updated_content kept a rt)
  = close_last kept
    ++ (access_prefix +:+ a +:+ String LF "")
       :: match rt with
          | Some r => [refresh_prefix +:+ r +:+ String LF ""]
          | None => []
          end.
Proof.
  intros Hwf Ha Hrt. rewrite updated_content_eq, (iter_lines_join_lf _ _ Hwf).
  f_equal. rewrite iter_lines_app.
  - rewrite (iter_lines_single _ (access_line_single _ Ha)).
    destruct rt as [r|]; [|reflexivity].
    now rewrite (iter_lines_single _ (refresh_line_single _ (Hrt r eq_refl))).
  - rewrite <- append_assoc. apply closed_terminated.
Qed.

(** With tokens that have no line break in them, what the handler writes
    holds no carriage return. *)
Lemma updated_no_cr kept a rt :
  existsb (contains CR) kept = false ->
  contains CR a = false ->
  (forall t, rt = Some t -> contains CR t = false) ->
  contains CR (updated_content kept a rt) = false.
Proof.
  intros Hkept Ha Hrt. rewrite updated_content_eq.
  rewrite contains_app, contains_join_lines, Hkept.
  cbn [orb contains]. change (Ascii.eqb LF CR) with false. cbn [orb].
  rewrite !contains_app, Ha. destruct rt as [t|]; [|reflexivity].
  rewrite !contains_app, (Hrt t eq_refl). reflexivity.
Qed.

(** The lines Python reads from the file the handler has written. *)
Lemma text_lines_written kept a rt :
  wf_lines kept = true ->
  existsb (contains CR) kept = false ->
  plain a = true ->
  (forall t, rt = Some t -> plain t = true) ->
  text_lines (updated_content kept a rt)
  = close_last kept
    ++ (access_prefix +:+ a +:+ String LF "")
       :: match rt with
          | Some r => [refresh_prefix +:+ r +:+ String LF ""]
          | None => []
          end.
Proof.
  intros Hwf Hcr Ha Hrt. rewrite text_lines_plain.
  - apply iter_lines_updated.
    + exact Hwf.
    + now apply plain_lf.
    + intros t Ht. now apply plain_lf, Hrt.
  - apply updated_no_cr.
    + exact Hcr.
    + now apply plain_cr.
    + intros t Ht. now apply plain_cr, Hrt.
Qed.

Lemma text_lines_updated content a rt :
  plain a = true ->
  (forall t, rt = Some t -> plain t = true) ->
  text_lines (updated_content (List.filter keep_line (text_lines content))
                a rt)
  = close_last (List.filter keep_line (text_lines content))
    ++ (access_prefix +:+ a +:+ String LF "")
       :: match rt with
          | Some r => [refresh_prefix +:+ r +:+ String LF ""]
          | None => []
          end.
Proof.
  intros Ha Hrt. apply text_lines_written; [| |exact Ha | exact Hrt].
  - apply wf_lines_filter, wf_text_lines.
  - apply existsb_filter, text_lines_no_cr.
Qed.

Lemma plain_member_inv v :
  plain_member v = true ->
  v = JText <$> member_text v
  /\ forall t, member_text v = Some t -> plain t = true.
Proof.
  destruct v as [[t| |]|]; try discriminate; simpl; intros H.
  - split; [reflexivity|]. now intros t' [= <-].
  - split; [reflexivity | discriminate].
Qed.

Lemma kept_no_refresh_line ls :
  Forall (fun l => startswith l refresh_prefix = false)
         (List.filter keep_line ls).
Proof.
  apply List.Forall_forall. intros l Hl. apply filter_In in Hl as [_ Hk].
  unfold keep_line in Hk. apply andb_prop in Hk as [_ Hk].
  now apply negb_true_iff in Hk.
Qed.


(** *** One line per key *)

Lemma keys_filter_subset (f : string -> bool) ls k :
  k ∈ omap line_key (List.filter f ls) -> k ∈ omap line_key ls.
Proof.
  rewrite !list_elem_of_omap. intros (l & Hl & Hk). exists l.
  split; [|exact Hk].
  apply list_elem_of_In in Hl. apply filter_In in Hl as [Hl _].
  now apply list_elem_of_In.
Qed.

Lemma NoDup_keys_filter (f : string -> bool) ls :
  NoDup (omap line_key ls) -> NoDup (omap line_key (List.filter f ls)).
Proof.
  induction ls as [|l ls IH]; [trivial|].
  simpl. destruct (f l).
  - simpl. destruct (line_key l) as [k|]; [|exact IH].
    rewrite !NoDup_cons. intros [Hk Hnd]. split; [|now apply IH].
    intros Hin. apply Hk. now apply keys_filter_subset in Hin.
  - destruct (line_key l) as [k|]; [|exact IH].
    rewrite NoDup_cons. intros [_ Hnd]. now apply IH.
Qed.

(** In a store whose token lines are flush, the lines the handler keeps
    carry neither token key. *)
Lemma kept_keys_no_token ls k :
  forallb flush_line ls = true ->
  k ∈ omap line_key (List.filter keep_line ls) ->
  k <> "DROPBOX_ACCESS_TOKEN" /\ k <> "DROPBOX_REFRESH_TOKEN".
Proof.
  intros Hflush Hin. apply list_elem_of_omap in Hin as (l & Hl & Hk).
  apply list_elem_of_In in Hl. apply filter_In in Hl as [Hl Hkeep].
  rewrite forallb_forall in Hflush. specialize (Hflush l Hl).
  unfold flush_line in Hflush. rewrite Hk in Hflush.
  unfold keep_line in Hkeep. apply andb_prop in Hkeep as [Ha Hr].
  apply negb_true_iff in Ha, Hr.
  unfold access_prefix, refresh_prefix in Hflush.
  split; intros ->.
  - change (String.eqb "DROPBOX_ACCESS_TOKEN" "DROPBOX_ACCESS_TOKEN")
      with true in Hflush.
    cbv iota in Hflush. congruence.
  - change (String.eqb "DROPBOX_REFRESH_TOKEN" "DROPBOX_ACCESS_TOKEN")
      with false in Hflush.
    change (String.eqb "DROPBOX_REFRESH_TOKEN" "DROPBOX_REFRESH_TOKEN")
      with true in Hflush.
    cbv iota in Hflush. congruence.
Qed.

Lemma keys_cons l ls :
  omap line_key (l :: ls)
  = match line_key l with
    | Some k => k :: omap line_key ls
    | None => omap line_key ls
    end.
Proof. reflexivity. Qed.

Lemma line_key_rewritten tok l :
  line_key (DropboxRefreshToken.rewrite_line tok l) = line_key l.
Proof.
  destruct (startswith l access_prefix) eqn:E.
  - rewrite (rewrite_line_access _ _ E), (line_key_access _ E).
    apply line_key_access, startswith_app.
  - now rewrite (rewrite_line_other _ _ E).
Qed.

Lemma keys_rewritten tok ls :
  omap line_key (map (DropboxRefreshToken.rewrite_line tok) ls)
  = omap line_key ls.
Proof.
  induction ls as [|l ls IH]; [reflexivity|].
  change (map (DropboxRefreshToken.rewrite_line tok) (l :: ls))
    with (DropboxRefreshToken.rewrite_line tok l
          :: map (DropboxRefreshToken.rewrite_line tok) ls).
  now rewrite !keys_cons, IH, line_key_rewritten.
Qed.

(** C7 (amended).  With a store that has at most one line per key and a new
    access token that is a text with no line break in it, neither line feed
    nor carriage return: a successful [refresh_access_token] leaves a store
    with at most one line per key; and so does the token write of the
    callback handler, when no white space precedes the token keys in the old
    store and the refresh token, if one is granted, is such a text too. *)
Theorem rewrites_keep_one_line_per_key :
  forall (content tok : string),
    one_line_per_key content ->
    plain tok = true ->
    (forall (w : World) (env : gmap string string) (refresh_token : string)
            (r : Response) (tokens : JsonObject),
        DropboxRefreshToken.load_env w = (Ret env, w) ->
        env !! "DROPBOX_REFRESH_TOKEN" = Some refresh_token ->
        refresh_token <> "" ->
        fs w !! env_path = Some content ->
        remote w (net w)
          (DropboxRefreshToken.refresh_request refresh_token
             (env !! "DROPBOX_APP_KEY") (env !! "DROPBOX_APP_SECRET"))
        = Reply r ->
        status_code r = 200 ->
        json r = Some (Object tokens) ->
        members tokens !! "access_token" = Some (JText tok) ->
        exists (w' : World) (out : string),
          DropboxRefreshToken.refresh_access_token w = (Ret true, w')
          /\ fs w' !! env_path = Some out
          /\ one_line_per_key out)
    /\
    (forall (path : string) (w : World) (code : string) (rest : list string)
            (r : Response) (tokens : JsonObject),
        token_lines_flush content = true ->
        startswith path "/oauth_callback" = true ->
        code_of path = Some (code :: rest) ->
        code <> "" ->
        fs w !! env_path = Some content ->
        remote w (net w) (exchange_request code) = Reply r ->
        json r = Some (Object tokens) ->
        members tokens !! "access_token" = Some (JText tok) ->
        plain_member (members tokens !! "refresh_token") = true ->
        exists (w' : World) (out : string),
          handle path w = (Exit 0, w')
          /\ fs w' !! env_path = Some out
          /\ one_line_per_key out).
Proof.
  intros content tok Hone Hplain. split.
  - intros w env rt r tokens Henv Hrt Hne Hf Hr H200 Hj Htok.
    destruct (refresh_access_token_success _ _ _ _ _ _ _ Henv Hrt Hne Hf Hr
                H200 Hj Htok) as (w' & Hrun & Hfs & _).
    eexists w', _. split; [exact Hrun|].
    split; [rewrite Hfs; apply lookup_insert_eq|].
    unfold one_line_per_key, keys_of.
    rewrite (text_lines_rewritten _ _ Hplain).
    now rewrite keys_rewritten.
  - intros path w code rest r tokens Hflush Hp Hc Hne Hf Hr Hj Htok Hrt.
    destruct (plain_member_inv _ Hrt) as [Hrt_eq Hrt_plain].
    destruct (do_GET_granted path w code rest r tokens tok _
                Hp Hc Hne Hr Hj Htok Hrt_eq) as (w' & Hrun & Hfs & _).
    unfold store_lines in Hfs. rewrite Hf in Hfs.
    eexists w', _. split; [exact Hrun|].
    split; [rewrite Hfs; apply lookup_insert_eq|].
    unfold one_line_per_key, keys_of.
    rewrite (text_lines_updated _ _ _ Hplain Hrt_plain).
    rewrite omap_app, keys_close_last.
    set (kept := List.filter keep_line (text_lines content)).
    set (rt := member_text (members tokens !! "refresh_token")).
    assert (Hkept : NoDup (omap line_key kept))
      by (apply NoDup_keys_filter; exact Hone).
    assert (Hfree : forall k, k ∈ omap line_key kept ->
                      k <> "DROPBOX_ACCESS_TOKEN"
                      /\ k <> "DROPBOX_REFRESH_TOKEN")
      by (intros k; apply kept_keys_no_token; exact Hflush).
    assert (Ha : line_key (access_prefix +:+ tok +:+ String LF "")
                 = Some "DROPBOX_ACCESS_TOKEN")
      by apply line_key_access, startswith_app.
    assert (Htail :
              omap line_key
                ((access_prefix +:+ tok +:+ String LF "")
                 :: match rt with
                    | Some r0 => [refresh_prefix +:+ r0 +:+ String LF ""]
                    | None => []
                    end)
              = "DROPBOX_ACCESS_TOKEN"
                :: match rt with
                   | Some _ => ["DROPBOX_REFRESH_TOKEN"]
                   | None => []
                   end).
    { rewrite keys_cons, Ha.
      destruct rt as [t|]; [|reflexivity].
      rewrite keys_cons, line_key_refresh by apply startswith_app.
      reflexivity. }
    rewrite Htail. apply NoDup_app. split; [exact Hkept|]. split.
    + intros k Hk Hin. destruct (Hfree k Hk) as [Hka Hkr].
      apply list_elem_of_In in Hin.
      destruct rt as [t|]; simpl in Hin; intuition congruence.
    + destruct rt as [t|].
      * apply NoDup_cons. split; [|apply NoDup_singleton].
        rewrite list_elem_of_singleton. discriminate.
      * apply NoDup_singleton.
Qed.

End CallbackRuns.
(* ===================================================================== *)
(** ** The file-operations script *)
(* ===================================================================== *)

Section FileOperations.

Import Py Store DropboxApi.

Lemma split1_without sep s : contains sep s = false -> split1 sep s = [s].
Proof.
  induction s as [|c s IH]; [reflexivity|].
  simpl. intros H. apply orb_false_iff in H as [Hc Hs].
  now rewrite Hc, (IH Hs).
Qed.

Lemma split1_with sep s :
  contains sep s = true -> exists k v, split1 sep s = [k; v].
Proof.
  induction s as [|c s IH]; [discriminate|].
  simpl. destruct (Ascii.eqb c sep); [now eexists _, _|].
  simpl. intros H. destruct (IH H) as (k & v & ->). now eexists _, _.
Qed.

(** One line, in both parsers. *)
Lemma load_env_line_run env l w :
  load_env_line env l w =
  (if parsable l then Ret (DropboxRefreshToken.load_env_line env l)
   else Raise unpack_error, w).
Proof.
  unfold load_env_line, DropboxRefreshToken.load_env_line, parsable.
  destruct (String.eqb (strip l) ""); [reflexivity|].
  destruct (startswith (strip l) "#"); [reflexivity|].
  simpl negb. simpl andb. simpl orb. cbv iota.
  destruct (contains "=" (strip l)) eqn:E.
  - destruct (split1_with _ _ E) as (k & v & ->). reflexivity.
  - now rewrite (split1_without _ _ E).
Qed.


Lemma for_each_load_env ls env w :
  for_each load_env_line ls env w =
  (if forallb parsable ls
   then Ret (fold_left DropboxRefreshToken.load_env_line ls env)
   else Raise unpack_error, w).
Proof.
  revert env. induction ls as [|l ls IH]; intros env; [reflexivity|].
  simpl. unfold bind. rewrite load_env_line_run.
  destruct (parsable l); [apply IH | reflexivity].
Qed.


Lemma api_load_env_run w :
  load_env w =
  (if forallb parsable (store_lines w) then Ret (stored_env w)
   else Raise unpack_error, w).
Proof.
  unfold load_env, stored_env, store_lines, text_lines. run.
  destruct (fs w !! env_path) as [f|] eqn:Hf; [|reflexivity].
  cbv beta iota. rewrite Hf. apply for_each_load_env.
Qed.





End FileOperations.

(* ===================================================================== *)
(** ** The theorems at concrete worlds *)
(* ===================================================================== *)

Section Instances.

Import Py Store Scenario.

Abbreviation callback := "/oauth_callback?code=AUTHCODE".
Abbreviation granted := (reply 200 "" [("access_token", "NEW")]).
Abbreviation granted_tokens := (object [("access_token", "NEW")]).

(** C3.  A successful refresh of a store that has a refresh token and no
    access-token line: the token endpoint grants [NEW], the operation prints
    its success lines and returns [True], and the credentials file is what it
    was - no line of it holds the new token. *)
Theorem refresh_without_access_line_stores_nothing :
  fst (DropboxRefreshToken.refresh_access_token refresh_only) = Ret true
  /\ net (snd (DropboxRefreshToken.refresh_access_token refresh_only))
     = [DropboxRefreshToken.refresh_request "R" None None]
  /\ stdout (snd (DropboxRefreshToken.refresh_access_token refresh_only))
     = [DropboxRefreshToken.msg_refreshed; "New token: NEW..."]
  /\ fs (snd (DropboxRefreshToken.refresh_access_token refresh_only))
       !! env_path = Some refresh_only_store
  /\ existsb (fun l => startswith l access_prefix)
       (iter_lines refresh_only_store) = false.
Proof. vm_compute. repeat split. Qed.


(** C4, as stated, fails: a probe answered with status 401 and one answered
    with status 500 make [test_token] return the same value, [False]; what
    is returned tells healthy from not healthy, no more. *)
Lemma expired_and_error_return_alike :
  remote (stale 401) (net (stale 401))
    (DropboxRefreshToken.probe_request "OLD") = Reply (reply 401 "oops" [])
  /\ remote (stale 500) (net (stale 500))
       (DropboxRefreshToken.probe_request "OLD") = Reply (reply 500 "oops" [])
  /\ fst (DropboxRefreshToken.test_token (stale 401)) = Ret false
  /\ fst (DropboxRefreshToken.test_token (stale 500)) = Ret false.
Proof. vm_compute. repeat split. Qed.



(** C5, as stated, fails: the probe is answered with status 500, neither 200
    nor 401, and [main] sends the refresh request all the same. *)
Lemma error_status_still_refreshes :
  remote (stale 500) (net (stale 500))
    (DropboxRefreshToken.probe_request "OLD") = Reply (reply 500 "oops" [])
  /\ net (snd (DropboxRefreshToken.main (stale 500)))
     = [DropboxRefreshToken.probe_request "OLD";
        DropboxRefreshToken.refresh_request "R" None None;
        DropboxRefreshToken.probe_request "NEW"].
Proof. vm_compute. repeat split. Qed.

Lemma one_line_per_key_stale : one_line_per_key stale_store.
Proof.
  unfold one_line_per_key.
  replace (keys_of stale_store)
    with ["DROPBOX_ACCESS_TOKEN"%string; "DROPBOX_REFRESH_TOKEN"%string]
    by (vm_compute; reflexivity).
  apply NoDup_cons. split; [|apply NoDup_singleton].
  rewrite list_elem_of_singleton. discriminate.
Qed.

(** C7, as stated, fails, in three ways.  A store with one line, an indented
    access-token line, has one line per key; after the handler's token write
    two lines carry the key [DROPBOX_ACCESS_TOKEN].  A store with one line
    per key, refreshed with an access token that spans two lines, ends with
    two lines that carry the key [DROPBOX_REFRESH_TOKEN].  And so it does
    when the access token holds a carriage return instead of the line feed:
    Python reads the file back with a line break there. *)
Lemma rewrite_duplicates_key :
  (one_line_per_key indented_store
   /\ fst (DropboxOAuthSetup.do_GET whole_path with_code callback indented)
      = Exit 0
   /\ fs (snd (DropboxOAuthSetup.do_GET whole_path with_code callback
                 indented)) !! env_path
      = Some ("  DROPBOX_ACCESS_TOKEN=OLD" +:+ NL +:+ NL
              +:+ "DROPBOX_ACCESS_TOKEN=NEW" +:+ NL)
   /\ ~ one_line_per_key ("  DROPBOX_ACCESS_TOKEN=OLD" +:+ NL +:+ NL
                          +:+ "DROPBOX_ACCESS_TOKEN=NEW" +:+ NL))
  /\
  (one_line_per_key stale_store
   /\ fst (DropboxRefreshToken.refresh_access_token stale_two_lines)
      = Ret true
   /\ fs (snd (DropboxRefreshToken.refresh_access_token stale_two_lines))
        !! env_path
      = Some ("DROPBOX_ACCESS_TOKEN=NEW" +:+ NL
              +:+ "DROPBOX_REFRESH_TOKEN=X" +:+ NL
              +:+ "DROPBOX_REFRESH_TOKEN=R" +:+ NL)
   /\ ~ one_line_per_key ("DROPBOX_ACCESS_TOKEN=NEW" +:+ NL
                          +:+ "DROPBOX_REFRESH_TOKEN=X" +:+ NL
                          +:+ "DROPBOX_REFRESH_TOKEN=R" +:+ NL))
  /\
  (contains LF cr_token = false
   /\ fst (DropboxRefreshToken.refresh_access_token stale_cr) = Ret true
   /\ fs (snd (DropboxRefreshToken.refresh_access_token stale_cr))
        !! env_path
      = Some ("DROPBOX_ACCESS_TOKEN=" +:+ cr_token +:+ NL
              +:+ "DROPBOX_REFRESH_TOKEN=R" +:+ NL)
   /\ ~ one_line_per_key ("DROPBOX_ACCESS_TOKEN=" +:+ cr_token +:+ NL
                          +:+ "DROPBOX_REFRESH_TOKEN=R" +:+ NL)).
Proof.
  split; [|split]; (split; [|split; [|split]]).
  - unfold one_line_per_key.
    replace (keys_of indented_store) with ["DROPBOX_ACCESS_TOKEN"%string]
      by (vm_compute; reflexivity).
    apply NoDup_singleton.
  - vm_compute. reflexivity.
  - vm_compute. reflexivity.
  - unfold one_line_per_key.
    replace (keys_of _)
      with ["DROPBOX_ACCESS_TOKEN"%string; "DROPBOX_ACCESS_TOKEN"%string]
      by (vm_compute; reflexivity).
    intros H. apply NoDup_cons in H as [H _]. apply H. now left.
  - exact one_line_per_key_stale.
  - vm_compute. reflexivity.
  - vm_compute. reflexivity.
  - unfold one_line_per_key.
    replace (keys_of _)
      with ["DROPBOX_ACCESS_TOKEN"%string; "DROPBOX_REFRESH_TOKEN"%string;
            "DROPBOX_REFRESH_TOKEN"%string]
      by (vm_compute; reflexivity).
    intros H. apply NoDup_cons in H as [_ H].
    apply NoDup_cons in H as [H _]. apply H. now left.
  - reflexivity.
  - vm_compute. reflexivity.
  - vm_compute. reflexivity.
  - unfold one_line_per_key.
    replace (keys_of _)
      with ["DROPBOX_ACCESS_TOKEN"%string; "DROPBOX_REFRESH_TOKEN"%string;
            "DROPBOX_REFRESH_TOKEN"%string]
      by (vm_compute; reflexivity).
    intros H. apply NoDup_cons in H as [_ H].
    apply NoDup_cons in H as [H _]. apply H. now left.
Qed.

Lemma test_token_by_status_witness :
  exists line,
    DropboxRefreshToken.test_token (stale 401)
    = (Ret false,
       log_stdout line
         (log_net (DropboxRefreshToken.probe_request "OLD") (stale 401)))
    /\ (line = DropboxRefreshToken.msg_token_expired <-> 401 = 401).
Proof.
  destruct (test_token_by_status (stale 401) (stored_env (stale 401)) "OLD"
              (reply 401 "oops" []))
    as (line & Hrun & _ & Hexpired & _).
  - vm_compute. reflexivity.
  - vm_compute. reflexivity.
  - discriminate.
  - vm_compute. reflexivity.
  - exists line. split; [exact Hrun | exact Hexpired].
Defined.

Lemma missing_credential_fails_early_witness :
  DropboxRefreshToken.test_token unconfigured
  = (Ret false,
     log_stdout DropboxRefreshToken.msg_no_access_token unconfigured)
  /\ DropboxRefreshToken.refresh_access_token unconfigured
     = (Ret false,
        log_stdout DropboxRefreshToken.msg_no_refresh_token unconfigured).
Proof.
  destruct (missing_credential_fails_early unconfigured
              (stored_env unconfigured)) as [Hprobe Hrefresh].
  - vm_compute. reflexivity.
  - split.
    + apply Hprobe. vm_compute. reflexivity.
    + apply Hrefresh. vm_compute. reflexivity.
Defined.


Lemma main_refreshes_unless_healthy_witness :
  exists rest,
    net (snd (DropboxRefreshToken.main (stale 401)))
    = net (stale 401)
      ++ DropboxRefreshToken.probe_request "OLD"
         :: DropboxRefreshToken.refresh_request "R" None None :: rest
    /\ (rest = [] \/ exists a, rest = [DropboxRefreshToken.probe_request a]).
Proof.
  destruct (main_refreshes_unless_healthy (stale 401)
              (stored_env (stale 401)) "OLD" (reply 401 "oops" [])
              (fst (DropboxRefreshToken.main (stale 401)))
              (snd (DropboxRefreshToken.main (stale 401))))
    as (_ & _ & Hrefresh & _).
  - vm_compute. reflexivity.
  - vm_compute. reflexivity.
  - discriminate.
  - vm_compute. reflexivity.
  - apply surjective_pairing.
  - apply Hrefresh; [discriminate | vm_compute; reflexivity].
Defined.



Lemma rewrites_keep_one_line_per_key_witness :
  (exists (w' : World) (out : string),
      DropboxRefreshToken.refresh_access_token (stale 401) = (Ret true, w')
      /\ fs w' !! env_path = Some out
      /\ one_line_per_key out)
  /\ (exists (w' : World) (out : string),
         DropboxOAuthSetup.do_GET whole_path with_code callback (stale 200)
         = (Exit 0, w')
         /\ fs w' !! env_path = Some out
         /\ one_line_per_key out).
Proof.
  destruct (rewrites_keep_one_line_per_key whole_path with_code stale_store
              "NEW") as [Hrefresh Hwrite].
  - exact one_line_per_key_stale.
  - reflexivity.
  - split.
    + apply (Hrefresh (stale 401) (stored_env (stale 401)) "R" granted
               granted_tokens).
      * vm_compute. reflexivity.
      * vm_compute. reflexivity.
      * discriminate.
      * vm_compute. reflexivity.
      * vm_compute. reflexivity.
      * reflexivity.
      * reflexivity.
      * vm_compute. reflexivity.
    + apply (Hwrite callback (stale 200) "AUTHCODE" [] granted
               granted_tokens).
      * vm_compute. reflexivity.
      * reflexivity.
      * vm_compute. reflexivity.
      * discriminate.
      * vm_compute. reflexivity.
      * vm_compute. reflexivity.
      * reflexivity.
      * vm_compute. reflexivity.
      * vm_compute. reflexivity.
Defined.


End Instances.


(* ===================================================================== *)
(** ** Reading the store *)
(* ===================================================================== *)

Section ReadingFacts.

Import Py Store Reading.

Implicit Types s k v l : string.
Implicit Types ls : list string.

Lemma load_env_line_entry (env : gmap string string) l :
  DropboxRefreshToken.load_env_line env l
  = match line_entry l with
    | Some (k, v) => <[k := v]> env
    | None => env
    end.
Proof.
  unfold DropboxRefreshToken.load_env_line, line_entry.
  destruct (String.eqb (strip l) ""); [reflexivity|].
  destruct (startswith (strip l) "#"); [reflexivity|].
  simpl negb. simpl andb. cbv iota.
  destruct (contains "=" (strip l)) eqn:E; [|reflexivity].
  destruct (split1_with _ _ E) as (k & v & ->). reflexivity.
Qed.

Lemma fold_lookup ls (m : gmap string string) k :
  fold_left DropboxRefreshToken.load_env_line ls m !! k
  = match last_value k ls with
    | Some v => Some v
    | None => m !! k
    end.
Proof.
  revert m. induction ls as [|l ls IH]; intros m; [reflexivity|].
  simpl. rewrite IH. destruct (last_value k ls) as [v|]; [reflexivity|].
  rewrite load_env_line_entry.
  destruct (line_entry l) as [[k' v']|]; [|reflexivity].
  destruct (String.eqb_spec k' k) as [->|Hne].
  - apply lookup_insert_eq.
  - now apply lookup_insert_ne.
Qed.

Lemma stored_lookup w k : stored_env w !! k = last_value k (store_lines w).
Proof.
  unfold stored_env. rewrite fold_lookup.
  now destruct (last_value k (store_lines w)).
Qed.

Lemma last_value_app k ls1 ls2 :
  last_value k (ls1 ++ ls2)
  = match last_value k ls2 with
    | Some v => Some v
    | None => last_value k ls1
    end.
Proof.
  induction ls1 as [|l ls1 IH]; simpl.
  - now destruct (last_value k ls2).
  - rewrite IH. now destruct (last_value k ls2).
Qed.

Lemma last_value_none k ls :
  Forall (fun l => line_key l <> Some k) ls -> last_value k ls = None.
Proof.
  induction 1 as [|l ls Hl _ IH]; [reflexivity|].
  simpl. rewrite IH. unfold line_key in Hl.
  destruct (line_entry l) as [[k' v']|]; [|reflexivity].
  destruct (String.eqb_spec k' k) as [->|]; [|reflexivity].
  now elim Hl.
Qed.

(** X1.  When several lines of the credentials file carry the same key, the
    last one wins: [load_env] maps a key to the value of the last line that
    carries it. *)
Theorem load_env_last_line_wins :
  forall (w : World) (before after : list string) (line k v : string),
    store_lines w = before ++ line :: after ->
    line_entry line = Some (k, v) ->
    Forall (fun l => line_key l <> Some k) after ->
    exists env,
      DropboxRefreshToken.load_env w = (Ret env, w) /\ env !! k = Some v.
Proof.
  intros w before after line k v Hlines Hline Hafter.
  exists (stored_env w). split; [apply load_env_run|].
  rewrite stored_lookup, Hlines, last_value_app. simpl.
  rewrite (last_value_none _ _ Hafter), Hline, String.eqb_refl. reflexivity.
Qed.

(** X2.  A key that no line of the credentials file carries - in particular
    any key when the file is absent or empty - is not in the mapping
    [load_env] returns. *)
Theorem load_env_missing_key :
  forall (w : World) (k : string),
    Forall (fun l => line_key l <> Some k) (store_lines w) ->
    exists env,
      DropboxRefreshToken.load_env w = (Ret env, w) /\ env !! k = None.
Proof.
  intros w k Hnone. exists (stored_env w). split; [apply load_env_run|].
  now rewrite stored_lookup, last_value_none.
Qed.

Lemma rstrip_app_nonspace s c t :
  isspace c = false -> rstrip (s +:+ String c t) = s +:+ String c (rstrip t).
Proof.
  intros Hc. induction s as [|d s IH]; [now apply rstrip_cons|].
  simpl String.append. simpl rstrip. rewrite IH.
  now destruct s.
Qed.

Lemma split1_at sep s t :
  contains sep s = false -> split1 sep (s +:+ String sep t) = [s; t].
Proof.
  induction s as [|c s IH]; intros H.
  - simpl. now rewrite Ascii.eqb_refl.
  - simpl in H. apply orb_false_iff in H as [Hc Hs].
    simpl String.append. simpl split1. now rewrite Hc, (IH Hs).
Qed.

Lemma lstrip_fixed_head c s :
  lstrip (String c s) = String c s -> isspace c = false.
Proof.
  simpl. destruct (isspace c) eqn:E; [|reflexivity].
  intros H. exfalso.
  assert (Hlen : forall t,
             (String.length (lstrip t) <= String.length t)%nat).
  { induction t as [|d t IHt]; simpl; [lia|].
    destruct (isspace d); simpl; lia. }
  specialize (Hlen s). rewrite H in Hlen. simpl in Hlen. lia.
Qed.

(** The entry of a line [KEY=VALUE], with or without its line feed. *)
Lemma line_entry_key_value k v :
  k <> "" -> lstrip k = k -> startswith k "#" = false ->
  contains "=" k = false ->
  line_entry (k +:+ "=" +:+ v) = Some (k, rstrip v).
Proof.
  intros Hne Hl Hc He. destruct k as [|c k]; [congruence|].
  pose proof (lstrip_fixed_head _ _ Hl) as Hsp.
  assert (Hstrip : strip (String c k +:+ "=" +:+ v)
                   = String c k +:+ "=" +:+ rstrip v).
  { unfold strip. simpl String.append. simpl lstrip. rewrite Hsp.
    change (String c (k +:+ String "=" v))
      with (String c k +:+ String "=" v).
    now rewrite rstrip_app_nonspace. }
  unfold line_entry. rewrite Hstrip.
  simpl String.append. simpl String.eqb.
  assert (Hhash : startswith (String c (k +:+ String "=" (rstrip v))) "#"
                  = false).
  { simpl in Hc |- *. rewrite andb_true_r in Hc |- *. exact Hc. }
  rewrite Hhash. simpl negb. simpl andb.
  change (String c (k +:+ String "=" (rstrip v)))
    with (String c k +:+ String "=" (rstrip v)).
  rewrite contains_app. simpl contains at 2. rewrite orb_true_r.
  rewrite split1_at by exact He. now rewrite orb_true_r.
Qed.

Lemma parsable_entry l (e : string * string) :
  line_entry l = Some e -> parsable l = true.
Proof.
  unfold line_entry, parsable.
  destruct (String.eqb (strip l) ""); [discriminate|].
  destruct (startswith (strip l) "#"); [discriminate|].
  destruct (contains "=" (strip l)); [reflexivity | discriminate].
Qed.

(** X3.  A line [KEY=VALUE]: both parsers enter the text before the first
    ['='] as key and all the text after it, further ['='] included and white
    space at its end removed, as value - provided the key is not empty, has
    no white space or ['#'] at its start and no ['='] in it. *)
Theorem load_env_line_key_value :
  forall (env : gmap string string) (k v : string) (w : World),
    k <> "" ->
    lstrip k = k ->
    startswith k "#" = false ->
    contains "=" k = false ->
    DropboxRefreshToken.load_env_line env (k +:+ "=" +:+ v +:+ String LF "")
    = <[k := rstrip v]> env
    /\ DropboxApi.load_env_line env (k +:+ "=" +:+ v +:+ String LF "") w
       = (Ret (<[k := rstrip v]> env), w).
Proof.
  intros env k v w Hne Hl Hc He.
  assert (Hentry : line_entry (k +:+ "=" +:+ v +:+ String LF "")
                   = Some (k, rstrip v)).
  { rewrite (line_entry_key_value k (v +:+ String LF "") Hne Hl Hc He).
    now rewrite rstrip_lf. }
  assert (Hrefresh :
            DropboxRefreshToken.load_env_line env
              (k +:+ "=" +:+ v +:+ String LF "") = <[k := rstrip v]> env)
    by now rewrite load_env_line_entry, Hentry.
  split; [exact Hrefresh|].
  rewrite load_env_line_run, (parsable_entry _ _ Hentry).
  now rewrite Hrefresh.
Qed.

End ReadingFacts.


(* ===================================================================== *)
(** ** What the refresh utility leaves alone *)
(* ===================================================================== *)

Section RefreshFrame.

Import Py Store Reading DropboxRefreshToken.


(** X5.  Whatever happens, [refresh_access_token] changes no file but the
    credentials file, sends nothing to the browser, never ends the process,
    and sends at most one request, to the token endpoint. *)
Theorem refresh_access_token_frame :
  forall (w : World),
    let o := fst (refresh_access_token w) in
    let w' := snd (refresh_access_token w) in
    (forall p, p <> env_path -> fs w' !! p = fs w !! p)
    /\ browser w' = browser w
    /\ (forall c, o <> Exit c)
    /\ (net w' = net w
        \/ exists q, net w' = net w ++ [q] /\ url q = token_url).
Proof.
  intros w. rewrite refresh_access_token_run. cbv zeta.
  destruct (truthy _); [|simpl; repeat split; auto; discriminate].
  match goal with
  | |- context [remote w (net w) ?q] => set (req := q)
  end.
  assert (Hsent : forall n, n = net w ++ [req] ->
                    n = net w \/ exists q, n = net w ++ [q] /\ url q = token_url)
    by (intros n ->; right; now exists req).
  destruct (remote w (net w) req) as [r|msg];
    [|simpl; repeat split; auto; discriminate].
  destruct (status_code r =? 200);
    [|simpl; repeat split; auto; discriminate].
  destruct (json r) as [tokens|];
    [|simpl; repeat split; auto; discriminate].
  destruct (member tokens "access_token") as [tok|];
    [|simpl; repeat split; auto; discriminate].
  destruct (fs w !! env_path) as [f|];
    [|simpl; repeat split; auto; discriminate].
  destruct tok as [t|shown head|shown e]; simpl; repeat split; auto;
    try discriminate; intros p Hp; now apply lookup_insert_ne.
Qed.

(** X6.  [test_token] only reads: the file system and the browser are what
    they were, the process goes on, and the one request it may send is the
    probe that carries the stored access token. *)
Theorem test_token_reads_only :
  forall (w : World),
    let o := fst (test_token w) in
    let w' := snd (test_token w) in
    fs w' = fs w
    /\ browser w' = browser w
    /\ (forall c, o <> Exit c)
    /\ exists env,
         load_env w = (Ret env, w)
         /\ (net w' = net w
             \/ exists a, env !! "DROPBOX_ACCESS_TOKEN" = Some a
                          /\ net w' = net w ++ [probe_request a]).
Proof.
  intros w. rewrite test_token_run. cbv zeta.
  destruct (truthy _) eqn:Ht.
  - apply truthy_format in Ht.
    destruct (remote w (net w) _) as [r|msg]; simpl;
      (split; [reflexivity|]); (split; [reflexivity|]);
      (split; [discriminate|]);
      exists (stored_env w); (split; [apply load_env_run|]);
      right; eexists; (split; [exact Ht | reflexivity]).
  - simpl. split; [reflexivity|]. split; [reflexivity|].
    split; [discriminate|].
    exists (stored_env w). split; [apply load_env_run | now left].
Qed.

(** *** The store after a refresh, as a reader finds it *)

Lemma line_entry_access_line tok :
  line_entry (access_prefix +:+ tok +:+ String LF "")
  = Some ("DROPBOX_ACCESS_TOKEN", rstrip tok).
Proof.
  unfold line_entry. rewrite strip_access, rstrip_lf. reflexivity.
Qed.

Lemma line_entry_access_key l :
  startswith l access_prefix = true ->
  exists v, line_entry l = Some ("DROPBOX_ACCESS_TOKEN", v).
Proof.
  intros H. destruct (startswith_inv _ _ H) as [rest ->].
  unfold line_entry. rewrite strip_access. now eexists.
Qed.

Lemma last_value_cons k l ls :
  last_value k (l :: ls)
  = match last_value k ls with
    | Some v => Some v
    | None =>
        match line_entry l with
        | Some (k', v) => if String.eqb k' k then Some v else None
        | None => None
        end
    end.
Proof. reflexivity. Qed.

(** Keys other than the access token are read as before. *)
Lemma last_value_rewritten_other tok k ls :
  k <> "DROPBOX_ACCESS_TOKEN" ->
  last_value k (map (rewrite_line tok) ls) = last_value k ls.
Proof.
  intros Hk. induction ls as [|l ls IH]; [reflexivity|].
  change (map (rewrite_line tok) (l :: ls))
    with (rewrite_line tok l :: map (rewrite_line tok) ls).
  rewrite !last_value_cons, IH.
  destruct (last_value k ls); [reflexivity|].
  destruct (startswith l access_prefix) eqn:E.
  - rewrite (rewrite_line_access _ _ E), line_entry_access_line.
    destruct (line_entry_access_key _ E) as [v ->].
    destruct (String.eqb_spec "DROPBOX_ACCESS_TOKEN" k); congruence.
  - now rewrite (rewrite_line_other _ _ E).
Qed.

Lemma flush_line_access l v :
  flush_line l = true ->
  line_entry l = Some ("DROPBOX_ACCESS_TOKEN", v) ->
  startswith l access_prefix = true.
Proof.
  unfold flush_line, line_key. intros H He. rewrite He in H.
  change (fst <$> Some ("DROPBOX_ACCESS_TOKEN", v))
    with (Some "DROPBOX_ACCESS_TOKEN") in H.
  cbv iota in H.
  change (String.eqb "DROPBOX_ACCESS_TOKEN" "DROPBOX_ACCESS_TOKEN")
    with true in H.
  exact H.
Qed.

(** The access token read after the rewrite, in a store whose access-token
    lines are flush. *)
Lemma last_value_rewritten_access tok ls :
  forallb flush_line ls = true ->
  last_value "DROPBOX_ACCESS_TOKEN" (map (rewrite_line tok) ls)
  = match last_value "DROPBOX_ACCESS_TOKEN" ls with
    | Some _ => Some (rstrip tok)
    | None => None
    end.
Proof.
  induction ls as [|l ls IH]; [reflexivity|].
  intros Hflush. simpl in Hflush. apply andb_prop in Hflush as [Hl Hls].
  change (map (rewrite_line tok) (l :: ls))
    with (rewrite_line tok l :: map (rewrite_line tok) ls).
  rewrite !last_value_cons, (IH Hls).
  destruct (last_value "DROPBOX_ACCESS_TOKEN" ls); [reflexivity|].
  destruct (startswith l access_prefix) eqn:E.
  - rewrite (rewrite_line_access _ _ E), line_entry_access_line.
    destruct (line_entry_access_key _ E) as [v ->]. reflexivity.
  - rewrite (rewrite_line_other _ _ E).
    destruct (line_entry l) as [[k v]|] eqn:He; [|reflexivity].
    destruct (String.eqb_spec k "DROPBOX_ACCESS_TOKEN") as [->|];
      [|reflexivity].
    rewrite (flush_line_access _ _ Hl He) in E. discriminate.
Qed.

(** What a reader finds once the rewritten lines are in the file. *)
Lemma stored_after_rewrite w w' content tok :
  fs w !! env_path = Some content ->
  fs w' = <[env_path := join_lines (map (rewrite_line tok)
                                      (text_lines content))]> (fs w) ->
  plain tok = true ->
  (forall k, k <> "DROPBOX_ACCESS_TOKEN" ->
             stored_env w' !! k = stored_env w !! k)
  /\ (token_lines_flush content = true ->
      is_Some (stored_env w !! "DROPBOX_ACCESS_TOKEN") ->
      stored_env w' !! "DROPBOX_ACCESS_TOKEN" = Some (rstrip tok)).
Proof.
  intros Hf Hfs Hlf.
  assert (Hlines : store_lines w'
                   = map (rewrite_line tok) (text_lines content)).
  { unfold store_lines. rewrite Hfs, lookup_insert_eq.
    now apply text_lines_rewritten. }
  assert (Hold : store_lines w = text_lines content)
    by (unfold store_lines; now rewrite Hf).
  split.
  - intros k Hk. rewrite !stored_lookup, Hlines, Hold.
    now apply last_value_rewritten_other.
  - intros Hflush [v Hv]. rewrite stored_lookup, Hold in Hv.
    rewrite stored_lookup, Hlines, last_value_rewritten_access, Hv;
      [reflexivity | exact Hflush].
Qed.

(** X7.  After a successful refresh with a token that is a text with no
    line break in it, neither line feed nor carriage return, a reader of the credentials file finds every key other than
    [DROPBOX_ACCESS_TOKEN] with the value it had; and, in a store that had
    an access token and no white space before that key, it finds the new
    token (less white space at its end) as access token. *)
Theorem refresh_then_load_env :
  forall (w : World) (env : gmap string string)
         (refresh_token content : string) (r : Response)
         (tokens : JsonObject) (new_access_token : string),
    load_env w = (Ret env, w) ->
    env !! "DROPBOX_REFRESH_TOKEN" = Some refresh_token ->
    refresh_token <> "" ->
    fs w !! env_path = Some content ->
    remote w (net w)
      (refresh_request refresh_token (env !! "DROPBOX_APP_KEY")
         (env !! "DROPBOX_APP_SECRET")) = Reply r ->
    status_code r = 200 ->
    json r = Some (Object tokens) ->
    members tokens !! "access_token" = Some (JText new_access_token) ->
    plain new_access_token = true ->
    exists (w' : World) (env' : gmap string string),
      refresh_access_token w = (Ret true, w')
      /\ load_env w' = (Ret env', w')
      /\ (forall k, k <> "DROPBOX_ACCESS_TOKEN" -> env' !! k = env !! k)
      /\ (token_lines_flush content = true ->
          is_Some (env !! "DROPBOX_ACCESS_TOKEN") ->
          env' !! "DROPBOX_ACCESS_TOKEN" = Some (rstrip new_access_token)).
Proof.
  intros w env rt content r tokens tok Henv Hrt Hne Hf Hr H200 Hj Htok Hlf.
  destruct (refresh_access_token_success _ _ _ _ _ _ _ Henv Hrt Hne Hf Hr
              H200 Hj Htok) as (w' & Hrun & Hfs & _).
  apply load_env_stored in Henv. subst env.
  exists w', (stored_env w'). split; [exact Hrun|].
  split; [apply load_env_run|].
  exact (stored_after_rewrite _ _ _ _ Hf Hfs Hlf).
Qed.

(** X8.  In [main], when the first probe is not answered with 200 and the
    refresh succeeds - the store having its token keys at the start of their
    lines, the new token a text that has no line break in it, neither line
    feed nor carriage return, and is not all white space -
    the confirming probe carries the new token: three requests are sent, the
    probe with the old token, the refresh, and the probe with the new one. *)
Theorem main_confirms_with_new_token :
  forall (w : World) (env : gmap string string)
         (access_token refresh_token content : string) (r r2 : Response)
         (tokens : JsonObject) (new_access_token : string),
    load_env w = (Ret env, w) ->
    env !! "DROPBOX_ACCESS_TOKEN" = Some access_token ->
    access_token <> "" ->
    env !! "DROPBOX_REFRESH_TOKEN" = Some refresh_token ->
    refresh_token <> "" ->
    fs w !! env_path = Some content ->
    token_lines_flush content = true ->
    remote w (net w) (probe_request access_token) = Reply r ->
    status_code r <> 200 ->
    remote w (net w ++ [probe_request access_token])
      (refresh_request refresh_token (env !! "DROPBOX_APP_KEY")
         (env !! "DROPBOX_APP_SECRET")) = Reply r2 ->
    status_code r2 = 200 ->
    json r2 = Some (Object tokens) ->
    members tokens !! "access_token" = Some (JText new_access_token) ->
    plain new_access_token = true ->
    rstrip new_access_token <> "" ->
    net (snd (main w))
    = net w
      ++ [probe_request access_token;
          refresh_request refresh_token (env !! "DROPBOX_APP_KEY")
            (env !! "DROPBOX_APP_SECRET");
          probe_request (rstrip new_access_token)].
Proof.
  intros w env at_ rt content r r2 tokens tok Henv Hat Hne Hrt Hrne Hf Hflush
         Hr Hn200 Hr2 H200 Hj Htok Hlf Hnew.
  pose proof (load_env_stored _ _ Henv) as Hs. subst env.
  rewrite main_run, test_token_run. cbv zeta.
  change (stored_env (banner w)) with (stored_env w).
  change (remote (banner w)) with (remote w).
  change (net (banner w)) with (net w).
  rewrite Hat, (truthy_some _ Hne). simpl format_opt. rewrite Hr.
  destruct (Z.eqb_spec (status_code r) 200) as [E|_]; [contradiction|].
  set (w1 := log_stdout (probe_report r)
               (log_net (probe_request at_) (banner w))).
  destruct (refresh_access_token_success w1 (stored_env w) rt content r2
              tokens tok) as (w2 & Hrun & Hfs & Hnet & _); try easy.
  { now rewrite load_env_run. }
  rewrite Hrun.
  destruct (stored_after_rewrite w1 w2 content tok Hf Hfs Hlf)
    as [_ Haccess].
  specialize (Haccess Hflush).
  change (stored_env w1) with (stored_env w) in Haccess.
  rewrite Hat in Haccess. specialize (Haccess (ltac:(now eexists))).
  rewrite test_token_run. cbv zeta.
  rewrite Haccess, (truthy_some _ Hnew). simpl format_opt.
  assert (Hnet2 : net w2 = net w ++ [probe_request at_;
                                     refresh_request rt
                                       (stored_env w !! "DROPBOX_APP_KEY")
                                       (stored_env w !! "DROPBOX_APP_SECRET")]).
  { rewrite Hnet. change (net w1) with (net w ++ [probe_request at_]).
    now rewrite <- List.app_assoc. }
  destruct (remote w2 (net w2) _) as [r3|msg]; simpl;
    rewrite Hnet2, <- List.app_assoc; reflexivity.
Qed.

End RefreshFrame.


(* ===================================================================== *)
(** ** The callback server and the store it leaves *)
(* ===================================================================== *)

Section CallbackFrame.

Import Py Store Reading DropboxOAuthSetup.

Variable urlparse_query : string -> string.
Variable parse_qs : string -> gmap string (list string).

Abbreviation handle := (do_GET urlparse_query parse_qs).
Abbreviation serve := (serve_forever urlparse_query parse_qs).
Abbreviation code_of path := (parse_qs (urlparse_query path) !! "code").

(** One request: the handler ends the process with code 0, or it has
    printed nothing and touched no file but the credentials file. *)
Lemma do_GET_effect path w :
  match handle path w with
  | (Exit c, _) => c = 0
  | (_, w') =>
      stdout w' = stdout w
      /\ forall p, p <> env_path -> fs w' !! p = fs w !! p
  end.
Proof.
  destruct (startswith path "/oauth_callback") eqn:Hp;
    [|now rewrite (do_GET_elsewhere urlparse_query parse_qs _ _ Hp)].
  destruct (code_of path) as [[|code rest]|] eqn:Hc.
  - unfold do_GET. rewrite Hp, Hc. now simpl.
  - destruct (string_dec code "") as [->|Hne].
    + unfold do_GET. rewrite Hp, Hc. now simpl.
    + pose proof (do_GET_undecoded urlparse_query parse_qs path w code rest
                    Hp Hc Hne) as Hx.
      cbv zeta in Hx.
      destruct (remote w (net w) (exchange_request code)) as [r|msg] eqn:Hr;
        [|now rewrite Hx].
      destruct (json r) as [j|] eqn:Hj; [|now rewrite Hx].
      destruct (complete j) eqn:Hcomplete.
      * destruct (complete_members _ Hcomplete)
          as (tokens & a & rt & -> & Ha & Hrt).
        destruct (do_GET_granted urlparse_query parse_qs path w code rest r
                    tokens a rt Hp Hc Hne Hr Hj Ha Hrt) as (w' & -> & _).
        reflexivity.
      * destruct (lacks_access_token j) eqn:Hl.
        { now rewrite (do_GET_lacking urlparse_query parse_qs path w code rest
                         r j Hp Hc Hne Hr Hj Hl). }
        destruct j as [o|texts|s|t];
          try (destruct (do_GET_unfinished urlparse_query parse_qs path w code
                           rest r _ Hp Hc Hne Hr Hj Hl Hcomplete
                           ltac:(discriminate))
                 as (e & w' & out & -> & Hfs & _ & Hout & _);
               split; [exact Hout|];
               intros p Hne'; rewrite Hfs; now apply lookup_insert_ne).
        destruct Hx as [e ->]. now split.
  - now rewrite (do_GET_no_code urlparse_query parse_qs _ _ Hp Hc).
Qed.

(** X9.  The server loop never raises - an exception of the handler does not
    stop it - and ends the process with code 0 only; and as long as it is
    listening it has printed nothing and changed no file but, possibly, the
    credentials file. *)
Theorem server_loop_outcomes :
  forall (incoming : list string) (w : World),
    match serve incoming w with
    | (Ret _, w') =>
        stdout w' = stdout w
        /\ forall p, p <> env_path -> fs w' !! p = fs w !! p
    | (Raise _, _) => False
    | (Exit c, _) => c = 0
    end.
Proof.
  induction incoming as [|path rest IH]; intros w; [now simpl|].
  simpl. unfold bind, try_except.
  pose proof (do_GET_effect path w) as Hstep.
  destruct (handle path w) as [[[]|e|c] w1]; simpl; [| |exact Hstep];
    destruct Hstep as [Hout Hfs]; specialize (IH w1);
    destruct (serve rest w1) as [[[]|e'|c'] w2]; try exact IH;
    destruct IH as [Hout2 Hfs2];
    (split; [congruence|]); intros p Hp; now rewrite Hfs2, Hfs.
Qed.


(** *** The store after a successful exchange *)

Lemma exchange_success path w code rest r tokens a :
  startswith path "/oauth_callback" = true ->
  code_of path = Some (code :: rest) ->
  code <> "" ->
  remote w (net w) (exchange_request code) = Reply r ->
  json r = Some (Object tokens) ->
  members tokens !! "access_token" = Some (JText a) ->
  plain_member (members tokens !! "refresh_token") = true ->
  exists w',
    handle path w = (Exit 0, w')
    /\ fs w' = <[env_path :=
                   updated_content (List.filter keep_line (store_lines w)) a
                     (member_text (members tokens !! "refresh_token"))]>
                 (fs w)
    /\ forall t, member_text (members tokens !! "refresh_token") = Some t ->
                 plain t = true.
Proof.
  intros Hp Hc Hne Hr Hj Ha Hrt.
  destruct (plain_member_inv _ Hrt) as [Hrt_eq Hrt_plain].
  destruct (do_GET_granted urlparse_query parse_qs path w code rest r tokens
              a _ Hp Hc Hne Hr Hj Ha Hrt_eq) as (w' & Hrun & Hfs & _).
  now exists w'.
Qed.

Lemma wf_store_lines w : wf_lines (store_lines w) = true.
Proof.
  unfold store_lines. destruct (fs w !! env_path); [apply wf_text_lines|].
  reflexivity.
Qed.

Lemma store_lines_no_cr w : existsb (contains CR) (store_lines w) = false.
Proof.
  unfold store_lines. destruct (fs w !! env_path); [apply text_lines_no_cr|].
  reflexivity.
Qed.

Lemma lines_after_exchange w w' a rt :
  fs w' = <[env_path :=
              updated_content (List.filter keep_line (store_lines w)) a rt]>
            (fs w) ->
  plain a = true ->
  (forall t, rt = Some t -> plain t = true) ->
  store_lines w'
  = close_last (List.filter keep_line (store_lines w))
    ++ (access_prefix +:+ a +:+ String LF "")
       :: match rt with
          | Some r0 => [refresh_prefix +:+ r0 +:+ String LF ""]
          | None => []
          end.
Proof.
  intros Hfs Ha Hrt. unfold store_lines at 1.
  rewrite Hfs, lookup_insert_eq.
  apply text_lines_written; [| |exact Ha | exact Hrt].
  - apply wf_lines_filter, wf_store_lines.
  - apply existsb_filter, store_lines_no_cr.
Qed.

Lemma filter_nothing (f : string -> bool) (ls : list string) :
  Forall (fun l => f l = false) ls -> List.filter f ls = [].
Proof.
  induction 1 as [|l ls Hl _ IH]; [reflexivity|].
  simpl. now rewrite Hl.
Qed.

Lemma filter_cons_eq (f : string -> bool) (x : string) (l : list string) :
  List.filter f (x :: l) = if f x then x :: List.filter f l else List.filter f l.
Proof. reflexivity. Qed.

Lemma kept_no_access_line ls :
  Forall (fun l => startswith l access_prefix = false)
         (List.filter keep_line ls).
Proof.
  apply List.Forall_forall. intros l Hl. apply filter_In in Hl as [_ Hk].
  unfold keep_line in Hk. apply andb_prop in Hk as [Hk _].
  now apply negb_true_iff in Hk.
Qed.

Lemma closed_kept_no_token_line ls :
  Forall (fun l => startswith l access_prefix = false)
         (close_last (List.filter keep_line ls))
  /\ Forall (fun l => startswith l refresh_prefix = false)
            (close_last (List.filter keep_line ls)).
Proof.
  split; (apply Forall_close_last; [reflexivity | |]).
  - intros l Hl. now rewrite startswith_lf.
  - apply kept_no_access_line.
  - intros l Hl. now rewrite startswith_lf.
  - apply kept_no_refresh_line.
Qed.

(** X11.  After a successful exchange, the tokens being texts with no line
    break in them, neither line feed nor carriage return, whatever the credentials file held before - nothing at all, old token
    lines, several of them - exactly one line of it starts with
    [DROPBOX_ACCESS_TOKEN=], the new one; and one line starts with
    [DROPBOX_REFRESH_TOKEN=] if a refresh token was granted, none
    otherwise. *)
Theorem exchange_leaves_one_line_per_token :
  forall (path : string) (w : World) (code : string) (rest : list string)
         (r : Response) (tokens : JsonObject) (a : string),
    startswith path "/oauth_callback" = true ->
    code_of path = Some (code :: rest) ->
    code <> "" ->
    remote w (net w) (exchange_request code) = Reply r ->
    json r = Some (Object tokens) ->
    members tokens !! "access_token" = Some (JText a) ->
    plain a = true ->
    plain_member (members tokens !! "refresh_token") = true ->
    exists (w' : World),
      handle path w = (Exit 0, w')
      /\ List.filter (fun l => startswith l access_prefix) (store_lines w')
         = [access_prefix +:+ a +:+ String LF ""]
      /\ List.filter (fun l => startswith l refresh_prefix) (store_lines w')
         = match members tokens !! "refresh_token" with
           | Some (JText r0) => [refresh_prefix +:+ r0 +:+ String LF ""]
           | _ => []
           end.
Proof.
  intros path w code rest r tokens a Hp Hc Hne Hr Hj Ha Hlf Hrt.
  destruct (exchange_success path w code rest r tokens a Hp Hc Hne Hr Hj Ha
              Hrt) as (w' & Hrun & Hfs & Hplain).
  exists w'. split; [exact Hrun|].
  rewrite (lines_after_exchange _ _ _ _ Hfs Hlf Hplain).
  replace (match members tokens !! "refresh_token" with
           | Some (JText r0) => [refresh_prefix +:+ r0 +:+ String LF ""]
           | _ => []
           end)
    with (match member_text (members tokens !! "refresh_token") with
          | Some r0 => [refresh_prefix +:+ r0 +:+ String LF ""]
          | None => []
          end)
    by (now destruct (members tokens !! "refresh_token") as [[]|]).
  destruct (closed_kept_no_token_line (store_lines w)) as [Hacc Href].
  rewrite !List.filter_app.
  rewrite (filter_nothing _ _ Hacc), (filter_nothing _ _ Href).
  assert (Haa : startswith (access_prefix +:+ a +:+ String LF "")
                  access_prefix = true) by apply startswith_app.
  assert (Har : startswith (access_prefix +:+ a +:+ String LF "")
                  refresh_prefix = false) by reflexivity.
  rewrite !filter_cons_eq. cbv beta. rewrite Haa, Har.
  destruct (member_text (members tokens !! "refresh_token")) as [r0|];
    [|now split].
  assert (Hra : startswith (refresh_prefix +:+ r0 +:+ String LF "")
                  access_prefix = false) by reflexivity.
  assert (Hrr : startswith (refresh_prefix +:+ r0 +:+ String LF "")
                  refresh_prefix = true) by apply startswith_app.
  rewrite !filter_cons_eq. cbv beta. rewrite Hra, Hrr. now split.
Qed.

(** *** Reading the store after an exchange *)

Lemma line_entry_lf l : line_entry (l +:+ String LF "") = line_entry l.
Proof. unfold line_entry. now rewrite strip_lf. Qed.

Lemma line_entry_refresh_line r0 :
  line_entry (refresh_prefix +:+ r0 +:+ String LF "")
  = Some ("DROPBOX_REFRESH_TOKEN", rstrip r0).
Proof.
  unfold line_entry. rewrite strip_refresh, rstrip_lf. reflexivity.
Qed.

Lemma line_entry_refresh_key l :
  startswith l refresh_prefix = true ->
  exists v, line_entry l = Some ("DROPBOX_REFRESH_TOKEN", v).
Proof.
  intros H. destruct (startswith_inv _ _ H) as [rest0 ->].
  unfold line_entry. rewrite strip_refresh. now eexists.
Qed.

Lemma last_value_close_last k ls :
  last_value k (close_last ls) = last_value k ls.
Proof.
  induction ls as [|l ls IH]; [reflexivity|].
  destruct ls as [|l' ls'].
  - simpl close_last. destruct (closed l).
    + rewrite !last_value_cons. reflexivity.
    + rewrite !last_value_cons, line_entry_lf. reflexivity.
  - change (close_last (l :: l' :: ls')) with (l :: close_last (l' :: ls')).
    now rewrite !last_value_cons, IH.
Qed.

Lemma last_value_kept k ls :
  k <> "DROPBOX_ACCESS_TOKEN" -> k <> "DROPBOX_REFRESH_TOKEN" ->
  last_value k (List.filter keep_line ls) = last_value k ls.
Proof.
  intros Ha Hr. induction ls as [|l ls IH]; [reflexivity|].
  rewrite filter_cons_eq. destruct (keep_line l) eqn:Hk.
  - now rewrite !last_value_cons, IH.
  - rewrite last_value_cons, IH.
    destruct (last_value k ls); [reflexivity|].
    unfold keep_line in Hk. apply andb_false_iff in Hk as [Hk|Hk];
      apply negb_false_iff in Hk.
    + destruct (line_entry_access_key _ Hk) as [v ->].
      destruct (String.eqb_spec "DROPBOX_ACCESS_TOKEN" k); congruence.
    + destruct (line_entry_refresh_key _ Hk) as [v ->].
      destruct (String.eqb_spec "DROPBOX_REFRESH_TOKEN" k); congruence.
Qed.

Lemma kept_refresh_none ls :
  forallb flush_line ls = true ->
  last_value "DROPBOX_REFRESH_TOKEN" (List.filter keep_line ls) = None.
Proof.
  intros Hflush. apply last_value_none, List.Forall_forall.
  intros l Hl Hkey.
  destruct (kept_keys_no_token ls "DROPBOX_REFRESH_TOKEN" Hflush) as [_ H].
  - apply list_elem_of_omap. exists l. split; [|exact Hkey].
    now apply list_elem_of_In.
  - now elim H.
Qed.

(** What a reader finds once the handler has written the file. *)
Lemma stored_after_exchange w w' a rt :
  fs w' = <[env_path :=
              updated_content (List.filter keep_line (store_lines w)) a rt]>
            (fs w) ->
  plain a = true ->
  (forall t, rt = Some t -> plain t = true) ->
  stored_env w' !! "DROPBOX_ACCESS_TOKEN" = Some (rstrip a)
  /\ stored_env w' !! "DROPBOX_REFRESH_TOKEN"
     = match rt with
       | Some r0 => Some (rstrip r0)
       | None =>
           last_value "DROPBOX_REFRESH_TOKEN"
             (List.filter keep_line (store_lines w))
       end
  /\ (forall k, k <> "DROPBOX_ACCESS_TOKEN" ->
                k <> "DROPBOX_REFRESH_TOKEN" ->
                stored_env w' !! k = stored_env w !! k).
Proof.
  intros Hfs Ha Hrt.
  pose proof (lines_after_exchange _ _ _ _ Hfs Ha Hrt) as Hlines.
  split; [|split].
  - rewrite stored_lookup, Hlines, last_value_app.
    destruct rt as [r0|].
    + rewrite !last_value_cons, line_entry_refresh_line,
        line_entry_access_line. reflexivity.
    + rewrite last_value_cons, line_entry_access_line. reflexivity.
  - rewrite stored_lookup, Hlines, last_value_app.
    destruct rt as [r0|].
    + rewrite !last_value_cons, line_entry_refresh_line. reflexivity.
    + rewrite last_value_cons, line_entry_access_line.
      change (last_value "DROPBOX_REFRESH_TOKEN" []) with (@None string).
      change (String.eqb "DROPBOX_ACCESS_TOKEN" "DROPBOX_REFRESH_TOKEN")
        with false.
      cbv iota. apply last_value_close_last.
  - intros k Hka Hkr. rewrite !stored_lookup, Hlines, last_value_app.
    assert (Htail : last_value k
                      ((access_prefix +:+ a +:+ String LF "")
                       :: match rt with
                          | Some r0 => [refresh_prefix +:+ r0 +:+ String LF ""]
                          | None => []
                          end) = None).
    { destruct rt as [r0|].
      - rewrite !last_value_cons, line_entry_refresh_line,
          line_entry_access_line.
        change (last_value k []) with (@None string). cbv iota.
        destruct (String.eqb_spec "DROPBOX_REFRESH_TOKEN" k); [congruence|].
        destruct (String.eqb_spec "DROPBOX_ACCESS_TOKEN" k);
          [congruence | reflexivity].
      - rewrite last_value_cons, line_entry_access_line.
        change (last_value k []) with (@None string). cbv iota.
        destruct (String.eqb_spec "DROPBOX_ACCESS_TOKEN" k);
          [congruence | reflexivity]. }
    rewrite Htail, last_value_close_last. now apply last_value_kept.
Qed.

Lemma stored_env_fs w1 w2 : fs w1 = fs w2 -> stored_env w1 = stored_env w2.
Proof. unfold stored_env, store_lines. now intros ->. Qed.

(** X12.  After a successful exchange, the tokens being texts with no line
    break in them, neither line feed nor carriage return, a reader of the credentials file finds the granted access token, and the
    granted refresh token if there is one (both less white space at their
    end), even where older lines carried these keys; every other key has the
    value it had. *)
Theorem exchange_then_load_env :
  forall (path : string) (w : World) (env : gmap string string)
         (code : string) (rest : list string) (r : Response)
         (tokens : JsonObject) (a : string),
    DropboxRefreshToken.load_env w = (Ret env, w) ->
    startswith path "/oauth_callback" = true ->
    code_of path = Some (code :: rest) ->
    code <> "" ->
    remote w (net w) (exchange_request code) = Reply r ->
    json r = Some (Object tokens) ->
    members tokens !! "access_token" = Some (JText a) ->
    plain a = true ->
    plain_member (members tokens !! "refresh_token") = true ->
    exists (w' : World) (env' : gmap string string),
      handle path w = (Exit 0, w')
      /\ DropboxRefreshToken.load_env w' = (Ret env', w')
      /\ env' !! "DROPBOX_ACCESS_TOKEN" = Some (rstrip a)
      /\ (forall r0, members tokens !! "refresh_token" = Some (JText r0) ->
                     env' !! "DROPBOX_REFRESH_TOKEN" = Some (rstrip r0))
      /\ (forall k, k <> "DROPBOX_ACCESS_TOKEN" ->
                    k <> "DROPBOX_REFRESH_TOKEN" ->
                    env' !! k = env !! k).
Proof.
  intros path w env code rest r tokens a Henv Hp Hc Hne Hr Hj Ha Hlf Hrt.
  apply load_env_stored in Henv. subst env.
  destruct (exchange_success path w code rest r tokens a Hp Hc Hne Hr Hj Ha
              Hrt) as (w' & Hrun & Hfs & Hplain).
  destruct (stored_after_exchange _ _ _ _ Hfs Hlf Hplain)
    as (Haccess & Hrefresh & Hother).
  exists w', (stored_env w'). split; [exact Hrun|].
  split; [apply load_env_run|]. split; [exact Haccess|].
  split; [|exact Hother].
  intros r0 Hr0. now rewrite Hrefresh, Hr0.
Qed.

(** X13.  After an exchange that granted an access token - a text with no
    line break in it, neither line feed nor carriage return - and no refresh
    token, in a store whose token keys stood at the start of their lines,
    the refresh utility can do
    nothing: on that file system [refresh_access_token] finds no refresh
    token, prints its complaint and returns [False] without a request. *)
Theorem refresh_fails_after_exchange_without_refresh_token :
  forall (path : string) (w : World) (code : string) (rest : list string)
         (r : Response) (tokens : JsonObject) (a : string),
    startswith path "/oauth_callback" = true ->
    code_of path = Some (code :: rest) ->
    code <> "" ->
    remote w (net w) (exchange_request code) = Reply r ->
    json r = Some (Object tokens) ->
    members tokens !! "access_token" = Some (JText a) ->
    members tokens !! "refresh_token" = None ->
    plain a = true ->
    forallb flush_line (store_lines w) = true ->
    exists (w' : World),
      handle path w = (Exit 0, w')
      /\ forall later,
           fs later = fs w' ->
           DropboxRefreshToken.refresh_access_token later
           = (Ret false,
              log_stdout DropboxRefreshToken.msg_no_refresh_token later).
Proof.
  intros path w code rest r tokens a Hp Hc Hne Hr Hj Ha Hnone Hlf Hflush.
  destruct (exchange_success path w code rest r tokens a Hp Hc Hne Hr Hj Ha)
    as (w' & Hrun & Hfs & _); [now rewrite Hnone|].
  rewrite Hnone in Hfs. cbn [member_text] in Hfs.
  destruct (stored_after_exchange _ _ _ _ Hfs Hlf ltac:(discriminate))
    as (_ & Hrefresh & _).
  rewrite (kept_refresh_none _ Hflush) in Hrefresh.
  exists w'. split; [exact Hrun|]. intros later Hlater.
  rewrite refresh_access_token_run. cbv zeta.
  now rewrite (stored_env_fs _ _ Hlater), Hrefresh.
Qed.

(** X14.  After a successful exchange, with an access token that is a text
    with no line break in it, neither line feed nor carriage return, and not
    all white space, [test_token] run on that file system probes with the
    granted token. *)
Theorem test_token_after_exchange :
  forall (path : string) (w : World) (code : string) (rest : list string)
         (r : Response) (tokens : JsonObject) (a : string),
    startswith path "/oauth_callback" = true ->
    code_of path = Some (code :: rest) ->
    code <> "" ->
    remote w (net w) (exchange_request code) = Reply r ->
    json r = Some (Object tokens) ->
    members tokens !! "access_token" = Some (JText a) ->
    plain a = true ->
    plain_member (members tokens !! "refresh_token") = true ->
    rstrip a <> "" ->
    exists (w' : World),
      handle path w = (Exit 0, w')
      /\ forall later,
           fs later = fs w' ->
           net (snd (DropboxRefreshToken.test_token later))
           = net later ++ [DropboxRefreshToken.probe_request (rstrip a)].
Proof.
  intros path w code rest r tokens a Hp Hc Hne Hr Hj Ha Hlf Hrt Hblank.
  destruct (exchange_success path w code rest r tokens a Hp Hc Hne Hr Hj Ha
              Hrt) as (w' & Hrun & Hfs & Hplain).
  destruct (stored_after_exchange _ _ _ _ Hfs Hlf Hplain) as (Haccess & _).
  exists w'. split; [exact Hrun|]. intros later Hlater.
  rewrite test_token_run. cbv zeta.
  rewrite (stored_env_fs _ _ Hlater), Haccess, (truthy_some _ Hblank).
  simpl format_opt. now destruct (remote later (net later) _).
Qed.

End CallbackFrame.

(* ===================================================================== *)
(** ** The four operations of dropbox-api.py *)
(* ===================================================================== *)

Section ApiOperations.

Import Py Store Listing DropboxApi.

Abbreviation stored_token w := (stored_env w !! "DROPBOX_ACCESS_TOKEN").


Lemma log_lines_rest lines w :
  fs (log_lines lines w) = fs w /\ net (log_lines lines w) = net w
  /\ browser (log_lines lines w) = browser w.
Proof.
  unfold log_lines. revert w.
  induction lines as [|l lines IH]; intros w; simpl; [easy|].
  destruct (IH (log_stdout l w)) as (-> & -> & ->). easy.
Qed.

Lemma print_each (f : Entry -> string) files w :
  for_each (fun (_ : unit) file => print (f file)) files tt w
  = (Ret tt, log_lines (map f files) w).
Proof.
  revert w. induction files as [|x files IH]; intros w; [reflexivity|].
  simpl for_each. unfold bind at 1, print at 1. apply IH.
Qed.

Lemma list_files_run w :
  forallb parsable (store_lines w) = true ->
  list_files w =
  if truthy (stored_token w) then
    let q := list_request (stored_token w) in
    let w1 := log_net q w in
    match remote w (net w) q with
    | NetDown msg =>
        (Ret [], log_stdout ("❌ Error listing files: " +:+ msg) w1)
    | Reply r =>
        if status_code r =? 200 then
          match json r with
          | None =>
              (Ret [],
               log_stdout ("❌ Error listing files: Expecting value") w1)
          | Some result =>
              match listed_entries result with
              | None =>
                  (Ret [],
                   log_stdout ("❌ Error listing files: "
                               +:+ exn_str (getitem_error result "entries"))
                     w1)
              | Some es =>
                  (Ret (List.filter is_file es),
                   log_lines (listing (List.filter is_file es)) w1)
              end
          end
        else
          (Ret [], log_stdout ("❌ API Error: " +:+ pretty (status_code r)
                               +:+ " - " +:+ text r) w1)
    end
  else (Ret [], log_stdout "❌ No access token found" w).
Proof.
  intros Hp. unfold list_files, bind at 1. rewrite api_load_env_run, Hp.
  destruct (truthy (stored_token w)); [|reflexivity].
  cbv beta iota zeta delta [negb try_except].
  unfold bind at 1. unfold post.
  destruct (remote w (net w) _) as [r|msg]; [|reflexivity].
  destruct (status_code r =? 200); [|reflexivity].
  unfold bind at 1. unfold response_json.
  destruct (json r) as [result|]; [|reflexivity].
  unfold ret at 1. unfold bind at 1.
  destruct result as [o|texts|s|t]; try reflexivity.
  unfold get_entries, listed_entries.
  destruct (entries o) as [es|]; [|reflexivity].
  unfold ret at 1. unfold bind at 1. unfold print at 1. unfold bind at 1.
  rewrite print_each. reflexivity.
Qed.

Lemma download_file_run file_path local_path w :
  forallb parsable (store_lines w) = true ->
  download_file file_path local_path w =
  let q := download_request (stored_token w) file_path in
  let w1 := log_net q w in
  match remote w (net w) q with
  | NetDown msg => (Ret false, log_stdout ("  ❌ Download error: " +:+ msg) w1)
  | Reply r =>
      if status_code r =? 200 then
        (Ret true,
         log_stdout ("  ✅ Downloaded: " +:+ file_path +:+ " → " +:+ local_path)
           (set_file local_path (content r) w1))
      else
        (Ret false,
         log_stdout ("  ❌ Download failed: " +:+ pretty (status_code r)
                     +:+ " - " +:+ text r) w1)
  end.
Proof.
  intros Hp. unfold download_file, bind at 1. rewrite api_load_env_run, Hp.
  cbv zeta. run.
  destruct (remote w (net w) _) as [r|msg]; [|reflexivity].
  destruct (status_code r =? 200); reflexivity.
Qed.

Lemma delete_file_run file_path w :
  forallb parsable (store_lines w) = true ->
  delete_file file_path w =
  let q := delete_request (stored_token w) file_path in
  let w1 := log_net q w in
  match remote w (net w) q with
  | NetDown msg => (Ret false, log_stdout ("  ❌ Delete error: " +:+ msg) w1)
  | Reply r =>
      if status_code r =? 200 then
        (Ret true, log_stdout ("  🗑️  Deleted from Dropbox: " +:+ file_path) w1)
      else
        (Ret false,
         log_stdout ("  ❌ Delete failed: " +:+ pretty (status_code r)
                     +:+ " - " +:+ text r) w1)
  end.
Proof.
  intros Hp. unfold delete_file, bind at 1. rewrite api_load_env_run, Hp.
  cbv zeta. run.
  destruct (remote w (net w) _) as [r|msg]; [|reflexivity].
  destruct (status_code r =? 200); reflexivity.
Qed.

Lemma upload_file_run local_path remote_path w :
  forallb parsable (store_lines w) = true ->
  upload_file local_path remote_path w =
  match fs w !! local_path with
  | None =>
      (Ret false,
       log_stdout ("  ❌ Upload error: "
                   +:+ exn_str (FileNotFoundError local_path)) w)
  | Some data =>
      let q := upload_request (stored_token w) remote_path data in
      let w1 := log_net q w in
      match remote w (net w) q with
      | NetDown msg =>
          (Ret false, log_stdout ("  ❌ Upload error: " +:+ msg) w1)
      | Reply r =>
          if status_code r =? 200 then
            (Ret true,
             log_stdout ("  ✅ Uploaded: " +:+ local_path +:+ " → "
                         +:+ remote_path) w1)
          else
            (Ret false,
             log_stdout ("  ❌ Upload failed: " +:+ pretty (status_code r)
                         +:+ " - " +:+ text r) w1)
      end
  end.
Proof.
  intros Hp. unfold upload_file, bind at 1. rewrite api_load_env_run, Hp.
  cbv zeta. run.
  destruct (fs w !! local_path) as [data|]; [|reflexivity].
  cbv beta iota.
  destruct (remote w (net w) _) as [r|msg]; [|reflexivity].
  destruct (status_code r =? 200); reflexivity.
Qed.

Lemma api_unreadable w :
  forallb parsable (store_lines w) = false ->
  list_files w = (Raise unpack_error, w)
  /\ (forall p l, download_file p l w = (Raise unpack_error, w))
  /\ (forall p, delete_file p w = (Raise unpack_error, w))
  /\ (forall l p, upload_file l p w = (Raise unpack_error, w)).
Proof.
  intros Hp. repeat split; intros;
    unfold list_files, download_file, delete_file, upload_file, bind at 1;
    now rewrite api_load_env_run, Hp.
Qed.

Lemma api_operations_return w :
  forallb parsable (store_lines w) = true ->
  (exists files w', list_files w = (Ret files, w'))
  /\ (forall p l, exists b w', download_file p l w = (Ret b, w'))
  /\ (forall p, exists b w', delete_file p w = (Ret b, w'))
  /\ (forall l p, exists b w', upload_file l p w = (Ret b, w')).
Proof.
  intros Hp.
  split; [|split; [|split]].
  - rewrite (list_files_run _ Hp). cbv zeta.
    destruct (truthy _); [|now eexists _, _].
    destruct (remote w (net w) _) as [r|msg]; [|now eexists _, _].
    destruct (status_code r =? 200); [|now eexists _, _].
    destruct (json r) as [result|]; [|now eexists _, _].
    destruct (listed_entries result); now eexists _, _.
  - intros p l. rewrite (download_file_run _ _ _ Hp). cbv zeta.
    destruct (remote w (net w) _) as [r|msg]; [|now eexists _, _].
    destruct (status_code r =? 200); now eexists _, _.
  - intros p. rewrite (delete_file_run _ _ Hp). cbv zeta.
    destruct (remote w (net w) _) as [r|msg]; [|now eexists _, _].
    destruct (status_code r =? 200); now eexists _, _.
  - intros l p. rewrite (upload_file_run _ _ _ Hp).
    destruct (fs w !! l); [|now eexists _, _]. cbv zeta.
    destruct (remote w (net w) _) as [r|msg]; [|now eexists _, _].
    destruct (status_code r =? 200); now eexists _, _.
Qed.



(** X17.  Without a usable access token in a readable store, [list_files]
    prints its complaint and sends nothing, while [download_file],
    [delete_file] and [upload_file] (of a file that exists) do not check and
    send their request all the same - with [Bearer None] as authorization
    when the key is absent. *)
Theorem only_list_files_checks_the_token :
  forall (w : World),
    forallb parsable (store_lines w) = true ->
    truthy (stored_token w) = false ->
    list_files w = (Ret [], log_stdout "❌ No access token found" w)
    /\ (forall p l,
          net (snd (download_file p l w))
          = net w ++ [download_request (stored_token w) p])
    /\ (forall p,
          net (snd (delete_file p w))
          = net w ++ [delete_request (stored_token w) p])
    /\ (forall l p data,
          fs w !! l = Some data ->
          net (snd (upload_file l p w))
          = net w ++ [upload_request (stored_token w) p data])
    /\ (stored_token w = None ->
        bearer (stored_token w) = Plain "Bearer None").
Proof.
  intros w Hp Ht. split; [|split; [|split; [|split]]].
  - now rewrite (list_files_run _ Hp), Ht.
  - intros p l. rewrite (download_file_run _ _ _ Hp). cbv zeta.
    destruct (remote w (net w) _) as [r|msg]; [|reflexivity].
    destruct (status_code r =? 200); reflexivity.
  - intros p. rewrite (delete_file_run _ _ Hp). cbv zeta.
    destruct (remote w (net w) _) as [r|msg]; [|reflexivity].
    destruct (status_code r =? 200); reflexivity.
  - intros l p data Hd. rewrite (upload_file_run _ _ _ Hp), Hd. cbv zeta.
    destruct (remote w (net w) _) as [r|msg]; [|reflexivity].
    destruct (status_code r =? 200); reflexivity.
  - now intros ->.
Qed.


(** X19.  Whatever the store and the network, [list_files], [delete_file]
    and [upload_file] change no local file, and [download_file] changes no
    file but the one at its local path. *)
Theorem api_file_system_frame :
  forall (w : World) (remote_path local_path : string),
    fs (snd (list_files w)) = fs w
    /\ fs (snd (delete_file remote_path w)) = fs w
    /\ fs (snd (upload_file local_path remote_path w)) = fs w
    /\ (forall k, k <> local_path ->
                  fs (snd (download_file remote_path local_path w)) !! k
                  = fs w !! k).
Proof.
  intros w p l. destruct (forallb parsable (store_lines w)) eqn:Hp.
  - split; [|split; [|split]].
    + rewrite (list_files_run _ Hp). cbv zeta.
      destruct (truthy _); [|reflexivity].
      destruct (remote w (net w) _) as [r|msg]; [|reflexivity].
      destruct (status_code r =? 200); [|reflexivity].
      destruct (json r) as [result|]; [|reflexivity].
      destruct (listed_entries result) as [es|]; [|reflexivity].
      exact (proj1 (log_lines_rest _ _)).
    + rewrite (delete_file_run _ _ Hp). cbv zeta.
      destruct (remote w (net w) _) as [r|msg]; [|reflexivity].
      destruct (status_code r =? 200); reflexivity.
    + rewrite (upload_file_run _ _ _ Hp).
      destruct (fs w !! l); [|reflexivity]. cbv zeta.
      destruct (remote w (net w) _) as [r|msg]; [|reflexivity].
      destruct (status_code r =? 200); reflexivity.
    + intros k Hk. rewrite (download_file_run _ _ _ Hp). cbv zeta.
      destruct (remote w (net w) _) as [r|msg]; [|reflexivity].
      destruct (status_code r =? 200); [|reflexivity].
      simpl. now rewrite lookup_insert_ne.
  - destruct (api_unreadable _ Hp) as (Hl & Hd & Hx & Hu).
    now rewrite Hl, Hd, Hx, Hu.
Qed.



Lemma then_ret_tt {A} (m : M A) (a : A) w w' :
  m w = (Ret a, w') -> (m ;> ret tt) w = (Ret tt, snd (m w)).
Proof. intros H. unfold bind. now rewrite H. Qed.

(** X22.  On a readable store a command given its arguments ends normally,
    whether the operation succeeded or not - a failed download, deletion or
    upload does not show in the way the script ends - and arguments beyond
    those the command takes are ignored. *)
Theorem main_ends_normally :
  forall (w : World) (prog a b : string) (more : list string),
    forallb parsable (store_lines w) = true ->
    main (prog :: "list" :: more) w = (Ret tt, snd (list_files w))
    /\ main (prog :: "download" :: a :: b :: more) w
       = (Ret tt, snd (download_file a b w))
    /\ main (prog :: "delete" :: a :: more) w
       = (Ret tt, snd (delete_file a w))
    /\ main (prog :: "upload" :: a :: b :: more) w
       = (Ret tt, snd (upload_file a b w)).
Proof.
  intros w prog a b more Hp.
  pose proof (api_operations_return w Hp)
    as (Hl & Hd & Hx & Hu).
  split; [|split; [|split]].
  - destruct Hl as (files & w' & Hl). exact (then_ret_tt _ _ _ _ Hl).
  - destruct (Hd a b) as (r & w' & H). exact (then_ret_tt _ _ _ _ H).
  - destruct (Hx a) as (r & w' & H). exact (then_ret_tt _ _ _ _ H).
  - destruct (Hu a b) as (r & w' & H). exact (then_ret_tt _ _ _ _ H).
Qed.

End ApiOperations.

(* ===================================================================== *)
(** ** The writers and the strict reader *)
(* ===================================================================== *)

Section Readable.

Import Py Store DropboxRefreshToken.

Lemma parsable_lf l : parsable (l +:+ String LF "") = parsable l.
Proof. unfold parsable. now rewrite strip_lf. Qed.

Lemma parsable_access s : parsable (access_prefix +:+ s) = true.
Proof. unfold parsable. rewrite strip_access. reflexivity. Qed.

Lemma parsable_refresh s : parsable (refresh_prefix +:+ s) = true.
Proof. unfold parsable. rewrite strip_refresh. reflexivity. Qed.

Lemma parsable_token_line l :
  DropboxOAuthSetup.keep_line l = false -> parsable l = true.
Proof.
  unfold DropboxOAuthSetup.keep_line. intros H.
  apply andb_false_iff in H as [H|H]; apply negb_false_iff in H;
    destruct (startswith_inv _ _ H) as [rest ->];
    [apply parsable_access | apply parsable_refresh].
Qed.

Lemma parsable_rewritten tok ls :
  forallb parsable (map (rewrite_line tok) ls) = forallb parsable ls.
Proof.
  induction ls as [|l ls IH]; [reflexivity|].
  simpl. rewrite IH. f_equal.
  destruct (startswith l access_prefix) eqn:E.
  - rewrite (rewrite_line_access _ _ E), parsable_access.
    destruct (startswith_inv _ _ E) as [rest ->].
    now rewrite parsable_access.
  - now rewrite (rewrite_line_other _ _ E).
Qed.

Lemma parsable_kept ls :
  forallb parsable (List.filter DropboxOAuthSetup.keep_line ls)
  = forallb parsable ls.
Proof.
  induction ls as [|l ls IH]; [reflexivity|].
  simpl. destruct (DropboxOAuthSetup.keep_line l) eqn:E; simpl.
  - now rewrite IH.
  - now rewrite (parsable_token_line _ E), IH.
Qed.

Lemma parsable_close_last ls :
  forallb parsable (close_last ls) = forallb parsable ls.
Proof.
  induction ls as [|l ls IH]; [reflexivity|].
  destruct ls as [|l' ls'].
  - simpl close_last. destruct (closed l); simpl.
    + now rewrite andb_true_r.
    + now rewrite parsable_lf.
  - change (close_last (l :: l' :: ls')) with (l :: close_last (l' :: ls')).
    change (forallb parsable (l :: close_last (l' :: ls')))
      with (parsable l && forallb parsable (close_last (l' :: ls'))).
    now rewrite IH.
Qed.

(** X23.  A successful refresh with a token that is a text with no line
    break in it, neither line feed nor carriage return, leaves the
    credentials file as readable for [dropbox-api.py] as it was: every line
    of the new file is blank, a comment or contains ['='] exactly when every
    line of the old one is. *)
Theorem refresh_keeps_store_readable :
  forall (w : World) (env : gmap string string)
         (refresh_token content : string) (r : Response)
         (tokens : JsonObject) (new_access_token : string),
    load_env w = (Ret env, w) ->
    env !! "DROPBOX_REFRESH_TOKEN" = Some refresh_token ->
    refresh_token <> "" ->
    fs w !! env_path = Some content ->
    remote w (net w)
      (refresh_request refresh_token (env !! "DROPBOX_APP_KEY")
         (env !! "DROPBOX_APP_SECRET")) = Reply r ->
    status_code r = 200 ->
    json r = Some (Object tokens) ->
    members tokens !! "access_token" = Some (JText new_access_token) ->
    plain new_access_token = true ->
    exists (w' : World),
      refresh_access_token w = (Ret true, w')
      /\ forallb parsable (store_lines w') = forallb parsable (store_lines w)
      /\ DropboxApi.load_env w'
         = (if forallb parsable (store_lines w) then Ret (stored_env w')
            else Raise DropboxApi.unpack_error, w').
Proof.
  intros w env rt content r tokens tok Henv Hrt Hne Hf Hr H200 Hj Htok Hlf.
  destruct (refresh_access_token_success _ _ _ _ _ _ _ Henv Hrt Hne Hf Hr
              H200 Hj Htok) as (w' & Hrun & Hfs & _).
  exists w'. split; [exact Hrun|].
  assert (Hsame : forallb parsable (store_lines w')
                  = forallb parsable (store_lines w)).
  { unfold store_lines. rewrite Hfs, lookup_insert_eq, Hf.
    rewrite (text_lines_rewritten _ _ Hlf).
    apply parsable_rewritten. }
  split; [exact Hsame|]. now rewrite api_load_env_run, Hsame.
Qed.

End Readable.

Section SetupRuns.

Import Py Store Reading DropboxOAuthSetup.

Variable urlparse_query : string -> string.
Variable parse_qs : string -> gmap string (list string).

Abbreviation handle := (do_GET urlparse_query parse_qs).
Abbreviation serve := (serve_forever urlparse_query parse_qs).
Abbreviation code_of path := (parse_qs (urlparse_query path) !! "code").

(** X24.  After a successful exchange on a readable store, the tokens being
    texts with no line break in them, neither line feed nor carriage return,
    and the access token not all white space, the file is still
    readable for [dropbox-api.py], and [list_files] run on that file system
    sends its request with the granted token. *)
Theorem list_files_after_exchange :
  forall (path : string) (w : World) (code : string) (rest : list string)
         (r : Response) (tokens : JsonObject) (a : string),
    startswith path "/oauth_callback" = true ->
    code_of path = Some (code :: rest) ->
    code <> "" ->
    remote w (net w) (exchange_request code) = Reply r ->
    json r = Some (Object tokens) ->
    members tokens !! "access_token" = Some (JText a) ->
    plain a = true ->
    plain_member (members tokens !! "refresh_token") = true ->
    rstrip a <> "" ->
    forallb parsable (store_lines w) = true ->
    exists (w' : World),
      handle path w = (Exit 0, w')
      /\ forall later,
           fs later = fs w' ->
           forallb parsable (store_lines later) = true
           /\ net (snd (DropboxApi.list_files later))
              = net later ++ [DropboxApi.list_request (Some (rstrip a))].
Proof.
  intros path w code rest r tokens a Hp Hc Hne Hr Hj Ha Hlf Hrt Hblank Hread.
  destruct (exchange_success urlparse_query parse_qs path w code rest r
              tokens a Hp Hc Hne Hr Hj Ha Hrt) as (w' & Hrun & Hfs & Hplain).
  destruct (stored_after_exchange _ _ _ _ Hfs Hlf Hplain) as (Haccess & _).
  pose proof (lines_after_exchange _ _ _ _ Hfs Hlf Hplain) as Hlines.
  exists w'. split; [exact Hrun|]. intros later Hlater.
  assert (Hsame : store_lines later = store_lines w')
    by (unfold store_lines; now rewrite Hlater).
  assert (Hok : forallb parsable (store_lines later) = true).
  { rewrite Hsame, Hlines, forallb_app, parsable_close_last, parsable_kept,
      Hread.
    destruct (member_text (members tokens !! "refresh_token")) as [r0|];
      cbn [forallb andb];
      now rewrite ?parsable_access, ?parsable_refresh. }
  split; [exact Hok|].
  rewrite (list_files_run _ Hok), (stored_env_fs _ _ Hlater), Haccess,
    (truthy_some _ Hblank). cbv zeta.
  destruct (remote later (net later) _) as [r1|msg]; [|reflexivity].
  destruct (status_code r1 =? 200); [|reflexivity].
  destruct (json r1) as [result|]; [|reflexivity].
  destruct (listed_entries result) as [es|]; [|reflexivity].
  exact (proj1 (proj2 (log_lines_rest _ _))).
Qed.

Lemma do_GET_browser path w :
  exists answers,
    browser (snd (handle path w)) = browser w ++ answers
    /\ (length answers <= 2)%nat.
Proof.
  destruct (startswith path "/oauth_callback") eqn:Hp;
    [|rewrite (do_GET_elsewhere urlparse_query parse_qs _ _ Hp);
      exists []; simpl; rewrite app_nil_r; split; [reflexivity | lia]].
  destruct (code_of path) as [[|code rest]|] eqn:Hc.
  - unfold do_GET. rewrite Hp, Hc. exists []. simpl.
    rewrite app_nil_r. split; [reflexivity | lia].
  - destruct (string_dec code "") as [->|Hne].
    + unfold do_GET. rewrite Hp, Hc. eexists [_]. simpl.
      split; [reflexivity | lia].
    + pose proof (do_GET_undecoded urlparse_query parse_qs path w code rest
                    Hp Hc Hne) as Hx.
      cbv zeta in Hx.
      destruct (remote w (net w) (exchange_request code)) as [r|msg] eqn:Hr;
        [|rewrite Hx; exists []; simpl; rewrite app_nil_r;
          split; [reflexivity | lia]].
      destruct (json r) as [j|] eqn:Hj;
        [|rewrite Hx; exists []; simpl; rewrite app_nil_r;
          split; [reflexivity | lia]].
      destruct (complete j) eqn:Hcomplete.
      * destruct (complete_members _ Hcomplete)
          as (tokens & a & rt & -> & Ha & Hrt).
        destruct (do_GET_granted urlparse_query parse_qs path w code rest r
                    tokens a rt Hp Hc Hne Hr Hj Ha Hrt)
          as (w' & -> & _ & _ & Hb).
        simpl snd. rewrite Hb. eexists [_; _].
        split; [reflexivity | simpl; lia].
      * destruct (lacks_access_token j) eqn:Hl.
        { rewrite (do_GET_lacking urlparse_query parse_qs path w code rest
                     r j Hp Hc Hne Hr Hj Hl).
          eexists [_]. simpl. split; [reflexivity | lia]. }
        destruct j as [o|texts|s|t];
          try (destruct (do_GET_unfinished urlparse_query parse_qs path w code
                           rest r _ Hp Hc Hne Hr Hj Hl Hcomplete
                           ltac:(discriminate))
                 as (e & w' & out & -> & _ & _ & _ & [Hb|Hb] & _);
               simpl snd; rewrite Hb;
               [exists []; rewrite app_nil_r; split; [reflexivity | simpl; lia]
               |eexists [_]; split; [reflexivity | simpl; lia]]).
        destruct Hx as [e ->]. exists []. simpl. rewrite app_nil_r.
        split; [reflexivity | lia].
  - rewrite (do_GET_no_code urlparse_query parse_qs _ _ Hp Hc).
    eexists [_]. simpl. split; [reflexivity | lia].
Qed.

Lemma serve_forever_browser incoming w :
  exists answers,
    browser (snd (serve incoming w)) = browser w ++ answers
    /\ (length answers <= 2 * length incoming)%nat.
Proof.
  revert w. induction incoming as [|path rest IH]; intros w.
  - exists []. simpl. rewrite app_nil_r. split; [reflexivity | lia].
  - destruct (do_GET_browser path w) as (a1 & Hb1 & Hl1).
    simpl serve_forever. unfold bind, try_except.
    destruct (handle path w) as [[[]|e|c] w1]; simpl in Hb1.
    + destruct (IH w1) as (a2 & Hb2 & Hl2). simpl.
      destruct (serve rest w1) as [[[]|e'|c'] w2]; simpl in *;
        exists (a1 ++ a2); rewrite Hb2, Hb1, <- List.app_assoc;
        (split; [reflexivity | rewrite length_app; lia]).
    + destruct (IH w1) as (a2 & Hb2 & Hl2). simpl.
      destruct (serve rest w1) as [[[]|e'|c'] w2]; simpl in *;
        exists (a1 ++ a2); rewrite Hb2, Hb1, <- List.app_assoc;
        (split; [reflexivity | rewrite length_app; lia]).
    + simpl. exists a1. split; [exact Hb1 | simpl; lia].
Qed.

Lemma serve_forever_effect incoming w :
  match serve incoming w with
  | (Ret _, w') => forall p, p <> env_path -> fs w' !! p = fs w !! p
  | (Raise _, _) => False
  | (Exit c, _) => c = 0
  end.
Proof.
  revert w. induction incoming as [|path rest IH]; intros w; [now simpl|].
  simpl. unfold bind, try_except.
  pose proof (do_GET_effect urlparse_query parse_qs path w) as Hstep.
  destruct (handle path w) as [[[]|e|c] w1]; simpl; [| |exact Hstep];
    destruct Hstep as [_ Hfs]; specialize (IH w1);
    destruct (serve rest w1) as [[[]|e'|c'] w2]; try exact IH;
    intros p Hp; now rewrite IH, Hfs.
Qed.

(** X25.  The setup script, its port bound, opens the browser at the
    authorization address before it handles any request, and sends a
    request at most a status line and a page: no exception of a handler
    ends it, it ends with code 0 only, and as long as it is listening no
    file but, possibly, the credentials file has changed. *)
Theorem setup_main_outcomes :
  forall (incoming : list string) (w : World),
    let (o, w') := main urlparse_query parse_qs incoming w in
    (exists answers,
       browser w' = browser w ++ OpenUrl auth_url :: answers
       /\ (length answers <= 2 * length incoming)%nat)
    /\ match o with
       | Ret _ => forall p, p <> env_path -> fs w' !! p = fs w !! p
       | Raise _ => False
       | Exit c => c = 0
       end.
Proof.
  intros incoming w. unfold main. run.
  match goal with
  | |- context [serve_forever _ _ _ ?w0] =>
      pose proof (serve_forever_browser incoming w0) as (answers & Hb & Hl);
      pose proof (serve_forever_effect incoming w0) as He;
      destruct (serve incoming w0) as [o w']
  end.
  simpl in Hb. split.
  - exists answers. rewrite Hb, <- List.app_assoc. now split.
  - destruct o; exact He.
Qed.

End SetupRuns.

(* ===================================================================== *)
(** ** The further properties on concrete stores *)
(* ===================================================================== *)

Section FurtherInstances.

Import Py Store Reading Listing Scenario Cases.

Abbreviation callback := "/oauth_callback?code=AUTHCODE".
Abbreviation granted := (reply 200 "" [("access_token", "NEW")]).
Abbreviation granted_tokens := (object [("access_token", "NEW")]).
Abbreviation granted_both := (reply 200 "" both_tokens).
Abbreviation granted_both_tokens := (object both_tokens).

Lemma load_env_last_line_wins_witness :
  exists env,
    DropboxRefreshToken.load_env twice = (Ret env, twice)
    /\ env !! "DROPBOX_APP_KEY" = Some "two".
Proof.
  apply (load_env_last_line_wins twice ["DROPBOX_APP_KEY=one" +:+ NL] []
           ("DROPBOX_APP_KEY=two" +:+ NL) "DROPBOX_APP_KEY" "two").
  - vm_compute. reflexivity.
  - vm_compute. reflexivity.
  - constructor.
Defined.

Lemma load_env_missing_key_witness :
  exists env,
    DropboxRefreshToken.load_env unconfigured = (Ret env, unconfigured)
    /\ env !! "DROPBOX_ACCESS_TOKEN" = None.
Proof.
  apply (load_env_missing_key unconfigured "DROPBOX_ACCESS_TOKEN").
  change (store_lines unconfigured) with (@nil string). constructor.
Defined.

Lemma load_env_line_key_value_witness :
  DropboxRefreshToken.load_env_line ∅ ("TOKEN" +:+ "=" +:+ "a=b  " +:+ NL)
  = <["TOKEN" := rstrip "a=b  "]> ∅
  /\ DropboxApi.load_env_line ∅ ("TOKEN" +:+ "=" +:+ "a=b  " +:+ NL)
       unconfigured
     = (Ret (<["TOKEN" := rstrip "a=b  "]> ∅), unconfigured).
Proof.
  apply (load_env_line_key_value ∅ "TOKEN" "a=b  " unconfigured).
  - discriminate.
  - reflexivity.
  - reflexivity.
  - reflexivity.
Defined.


Lemma refresh_then_load_env_witness :
  exists (w' : World) (env' : gmap string string),
    DropboxRefreshToken.refresh_access_token (stale 401) = (Ret true, w')
    /\ DropboxRefreshToken.load_env w' = (Ret env', w')
    /\ env' !! "DROPBOX_ACCESS_TOKEN" = Some "NEW".
Proof.
  destruct (refresh_then_load_env (stale 401) (stored_env (stale 401))
              "R" stale_store granted granted_tokens "NEW")
    as (w' & env' & Hrun & Henv & _ & Haccess).
  - vm_compute. reflexivity.
  - vm_compute. reflexivity.
  - discriminate.
  - vm_compute. reflexivity.
  - vm_compute. reflexivity.
  - reflexivity.
  - reflexivity.
  - vm_compute. reflexivity.
  - reflexivity.
  - exists w', env'. split; [exact Hrun|]. split; [exact Henv|].
    apply Haccess; [vm_compute; reflexivity|].
    exists "OLD". vm_compute. reflexivity.
Defined.

Lemma main_confirms_with_new_token_witness :
  net (snd (DropboxRefreshToken.main (stale 401)))
  = net (stale 401)
    ++ [DropboxRefreshToken.probe_request "OLD";
        DropboxRefreshToken.refresh_request "R"
          (stored_env (stale 401) !! "DROPBOX_APP_KEY")
          (stored_env (stale 401) !! "DROPBOX_APP_SECRET");
        DropboxRefreshToken.probe_request (rstrip "NEW")].
Proof.
  apply (main_confirms_with_new_token (stale 401) (stored_env (stale 401))
           "OLD" "R" stale_store (reply 401 "oops" []) granted granted_tokens
           "NEW").
  - vm_compute. reflexivity.
  - vm_compute. reflexivity.
  - discriminate.
  - vm_compute. reflexivity.
  - discriminate.
  - vm_compute. reflexivity.
  - vm_compute. reflexivity.
  - vm_compute. reflexivity.
  - vm_compute. discriminate.
  - vm_compute. reflexivity.
  - reflexivity.
  - reflexivity.
  - vm_compute. reflexivity.
  - reflexivity.
  - vm_compute. discriminate.
Defined.


Lemma exchange_leaves_one_line_per_token_witness :
  exists (w' : World),
    DropboxOAuthSetup.do_GET whole_path with_code callback first_grant
    = (Exit 0, w')
    /\ List.filter (fun l => startswith l access_prefix) (store_lines w')
       = [access_prefix +:+ "NEW" +:+ String LF ""].
Proof.
  destruct (exchange_leaves_one_line_per_token whole_path with_code callback
              first_grant "AUTHCODE" [] granted_both granted_both_tokens "NEW")
    as (w' & Hrun & Haccess & _).
  - reflexivity.
  - vm_compute. reflexivity.
  - discriminate.
  - vm_compute. reflexivity.
  - reflexivity.
  - vm_compute. reflexivity.
  - reflexivity.
  - vm_compute. reflexivity.
  - now exists w'.
Defined.

Lemma exchange_then_load_env_witness :
  exists (w' : World) (env' : gmap string string),
    DropboxOAuthSetup.do_GET whole_path with_code callback first_grant
    = (Exit 0, w')
    /\ DropboxRefreshToken.load_env w' = (Ret env', w')
    /\ env' !! "DROPBOX_ACCESS_TOKEN" = Some (rstrip "NEW")
    /\ env' !! "DROPBOX_REFRESH_TOKEN" = Some (rstrip "R2").
Proof.
  destruct (exchange_then_load_env whole_path with_code callback first_grant
              (stored_env first_grant) "AUTHCODE" [] granted_both
              granted_both_tokens "NEW")
    as (w' & env' & Hrun & Henv & Haccess & Hrefresh & _).
  - vm_compute. reflexivity.
  - reflexivity.
  - vm_compute. reflexivity.
  - discriminate.
  - vm_compute. reflexivity.
  - reflexivity.
  - vm_compute. reflexivity.
  - reflexivity.
  - vm_compute. reflexivity.
  - exists w', env'. split; [exact Hrun|]. split; [exact Henv|].
    split; [exact Haccess|]. apply Hrefresh. vm_compute. reflexivity.
Defined.

Lemma refresh_fails_after_exchange_without_refresh_token_witness :
  exists (w' : World),
    DropboxOAuthSetup.do_GET whole_path with_code callback (stale 200)
    = (Exit 0, w')
    /\ DropboxRefreshToken.refresh_access_token w'
       = (Ret false,
          log_stdout DropboxRefreshToken.msg_no_refresh_token w').
Proof.
  destruct (refresh_fails_after_exchange_without_refresh_token whole_path
              with_code callback (stale 200) "AUTHCODE" [] granted
              granted_tokens "NEW")
    as (w' & Hrun & Hlater).
  - reflexivity.
  - vm_compute. reflexivity.
  - discriminate.
  - vm_compute. reflexivity.
  - reflexivity.
  - vm_compute. reflexivity.
  - vm_compute. reflexivity.
  - reflexivity.
  - vm_compute. reflexivity.
  - exists w'. split; [exact Hrun|]. now apply Hlater.
Defined.

Lemma test_token_after_exchange_witness :
  exists (w' : World),
    DropboxOAuthSetup.do_GET whole_path with_code callback first_grant
    = (Exit 0, w')
    /\ net (snd (DropboxRefreshToken.test_token w'))
       = net w' ++ [DropboxRefreshToken.probe_request (rstrip "NEW")].
Proof.
  destruct (test_token_after_exchange whole_path with_code callback
              first_grant "AUTHCODE" [] granted_both granted_both_tokens
              "NEW")
    as (w' & Hrun & Hlater).
  - reflexivity.
  - vm_compute. reflexivity.
  - discriminate.
  - vm_compute. reflexivity.
  - reflexivity.
  - vm_compute. reflexivity.
  - reflexivity.
  - vm_compute. reflexivity.
  - vm_compute. discriminate.
  - exists w'. split; [exact Hrun|]. now apply Hlater.
Defined.


Lemma only_list_files_checks_the_token_witness :
  DropboxApi.list_files unconfigured
  = (Ret [], log_stdout "❌ No access token found" unconfigured)
  /\ net (snd (DropboxApi.delete_file "/a.png" unconfigured))
     = net unconfigured
       ++ [DropboxApi.delete_request
             (stored_env unconfigured !! "DROPBOX_ACCESS_TOKEN") "/a.png"].
Proof.
  destruct (only_list_files_checks_the_token unconfigured)
    as (Hlist & _ & Hdelete & _).
  - reflexivity.
  - reflexivity.
  - split; [exact Hlist | apply Hdelete].
Defined.




Lemma main_ends_normally_witness :
  DropboxApi.main ["dropbox-api.py"; "delete"; "/a.png"; "more"] serving
  = (Ret tt, snd (DropboxApi.delete_file "/a.png" serving)).
Proof.
  destruct (main_ends_normally serving "dropbox-api.py" "/a.png" "" ["more"])
    as (_ & _ & Hdelete & _).
  - vm_compute. reflexivity.
  - exact Hdelete.
Defined.

Lemma refresh_keeps_store_readable_witness :
  exists (w' : World),
    DropboxRefreshToken.refresh_access_token (stale 401) = (Ret true, w')
    /\ forallb parsable (store_lines w')
       = forallb parsable (store_lines (stale 401)).
Proof.
  destruct (refresh_keeps_store_readable (stale 401)
              (stored_env (stale 401)) "R" stale_store granted granted_tokens
              "NEW")
    as (w' & Hrun & Hsame & _).
  - vm_compute. reflexivity.
  - vm_compute. reflexivity.
  - discriminate.
  - vm_compute. reflexivity.
  - vm_compute. reflexivity.
  - reflexivity.
  - reflexivity.
  - vm_compute. reflexivity.
  - reflexivity.
  - now exists w'.
Defined.

Lemma list_files_after_exchange_witness :
  exists (w' : World),
    DropboxOAuthSetup.do_GET whole_path with_code callback first_grant
    = (Exit 0, w')
    /\ net (snd (DropboxApi.list_files w'))
       = net w' ++ [DropboxApi.list_request (Some (rstrip "NEW"))].
Proof.
  destruct (list_files_after_exchange whole_path with_code callback
              first_grant "AUTHCODE" [] granted_both granted_both_tokens
              "NEW")
    as (w' & Hrun & Hlater).
  - reflexivity.
  - vm_compute. reflexivity.
  - discriminate.
  - vm_compute. reflexivity.
  - reflexivity.
  - vm_compute. reflexivity.
  - reflexivity.
  - vm_compute. reflexivity.
  - vm_compute. discriminate.
  - vm_compute. reflexivity.
  - exists w'. split; [exact Hrun|]. now apply Hlater.
Defined.

End FurtherInstances.

